(** * FinSight AI API: a shallow embedding of the tool layer, the
    conversation store and the orchestration service.

    Conventions of the embedding.
    - Python floats and ints are exact rationals ([Q]); rounding to two
      decimals is round-half-even on the rational.  Binary floating-point
      rounding error is outside the model.
    - Python strings are [string]; [len] is [String.length].
    - A Python exception is a value of [exn]; code that may raise returns
      [exc A].  [BaseException]s that are not [Exception]s (interrupts) are
      outside the model.
    - A [Dict[str, Any]] is an association list in insertion order, its
      values being dynamic values ([pyval]); the conversation store, a dict
      keyed by conversation id, is a [gmap].
    - The outside world (HTTP replies, the clock, uuid4, the LLM agent) is an
      explicit argument. *)

From Stdlib Require Import ZArith QArith Qround Qabs Lqa String Ascii List Bool Lia.
From Stdlib Require Import Sorting.Sorted Sorting.Permutation.
From stdpp Require Import base option list strings pretty gmap.
Import ListNotations.

Local Open Scope Z_scope.

(* ===================================================================== *)
(** * Python values, exceptions and built-ins *)
(* ===================================================================== *)

Module Py.

Inductive exn_kind :=
  | TypeError | KeyError | IndexError | ValueError | AttributeError
  | ValidationError | HTTPError | AgentException.

Record exn := Exn { exn_class : exn_kind; exn_msg : string }.

Inductive exc (A : Type) :=
  | Ok (a : A)
  | Raise (e : exn).
Arguments Ok {A} a.
Arguments Raise {A} e.

#[global] Instance exc_ret : MRet exc := fun A a => Ok a.
#[global] Instance exc_bind : MBind exc := fun A B k m =>
  match m with
  | Ok a => k a
  | Raise e => Raise e
  end.

(** [try: m except Exception as e: h e] *)
Definition try_except {A} (m : exc A) (h : exn -> A) : A :=
  match m with
  | Ok a => a
  | Raise e => h e
  end.

(** Code that mutates a state and may raise: the mutations made before the
    exception stay. *)
Definition SE (S A : Type) : Type := S -> S * exc A.

#[global] Instance SE_ret S : MRet (SE S) := fun A a s => (s, Ok a).
#[global] Instance SE_bind S : MBind (SE S) := fun A B k m s =>
  match m s with
  | (s', Ok a) => k a s'
  | (s', Raise e) => (s', Raise e)
  end.

Definition lift {S A} (m : exc A) : SE S A := fun s => (s, m).

(** JSON-like dynamic values. *)
#[warnings="-register-all"]
Inductive pyval :=
  | PNone
  | PBool (b : bool)
  | PNum (q : Q)
  | PStr (s : string)
  | PList (l : list pyval)
  | PDict (d : list (string * pyval)).

Definition pydict := list (string * pyval).

(** [d.get(k, default)] *)
Fixpoint dict_get (k : string) (d : pydict) (default : pyval) : pyval :=
  match d with
  | [] => default
  | (k', v) :: d' => if String.eqb k k' then v else dict_get k d' default
  end.

(** [d.get(k)], [None] when absent. *)
Definition dict_lookup (k : string) (d : pydict) : pyval := dict_get k d PNone.

(** Truthiness. *)
Definition truthy (v : pyval) : bool :=
  match v with
  | PNone => false
  | PBool b => b
  | PNum q => negb (Qeq_bool q 0)
  | PStr s => negb (String.eqb s "")
  | PList l => match l with [] => false | _ => true end
  | PDict d => match d with [] => false | _ => true end
  end.

(** [v == "literal"] *)
Definition eq_str (v : pyval) (s : string) : bool :=
  match v with
  | PStr t => String.eqb t s
  | _ => false
  end.

Definition Qltb (x y : Q) : bool := negb (Qle_bool y x).

Definition num_of_bool (b : bool) : Q := if b then 1%Q else 0%Q.

(** [v > n] and [v < n] for a numeric literal [n]; ordering a non-number
    against a number raises [TypeError]. *)
Definition gt_num (v : pyval) (n : Q) : exc bool :=
  match v with
  | PNum q => Ok (Qltb n q)
  | PBool b => Ok (Qltb n (num_of_bool b))
  | _ => Raise (Exn TypeError "'>' not supported between these instances")
  end.

Definition lt_num (v : pyval) (n : Q) : exc bool :=
  match v with
  | PNum q => Ok (Qltb q n)
  | PBool b => Ok (Qltb (num_of_bool b) n)
  | _ => Raise (Exn TypeError "'<' not supported between these instances")
  end.

(** [len(v)] *)
Definition py_len (v : pyval) : exc nat :=
  match v with
  | PStr s => Ok (String.length s)
  | PList l => Ok (length l)
  | PDict d => Ok (length d)
  | _ => Raise (Exn TypeError "object has no len()")
  end.

(** Resolution of a slice bound against a sequence of length [n]. *)
Definition clamp_bound (n : Z) (k : Z) : Z :=
  if k <? 0 then Z.max 0 (n + k) else Z.min n k.

(** [l[lo:hi]] with optional, possibly negative bounds. *)
Definition slice {A} (l : list A) (lo hi : option Z) : list A :=
  let n := Z.of_nat (length l) in
  let a := match lo with Some k => clamp_bound n k | None => 0 end in
  let b := match hi with Some k => clamp_bound n k | None => n end in
  firstn (Z.to_nat (b - a)) (skipn (Z.to_nat a) l).

(** [l[k]] with a possibly negative index. *)
Definition index {A} (l : list A) (k : Z) : exc A :=
  let n := Z.of_nat (length l) in
  let i := if k <? 0 then n + k else k in
  if (i <? 0) || (n <=? i) then Raise (Exn IndexError "list index out of range")
  else match nth_error l (Z.to_nat i) with
       | Some x => Ok x
       | None => Raise (Exn IndexError "list index out of range")
       end.

(** [[x for x in l if x is not None]] *)
Fixpoint not_none {A} (l : list (option A)) : list A :=
  match l with
  | [] => []
  | Some x :: l' => x :: not_none l'
  | None :: l' => not_none l'
  end.

Definition sum (l : list Q) : Q := fold_left Qplus l 0%Q.

(** [min] and [max] of a non-empty list: the first extremal element. *)
Definition min_from (x : Q) (l : list Q) : Q :=
  fold_left (fun m y => if Qltb y m then y else m) l x.
Definition max_from (x : Q) (l : list Q) : Q :=
  fold_left (fun m y => if Qltb m y then y else m) l x.

(** [sorted(l)]: a stable sort. *)
Fixpoint insert_sorted (x : Q) (l : list Q) : list Q :=
  match l with
  | [] => [x]
  | y :: l' => if Qltb x y then x :: y :: l' else y :: insert_sorted x l'
  end.

Definition sorted (l : list Q) : list Q :=
  fold_left (fun acc x => insert_sorted x acc) l [].

(** Round-half-even to an integer. *)
Definition round_half_even (x : Q) : Z :=
  let f := Qfloor x in
  let r := (x - inject_Z f)%Q in
  if Qltb r (1 # 2) then f
  else if Qltb (1 # 2) r then f + 1
  else if Z.even f then f else f + 1.

(** [round(x, 2)] *)
Definition round2 (x : Q) : Q :=
  Qred (inject_Z (round_half_even (x * 100)) / 100).

(** [int(x)]: truncation toward zero. *)
Definition int (x : Q) : Z := Z.quot (Qnum x) (Zpos (Qden x)).

Definition two_digits (n : Z) : string :=
  (if n <? 10 then "0" else "") +:+ pretty n.

(** [f"{x:.2f}"] *)
Definition fmt2f (x : Q) : string :=
  let c := round_half_even (Qabs x * 100) in
  (if Qltb x 0 then "-" else "") +:+ pretty (c / 100) +:+ "." +:+ two_digits (c mod 100).

(** [s.upper()] on ASCII letters. *)
Definition upper_ascii (c : ascii) : ascii :=
  let n := nat_of_ascii c in
  if (97 <=? n)%nat && (n <=? 122)%nat then ascii_of_nat (n - 32) else c.

Fixpoint upper (s : string) : string :=
  match s with
  | EmptyString => EmptyString
  | String c s' => String (upper_ascii c) (upper s')
  end.

Fixpoint lower (s : string) : string :=
  match s with
  | EmptyString => EmptyString
  | String c s' =>
      let n := nat_of_ascii c in
      String (if (65 <=? n)%nat && (n <=? 90)%nat then ascii_of_nat (n + 32) else c)
             (lower s')
  end.

(** [sub in s] *)
Fixpoint contains (sub s : string) : bool :=
  String.prefix sub s ||
  match s with
  | EmptyString => false
  | String _ s' => contains sub s'
  end.

(** [sep.join(l)] *)
Fixpoint join (sep : string) (l : list string) : string :=
  match l with
  | [] => ""
  | [x] => x
  | x :: l' => x +:+ sep +:+ join sep l'
  end.

Definition in_list (s : string) (l : list string) : bool :=
  existsb (String.eqb s) l.

(** [s.endswith(t)] *)
Fixpoint ends_with (s t : string) : bool :=
  String.eqb s t ||
  match s with
  | EmptyString => false
  | String _ s' => ends_with s' t
  end.

(** [c * n] *)
Fixpoint replicate_char (n : nat) (c : ascii) : string :=
  match n with
  | O => EmptyString
  | S n' => String c (replicate_char n' c)
  end.

(** Every number that occurs in a value, at any depth. *)
Fixpoint nums (v : pyval) : list Q :=
  match v with
  | PNum q => [q]
  | PList l => flat_map nums l
  | PDict d => flat_map (fun kv => nums (snd kv)) d
  | _ => []
  end.

(** A rendering used to instantiate the formatting parameters ([str] and
    [repr]) on concrete inputs.  It agrees with Python on [None], booleans,
    integers, and strings free of quotes and escapes; a fraction, which a
    Python float would print in decimal, is shown as [n/d]. *)
Fixpoint repr_plain (v : pyval) : string :=
  match v with
  | PNone => "None"
  | PBool b => if b then "True" else "False"
  | PNum q => pretty (Qnum q)
              +:+ (if Pos.eqb (Qden q) 1 then "" else "/" +:+ pretty (Zpos (Qden q)))
  | PStr s => "'" +:+ s +:+ "'"
  | PList l => "[" +:+ join ", " (map repr_plain l) +:+ "]"
  | PDict d =>
      "{" +:+ join ", " (map (fun kv => "'" +:+ fst kv +:+ "': " +:+ repr_plain (snd kv)) d)
      +:+ "}"
  end.

Definition str_plain (v : pyval) : string :=
  match v with
  | PStr s => s
  | _ => repr_plain v
  end.

Definition dict_repr_plain (d : pydict) : string := repr_plain (PDict d).

End Py.

Import Py.

(* ===================================================================== *)
(** * app/agents/tools/price_tool.py *)
(* ===================================================================== *)

Module PriceTool.

Record PriceAnalysisResult := mkPriceAnalysisResult {
  symbol : string;
  current_price : Q;
  price_change_percentage : Q;
  price_range : string;
  trend_direction : string;
  volume_trend : string;
  support_levels : list Q;
  resistance_levels : list Q;
  moving_averages : list (string * Q);
  rsi : option Q;
  timestamp : Z
}.

(** [result['indicators']['quote'][0]]: four series whose entries may be
    null. *)
Record Quotes := mkQuotes {
  high : list (option Q);
  low : list (option Q);
  close : list (option Q);
  volume : list (option Q)
}.

Definition suffixes : list string := ["-USD"; ".SA"; ".AX"; ".L"; ".TO"].

Definition crypto_tickers : list string :=
  ["BTC"; "ETH"; "USDT"; "BNB"; "XRP"; "SOL"; "USDC"; "DOGE"; "ADA"; "TRX";
   "LINK"; "LTC"; "BCH"; "XLM"; "SUI"; "AVAX"; "HBAR"; "ZEC"; "ETC"; "NEO";
   "XMR"; "DOGE"; "FIL"; "APE"; "MKR"; "ATOM"; "THETA"; "EOS"; "ALGO"; "VET"].

Definition format_symbol (symbol : string) : string :=
  let symbol_upper := upper symbol in
  let has_suffix := existsb (fun ext => contains ext symbol_upper) suffixes in
  if negb has_suffix then
    if in_list symbol_upper crypto_tickers then symbol_upper +:+ "-USD"
    else symbol_upper
  else symbol_upper.

Definition period_map : list (string * string) :=
  [("1week", "5d"); ("2weeks", "10d"); ("1month", "1mo");
   ("3months", "3mo"); ("6months", "6mo"); ("1year", "1y")].

Fixpoint assoc_get (k : string) (d : list (string * string)) (default : string) : string :=
  match d with
  | [] => default
  | (k', v) :: d' => if String.eqb k k' then v else assoc_get k d' default
  end.

Definition none_operand : exn :=
  Exn TypeError "unsupported operand type(s): 'NoneType'".

(** [closes[-1] if closes else 0] *)
Definition current_price_of (closes : list (option Q)) : exc (option Q) :=
  match closes with
  | [] => Ok (Some 0%Q)
  | _ => index closes (-1)
  end.

(** [closes[0] if closes else current_price] *)
Definition start_price_of (closes : list (option Q)) (current : option Q) : exc (option Q) :=
  match closes with
  | [] => Ok current
  | _ => index closes 0
  end.

(** [((current - start) / start * 100) if start else 0] *)
Definition price_change_pct (current start : option Q) : exc Q :=
  match start with
  | Some s =>
      if negb (Qeq_bool s 0) then
        match current with
        | Some c => Ok ((c - s) / s * 100)%Q
        | None => Raise none_operand
        end
      else Ok 0%Q
  | None => Ok 0%Q
  end.

Definition price_range_of (highs lows : list (option Q)) : string :=
  let valid_highs := not_none highs in
  let valid_lows := not_none lows in
  match valid_highs, valid_lows with
  | h :: hs, l :: ls =>
      "$" +:+ fmt2f (min_from l ls) +:+ "-$" +:+ fmt2f (max_from h hs)
  | _, _ => "N/A"
  end.

(** [a > b] on two entries of a series; a null operand raises. *)
Definition gt_opt (a b : option Q) : exc bool :=
  match a, b with
  | Some x, Some y => Ok (Qltb y x)
  | _, _ => Raise none_operand
  end.

Definition lt_opt (a b : option Q) : exc bool :=
  match a, b with
  | Some x, Some y => Ok (Qltb x y)
  | _, _ => Raise none_operand
  end.

Definition recent_trend_of (closes : list (option Q)) : exc string :=
  if (5 <=? length closes)%nat then
    c1 ← index closes (-1);
    c5 ← index closes (-5);
    up ← gt_opt c1 c5;
    if up : bool then Ok "bullish"
    else
      c1' ← index closes (-1);
      c5' ← index closes (-5);
      down ← lt_opt c1' c5';
      Ok (if down : bool then "bearish" else "neutral")
  else Ok "neutral".

Definition mean (l : list Q) : Q := (sum l / inject_Z (Z.of_nat (length l)))%Q.

Definition volume_trend_of (volumes : list (option Q)) : string :=
  if match volumes with [] => false | _ => true end && (5 <=? length volumes)%nat then
    let recent_volumes := not_none (slice volumes (Some (-5)) None) in
    match recent_volumes with
    | [] => "unknown"
    | _ =>
        let recent_volume := mean recent_volumes in
        let earlier_volumes := not_none (slice volumes (Some (-10)) (Some (-5))) in
        let earlier_volume :=
          match earlier_volumes with
          | [] => recent_volume
          | _ => mean earlier_volumes
          end in
        if Qltb earlier_volume recent_volume then "increasing" else "decreasing"
    end
  else "stable".

Definition _calculate_support_resistance
    (prices : list (option Q)) (level_type : string) : exc (list Q) :=
  match prices with
  | [] => Ok []
  | _ =>
      let valid_prices := not_none prices in
      match valid_prices with
      | [] => Ok []
      | p :: ps =>
          let n := Z.of_nat (length valid_prices) in
          significant_levels ←
            (if String.eqb level_type "support" then
               if 10 <? n then
                 x ← index (sorted valid_prices) (n / 10);
                 Ok [min_from p ps; x]
               else Ok [min_from p ps]
             else
               if 10 <? n then
                 x ← index (sorted valid_prices) (- n / 10);
                 Ok [max_from p ps; x]
               else Ok [max_from p ps]);
          Ok (map round2 significant_levels)
      end
  end.

Definition _calculate_moving_averages (prices : list (option Q)) : exc (list (string * Q)) :=
  let valid_prices := not_none prices in
  match valid_prices with
  | [] => Ok []
  | _ =>
      let n := length valid_prices in
      ma_20 ←
        (if (5 <=? n)%nat then
           Ok (Qdiv (sum (slice valid_prices (Some (-20)) None))
                    (inject_Z (Z.of_nat (Nat.min 20 n))))
         else index valid_prices (-1));
      ma_50 ←
        (if (10 <=? n)%nat then
           Ok (Qdiv (sum (slice valid_prices (Some (-50)) None))
                    (inject_Z (Z.of_nat (Nat.min 50 n))))
         else Ok ma_20);
      Ok [("MA_20", round2 ma_20); ("MA_50", round2 ma_50)]
  end.

(** The pydantic constructor: [current_price: float] rejects [None]. *)
Definition validate_float (name : string) (v : option Q) : exc Q :=
  match v with
  | Some x => Ok x
  | None => Raise (Exn ValidationError (name +:+ ": Input should be a valid number"))
  end.

Section World.
(** The HTTP round trip, [raise_for_status] and the JSON navigation down
    to the quote series: the reply for a resolved symbol, a range and an
    interval. *)
Variable fetch : string -> string -> string -> exc Quotes.
(** [datetime.now()] *)
Variable now : Z.

(** The body of the [try] block. *)
Definition get_price_data_try (symbol period interval : string) : exc PriceAnalysisResult :=
  let formatted_symbol := format_symbol symbol in
  let yahoo_period := assoc_get period period_map "1mo" in
  quotes ← fetch formatted_symbol yahoo_period interval;
  let highs := high quotes in
  let lows := low quotes in
  let closes := close quotes in
  let volumes := volume quotes in
  current ← current_price_of closes;
  start ← start_price_of closes current;
  change ← price_change_pct current start;
  let range := price_range_of highs lows in
  recent_trend ← recent_trend_of closes;
  let vtrend := volume_trend_of volumes in
  support ← _calculate_support_resistance lows "support";
  resistance ← _calculate_support_resistance highs "resistance";
  mas ← _calculate_moving_averages closes;
  cp ← validate_float "current_price" current;
  Ok {| symbol := symbol;
        current_price := cp;
        price_change_percentage := round2 change;
        price_range := range;
        trend_direction := recent_trend;
        volume_trend := vtrend;
        support_levels := support;
        resistance_levels := resistance;
        moving_averages := mas;
        rsi := None;
        timestamp := now |}.

(** [except Exception as e: logger.error(...)]: the handler has no
    [return], so the call evaluates to [None].  The second component is
    what was logged. *)
Definition get_price_data_logged (symbol period interval : string)
    : option PriceAnalysisResult * list string :=
  match get_price_data_try symbol period interval with
  | Ok r => (Some r, [])
  | Raise e => (None, ["Exception while getting price data: " +:+ exn_msg e +:+ " "])
  end.

Definition get_price_data (symbol period interval : string) : option PriceAnalysisResult :=
  fst (get_price_data_logged symbol period interval).

End World.

End PriceTool.

(* ===================================================================== *)
(** * app/agents/tools/news_tool.py *)
(* ===================================================================== *)

Module NewsTool.

Record NewsArticle := mkNewsArticle {
  title : string;
  source : string;
  published_at : string;
  description : option string;
  url : option string;
  sentiment : option string
}.

Record NewsAnalysisResult := mkNewsAnalysisResult {
  symbol : string;
  articles : list NewsArticle;
  overall_sentiment : string;
  fear_greed_index : Z;
  key_themes : list string;
  timestamp : Z
}.

(** Truthiness of an [Optional[str]]. *)
Definition truthy_str (o : option string) : bool :=
  match o with
  | Some s => negb (String.eqb s "")
  | None => false
  end.

(** [sum(1 for word in words if word in text)] *)
Definition count_hits (words : list string) (text : string) : nat :=
  length (List.filter (fun w => contains w text) words).

Definition positive_words : list string :=
  ["bullish"; "positive"; "strong"; "record"; "beat"; "growth"; "profit"; "gain"; "rise"; "up"].
Definition negative_words : list string :=
  ["bearish"; "negative"; "weak"; "loss"; "fall"; "drop"; "decline"; "risk"; "concern"; "down"].

Definition _analyze_sentiment (text : string) : string :=
  let text_lower := lower text in
  let positive_count := count_hits positive_words text_lower in
  let negative_count := count_hits negative_words text_lower in
  if (negative_count <? positive_count)%nat then "positive"
  else if (positive_count <? negative_count)%nat then "negative"
  else "neutral".

(** [[article.sentiment for article in articles if article.sentiment]] *)
Fixpoint sentiments_of (articles : list NewsArticle) : list string :=
  match articles with
  | [] => []
  | a :: rest =>
      match sentiment a with
      | Some s => if negb (String.eqb s "") then s :: sentiments_of rest
                  else sentiments_of rest
      | None => sentiments_of rest
      end
  end.

(** [l.count(x)] *)
Definition count (x : string) (l : list string) : nat :=
  length (List.filter (String.eqb x) l).

Definition _calculate_overall_sentiment (articles : list NewsArticle) : string :=
  match articles with
  | [] => "neutral"
  | _ =>
      let sentiments := sentiments_of articles in
      let positive_count := count "positive" sentiments in
      let negative_count := count "negative" sentiments in
      if (negative_count <? positive_count)%nat then "positive"
      else if (positive_count <? negative_count)%nat then "negative"
      else "neutral"
  end.

Definition adjustments : list (string * Q) :=
  [("positive", 10%Q); ("negative", (-10)%Q); ("neutral", 0%Q)].

Fixpoint adjustment_get (k : string) (d : list (string * Q)) (default : Q) : Q :=
  match d with
  | [] => default
  | (k', v) :: d' => if String.eqb k k' then v else adjustment_get k d' default
  end.

Definition Q_of_nat (n : nat) : Q := inject_Z (Z.of_nat n).

Definition _calculate_fear_greed_index (articles : list NewsArticle) : Z :=
  match articles with
  | [] => 50
  | _ =>
      let sentiments := sentiments_of articles in
      let positive_count := count "positive" sentiments in
      let total := length sentiments in
      if (total =? 0)%nat then 50
      else
        let base_score := (Q_of_nat positive_count / Q_of_nat total * 100)%Q in
        let overall_sentiment := _calculate_overall_sentiment articles in
        let adjusted_score :=
          (base_score + adjustment_get overall_sentiment adjustments 0)%Q in
        Z.max 0 (Z.min 100 (int adjusted_score))
  end.

Definition any_in (words : list string) (text : string) : bool :=
  existsb (fun w => contains w text) words.

Definition themes_of_title (t : string) : list string :=
  let title_lower := lower t in
  (if any_in ["earnings"; "profit"; "revenue"] title_lower then ["Financial Performance"] else [])
  ++ (if any_in ["product"; "launch"; "release"] title_lower then ["Product Development"] else [])
  ++ (if any_in ["regulation"; "legal"; "law"] title_lower then ["Regulatory Environment"] else [])
  ++ (if any_in ["partnership"; "deal"; "acquisition"] title_lower then ["Business Partnerships"] else [])
  ++ (if any_in ["market"; "trading"; "volume"] title_lower then ["Market Activity"] else []).

(** One row of the mock table: title, source, sentiment. *)
Definition mock_item : Type := string * string * string.

Definition mock_news : list (string * list mock_item) :=
  [("AAPL",
    [("Apple announces record iPhone sales", "Bloomberg", "positive");
     ("New Apple AI features impress analysts", "CNBC", "positive");
     ("Apple faces regulatory challenges in EU", "Reuters", "negative")]);
   ("TSLA",
    [("Tesla deliveries exceed expectations", "Wall Street Journal", "positive");
     ("New Tesla factory accelerates production", "Bloomberg", "positive");
     ("Tesla faces competition from legacy automakers", "Reuters", "negative")]);
   ("BTC",
    [("Bitcoin ETF approvals drive institutional adoption", "CoinDesk", "positive");
     ("Regulatory clarity improves for cryptocurrencies", "Bloomberg", "positive");
     ("Market volatility concerns persist", "Reuters", "negative")])].

Definition generic_news : list mock_item :=
  [("Strong quarterly earnings reported", "Financial Times", "positive");
   ("Market shows positive momentum", "Bloomberg", "positive");
   ("Economic uncertainty affects performance", "Reuters", "negative")].

Fixpoint mock_get (k : string) (d : list (string * list mock_item))
    (default : list mock_item) : list mock_item :=
  match d with
  | [] => default
  | (k', v) :: d' => if String.eqb k k' then v else mock_get k d' default
  end.

(** [enumerate(l)] *)
Fixpoint enumerate_from {A} (i : nat) (l : list A) : list (nat * A) :=
  match l with
  | [] => []
  | x :: l' => (i, x) :: enumerate_from (S i) l'
  end.

Section World.
(** Iteration order of [set(themes)], which Python leaves unspecified. *)
Variable set_order : list string -> list string.
(** [(datetime.now() - timedelta(days=i)).isoformat()] *)
Variable days_ago_iso : nat -> string.
(** [datetime.now()] *)
Variable now : Z.
(** [os.getenv("NEWS_API_KEY")] *)
Variable news_api_key : option string.
(** The HTTP round trip with [raise_for_status] and [response.json()],
    for a query string and a page size. *)
Variable http_get : string -> Z -> exc pyval.

Definition _extract_key_themes (articles : list NewsArticle) : list string :=
  let themes := flat_map (fun a => themes_of_title (title a)) articles in
  slice (set_order themes) None (Some 5).

Definition analyse (symbol : string) (articles : list NewsArticle) : NewsAnalysisResult :=
  let overall_sentiment := _calculate_overall_sentiment articles in
  let fear_greed_index := _calculate_fear_greed_index articles in
  let key_themes := _extract_key_themes articles in
  {| symbol := symbol;
     articles := articles;
     overall_sentiment := overall_sentiment;
     fear_greed_index := fear_greed_index;
     key_themes := key_themes;
     timestamp := now |}.

Definition _get_mock_news (symbol : string) (query : option string) (max_results : Z)
    : NewsAnalysisResult :=
  let symbol_news := mock_get (upper symbol) mock_news generic_news in
  let articles :=
    map (fun '(i, (t, src, sent)) =>
           {| title := t; source := src; published_at := days_ago_iso i;
              description := None; url := None; sentiment := Some sent |})
        (enumerate_from 0 (slice symbol_news None (Some max_results))) in
  analyse symbol articles.

(** A pydantic [str] field. *)
Definition validate_str (name : string) (v : pyval) : exc string :=
  match v with
  | PStr s => Ok s
  | _ => Raise (Exn ValidationError (name +:+ ": Input should be a valid string"))
  end.

(** A pydantic [Optional[str]] field. *)
Definition validate_opt_str (name : string) (v : pyval) : exc (option string) :=
  match v with
  | PNone => Ok None
  | PStr s => Ok (Some s)
  | _ => Raise (Exn ValidationError (name +:+ ": Input should be a valid string"))
  end.

(** [v.get(k, default)] on a value that must be a dict. *)
Definition obj_get (v : pyval) (k : string) (default : pyval) : exc pyval :=
  match v with
  | PDict d => Ok (dict_get k d default)
  | _ => Raise (Exn AttributeError "object has no attribute 'get'")
  end.

Definition article_of (article_data : pyval) : exc NewsArticle :=
  t ← obj_get article_data "title" (PStr "");
  src ← obj_get article_data "source" (PDict []);
  name ← obj_get src "name" (PStr "Unknown");
  pub ← obj_get article_data "publishedAt" (PStr "");
  desc ← obj_get article_data "description" PNone;
  u ← obj_get article_data "url" PNone;
  t' ← validate_str "title" t;
  name' ← validate_str "source" name;
  pub' ← validate_str "published_at" pub;
  desc' ← validate_opt_str "description" desc;
  u' ← validate_opt_str "url" u;
  let text := t' +:+ " " +:+ (if truthy_str desc' then default "" desc' else "") in
  Ok {| title := t'; source := name'; published_at := pub';
        description := desc'; url := u';
        sentiment := Some (_analyze_sentiment text) |}.

Fixpoint articles_of (l : list pyval) : exc (list NewsArticle) :=
  match l with
  | [] => Ok []
  | x :: l' =>
      a ← article_of x;
      rest ← articles_of l';
      Ok (a :: rest)
  end.

Definition _get_real_news (symbol : string) (query : option string) (max_results : Z)
    : exc NewsAnalysisResult :=
  let search_query :=
    if truthy_str query then default "" query
    else symbol +:+ " stock OR " +:+ symbol +:+ " shares OR " +:+ symbol +:+ " earnings" in
  data ← http_get search_query max_results;
  listed ← obj_get data "articles" (PList []);
  match listed with
  | PList l =>
      articles ← articles_of (slice l None (Some max_results));
      Ok (analyse symbol articles)
  | PStr s =>
      (* slicing a string yields a string; iterating it yields characters,
         which have no [get] *)
      match slice (list_ascii_of_string s) None (Some max_results) with
      | [] => Ok (analyse symbol [])
      | _ => Raise (Exn AttributeError "'str' object has no attribute 'get'")
      end
  | _ => Raise (Exn TypeError "object is not subscriptable")
  end.

Definition get_financial_news (symbol : string) (query : option string) (max_results : Z)
    : NewsAnalysisResult :=
  try_except
    (if truthy_str news_api_key then _get_real_news symbol query max_results
     else Ok (_get_mock_news symbol query max_results))
    (fun _ => _get_mock_news symbol query max_results).

End World.

End NewsTool.

(* ===================================================================== *)
(** * app/agents/tools/agent_tool.py *)
(* ===================================================================== *)

Module AgentTool.

(** The insight list is built by appending to a local list inside a [try]
    block: a computation threads the list and may stop with an exception,
    keeping what was appended before. *)
Abbreviation W := (SE (list string)).

(** [insights.append(s)] *)
Definition append (s : string) : W unit := fun insights => (insights ++ [s], Ok tt).

Definition when (b : bool) (m : W unit) : W unit := if b then m else mret tt.

(** The phrases of [_generate_combined_insights]. *)
Definition upward_phrase (change_pct : string) : string :=
  "Strong upward momentum with " +:+ change_pct +:+ "% gain over the period".
Definition downward_phrase (change_pct : string) : string :=
  "Facing downward pressure with " +:+ change_pct +:+ "% decline".
Definition volume_phrase : string := "Increasing trading volume supports the price trend".
Definition positive_phrase : string := "Positive market sentiment aligns with recent news flow".
Definition negative_phrase : string := "Market sentiment shows concerns that may impact performance".
Definition greed_phrase : string := "High greed index suggests optimistic market sentiment".
Definition fear_phrase : string := "Low fear index may indicate potential buying opportunity".
Definition headlines_phrase (n : nat) : string :=
  "Recent news includes " +:+ pretty n +:+ " key developments".
Definition generic_insight : string := "Analysis completed with available market data".
Definition limited_insight : string := "Limited insights available due to data constraints".

Section Tools.
(** [await price_tool.get_price_data(symbol, period)] as seen from the
    call site: it raises, or returns a record, or returns [None]. *)
Variable price_call : string -> string -> exc (option PriceTool.PriceAnalysisResult).
(** [await news_tool.get_financial_news(symbol, max_results=max_results)] *)
Variable news_call : string -> Z -> exc NewsTool.NewsAnalysisResult.
(** [str(v)] as used by f-strings. *)
Variable py_str : pyval -> string.

Definition price_response (result : PriceTool.PriceAnalysisResult) (period : string) : pydict :=
  [("symbol", PStr (PriceTool.symbol result));
   ("current_price", PNum (PriceTool.current_price result));
   ("price_change_percentage", PNum (PriceTool.price_change_percentage result));
   ("price_range", PStr (PriceTool.price_range result));
   ("trend_direction", PStr (PriceTool.trend_direction result));
   ("volume_trend", PStr (PriceTool.volume_trend result));
   ("support_levels", PList (map PNum (PriceTool.support_levels result)));
   ("resistance_levels", PList (map PNum (PriceTool.resistance_levels result)));
   ("moving_averages",
    PDict (map (fun '(k, v) => (k, PNum v)) (PriceTool.moving_averages result)));
   ("analysis_period", PStr period)].

Definition price_placeholder (symbol period : string) (e : exn) : pydict :=
  [("symbol", PStr symbol);
   ("current_price", PNum 0);
   ("price_change_percentage", PNum 0);
   ("price_range", PStr "N/A");
   ("trend_direction", PStr "unknown");
   ("volume_trend", PStr "unknown");
   ("support_levels", PList []);
   ("resistance_levels", PList []);
   ("moving_averages", PDict []);
   ("analysis_period", PStr period);
   ("error", PStr ("Failed to get price data: " +:+ exn_msg e))].

(** Attribute access on the value returned by the price tool. *)
Definition result_attrs (result : option PriceTool.PriceAnalysisResult)
    : exc PriceTool.PriceAnalysisResult :=
  match result with
  | Some r => Ok r
  | None => Raise (Exn AttributeError "'NoneType' object has no attribute 'symbol'")
  end.

Definition _get_price_analysis_impl (symbol period : string) : pydict :=
  try_except
    (result ← price_call symbol period;
     r ← result_attrs result;
     Ok (price_response r period))
    (price_placeholder symbol period).

Definition get_price_analysis (symbol period : string) : pydict :=
  _get_price_analysis_impl symbol period.

Definition news_response (result : NewsTool.NewsAnalysisResult) : pydict :=
  let arts := NewsTool.articles result in
  [("symbol", PStr (NewsTool.symbol result));
   ("overall_sentiment", PStr (NewsTool.overall_sentiment result));
   ("fear_greed_index", PNum (inject_Z (NewsTool.fear_greed_index result)));
   ("key_themes", PList (map PStr (NewsTool.key_themes result)));
   ("top_headlines", PList (map (fun a => PStr (NewsTool.title a)) arts));
   ("article_sentiments", PList (map PStr (NewsTool.sentiments_of arts)));
   ("risk_factors",
    PList (map (fun a => PStr ("Negative news: " +:+ NewsTool.title a))
               (List.filter (fun a => bool_decide (NewsTool.sentiment a = Some "negative")) arts)))].

Definition news_placeholder (symbol : string) (e : exn) : pydict :=
  [("symbol", PStr symbol);
   ("overall_sentiment", PStr "neutral");
   ("fear_greed_index", PNum 50);
   ("key_themes", PList []);
   ("top_headlines", PList []);
   ("article_sentiments", PList []);
   ("risk_factors", PList [PStr ("Data unavailable: " +:+ exn_msg e)])].

Definition _get_news_sentiment_impl (symbol : string) (max_results : Z) : pydict :=
  try_except
    (result ← news_call symbol max_results;
     Ok (news_response result))
    (news_placeholder symbol).

Definition get_news_sentiment (symbol : string) (max_results : Z) : pydict :=
  _get_news_sentiment_impl symbol max_results.

(** The body of the [try] block of [_generate_combined_insights]. *)
Definition insights_try (price_data news_data : pydict) : W unit :=
  let current_price := dict_get "current_price" price_data (PNum 0) in
  positive ← lift (gt_num current_price 0);
  _ ← when positive (
    let change_pct := dict_get "price_change_percentage" price_data (PNum 0) in
    let trend := dict_get "trend_direction" price_data (PStr "unknown") in
    _ ← (if eq_str trend "bullish" then
           append (upward_phrase (py_str change_pct))
         else if eq_str trend "bearish" then
           append (downward_phrase (py_str change_pct))
         else mret tt);
    when (eq_str (dict_lookup "volume_trend" price_data) "increasing")
         (append volume_phrase));
  let sentiment := dict_get "overall_sentiment" news_data (PStr "neutral") in
  let fear_greed := dict_get "fear_greed_index" news_data (PNum 50) in
  _ ← (if eq_str sentiment "positive" then
         append positive_phrase
       else if eq_str sentiment "negative" then
         append negative_phrase
       else mret tt);
  greedy ← lift (gt_num fear_greed 70);
  _ ← (if greedy : bool then
         append greed_phrase
       else
         fearful ← lift (lt_num fear_greed 30);
         when fearful (append fear_phrase));
  let headlines := dict_get "top_headlines" news_data (PList []) in
  when (truthy headlines) (
    n ← lift (py_len headlines);
    append (headlines_phrase n)).

Definition _generate_combined_insights (price_data news_data : pydict) : list string :=
  let insights :=
    match insights_try price_data news_data [] with
    | (insights, Ok _) => insights
    | (insights, Raise _) => insights ++ [limited_insight]
    end in
  match insights with
  | [] => [generic_insight]
  | _ => slice insights None (Some 5)
  end.

Definition comprehensive_response (symbol period : string)
    (price_data news_data : pydict) (insights : list string) : pydict :=
  [("symbol", PStr symbol);
   ("analysis_period", PStr period);
   ("price_analysis", PDict price_data);
   ("sentiment_analysis", PDict news_data);
   ("key_insights", PList (map PStr insights));
   ("summary", PStr ("Comprehensive analysis of " +:+ symbol +:+ " over " +:+ period))].

Definition comprehensive_failure (symbol period : string) (e : exn) : pydict :=
  [("symbol", PStr symbol);
   ("analysis_period", PStr period);
   ("price_analysis", PDict []);
   ("sentiment_analysis", PDict []);
   ("key_insights", PList [PStr ("Analysis failed: " +:+ exn_msg e)]);
   ("error", PStr "Unable to complete comprehensive analysis")].

Definition get_comprehensive_analysis (symbol period : string) : pydict :=
  try_except
    (let price_data := _get_price_analysis_impl symbol period in
     let news_data := _get_news_sentiment_impl symbol 5 in
     let insights := _generate_combined_insights price_data news_data in
     Ok (comprehensive_response symbol period price_data news_data insights))
    (comprehensive_failure symbol period).

End Tools.

(** The tools as [ToolFactory] wires them: the price tool with its default
    interval, the news tool with no query override. *)
Section Wired.
Variable fetch : string -> string -> string -> exc PriceTool.Quotes.
Variable now : Z.
Variable set_order : list string -> list string.
Variable days_ago_iso : nat -> string.
Variable news_api_key : option string.
Variable http_get : string -> Z -> exc pyval.

Definition wired_price_call (symbol period : string)
    : exc (option PriceTool.PriceAnalysisResult) :=
  Ok (PriceTool.get_price_data fetch now symbol period "1d").

Definition wired_news_call (symbol : string) (max_results : Z)
    : exc NewsTool.NewsAnalysisResult :=
  Ok (NewsTool.get_financial_news set_order days_ago_iso now news_api_key http_get
        symbol None max_results).
End Wired.

End AgentTool.

(* ===================================================================== *)
(** * app/repositories/conversation_repository.py *)
(* ===================================================================== *)

Module ConversationRepository.

(** One entry of [messages]: the dict with keys role, content, timestamp.
    The content is whatever the caller passed: nothing checks that it is a
    string. *)
Record Turn := mkTurn {
  role : string;
  content : pyval;
  timestamp : Z
}.

Record ConversationHistory := mkConversationHistory {
  conversation_id : string;
  user_id : string;
  messages : list Turn;
  created_at : Z;
  updated_at : Z
}.

(** [self._conversations] *)
Abbreviation store := (gmap string ConversationHistory).

(** [fresh_id] is the value of [str(uuid.uuid4())], [now] the clock. *)
Definition create_conversation (fresh_id : string) (now : Z) (user_id : string)
    (s : store) : store * string :=
  (<[fresh_id := {| conversation_id := fresh_id;
                    user_id := user_id;
                    messages := [];
                    created_at := now;
                    updated_at := now |}]> s,
   fresh_id).

Definition get_conversation (conversation_id : string) (s : store) : exc ConversationHistory :=
  match s !! conversation_id with
  | Some conversation => Ok conversation
  | None => Raise (Exn ValueError ("Conversation " +:+ conversation_id +:+ " not found"))
  end.

Definition get_conversation_messages (conversation_id : string) (s : store) : exc (list Turn) :=
  conversation ← get_conversation conversation_id s;
  Ok (messages conversation).

(** [ts] and [now] are the two clock readings of the call. *)
Definition add_message (conversation_id role : string) (content : pyval) (ts now : Z)
    : SE store unit :=
  fun s =>
    match get_conversation conversation_id s with
    | Raise e => (s, Raise e)
    | Ok conversation =>
        (<[conversation_id :=
             {| conversation_id := ConversationRepository.conversation_id conversation;
                user_id := user_id conversation;
                messages := messages conversation
                            ++ [{| role := role; content := content; timestamp := ts |}];
                created_at := created_at conversation;
                updated_at := now |}]> s,
         Ok tt)
    end.

End ConversationRepository.

(* ===================================================================== *)
(** * app/services/financial_manager_service.py *)
(* ===================================================================== *)

Module AgentService.

Import ConversationRepository.

Inductive AgentType : Set := FINANCIAL_MANAGER.

(** An element of [result.parts]: an object with or without the attributes
    the service probes, or a plain string. *)
Inductive Part :=
  | PartObj (content : option pyval) (tool_name tool_calls : bool)
  | PartStr (s : string).

(** What the service can observe of the value returned by [agent.run]. *)
Record ResultObj := mkResultObj {
  parts : option (list Part);       (* attribute present and iterable *)
  data : option string;             (* [str(result.data)] when present *)
  text : option pyval;              (* [result.text] when present *)
  processing_time : option Q;
  as_string : string                (* [str(result)] *)
}.

Inductive AgentResult :=
  | RStr (s : string)
  | RObj (o : ResultObj).

(** The calling conventions of [agent.run] that the service tries. *)
Record Agent := mkAgent {
  run : string -> exc AgentResult;
  run_prompt : string -> exc AgentResult;
  run_input : string -> exc AgentResult;
  run_noargs : exc AgentResult
}.

Record ChatResponse := mkChatResponse {
  response : string;
  chat_conversation_id : string;
  agent_type : AgentType;
  chat_timestamp : Z;
  meta_processing_time : option Q;
  meta_tool_used : bool
}.

(** [AgentException(detail)] is an HTTP error with status 500 and detail
    ["Agent error: " + detail]; its [str] shows both. *)
Definition mkAgentException (detail : string) : exn :=
  Exn AgentException ("500: Agent error: " +:+ detail).

Definition nl : string := String (ascii_of_nat 10) EmptyString.

Definition is_TypeError (e : exn) : bool :=
  match exn_class e with TypeError => true | _ => false end.

Definition _run_agent_with_tools (agent : Agent) (message : string) : exc AgentResult :=
  match run agent message with
  | Ok r => Ok r
  | Raise e =>
      if is_TypeError e then
        if contains "unexpected keyword argument" (exn_msg e) then
          match run_prompt agent message with
          | Ok r => Ok r
          | Raise e2 =>
              if is_TypeError e2 then
                match run_input agent message with
                | Ok r => Ok r
                | Raise e3 => if is_TypeError e3 then run_noargs agent else Raise e3
                end
              else Raise e2
          end
        else Raise e
      else Raise e
  end.

(** The loop collecting [text_parts]. *)
Fixpoint text_parts_of (ps : list Part) : list pyval :=
  match ps with
  | [] => []
  | PartObj (Some c) _ _ :: ps' => c :: text_parts_of ps'
  | PartObj None _ _ :: ps' => text_parts_of ps'
  | PartStr s :: ps' => PStr s :: text_parts_of ps'
  end.

(** [sep.join] raises when an item is not a string. *)
Fixpoint strings_of (l : list pyval) : exc (list string) :=
  match l with
  | [] => Ok []
  | PStr s :: l' => rest ← strings_of l'; Ok (s :: rest)
  | _ :: _ => Raise (Exn TypeError "sequence item: expected str instance")
  end.

Definition str_of_result (result : AgentResult) : string :=
  match result with
  | RStr s => s
  | RObj o => as_string o
  end.

Definition _extract_response_text (result : AgentResult) : pyval :=
  try_except
    (match result with
     | RStr s => Ok (PStr s)
     | RObj o =>
         match parts o with
         | Some (p :: ps) =>
             items ← strings_of (text_parts_of (p :: ps));
             Ok (PStr (join nl items))
         | _ =>
             match data o with
             | Some d => Ok (PStr d)
             | None =>
                 match text o with
                 | Some t => Ok t
                 | None => Ok (PStr (as_string o))
                 end
             end
         end
     end)
    (fun _ => PStr (str_of_result result)).

Definition part_has_tool (p : Part) : bool :=
  match p with
  | PartObj _ tool_name tool_calls => tool_name || tool_calls
  | PartStr _ => false
  end.

Definition _check_if_tools_used (result : AgentResult) : bool :=
  match result with
  | RObj o =>
      match parts o with
      | Some ps => existsb part_has_tool ps
      | None => false
      end
  | RStr _ => false
  end.

(** The pydantic constructor of the envelope: [response: str]. *)
Definition validate_response (v : pyval) : exc string :=
  match v with
  | PStr s => Ok s
  | _ => Raise (Exn ValidationError "response: Input should be a valid string")
  end.

Definition get_processing_time (result : AgentResult) : option Q :=
  match result with
  | RObj o => processing_time o
  | RStr _ => None
  end.

Section Service.
(** [str(value)] in an f-string and the [repr] of a dict. *)
Variable py_str : pyval -> string.
Variable dict_repr : pydict -> string.
(** [self._agents] *)
Variable agents : AgentType -> option Agent.
(** The text of an enum member inside an f-string, which depends on the
    Python version. *)
Variable enum_str : AgentType -> string.

Definition history_line (msg : Turn) : string :=
  (if String.eqb (role msg) "user" then "User" else "Assistant") +:+ ": "
  +:+ py_str (content msg).

Definition context_lines (message : string) (history : list Turn) (user_context : pydict)
    : list string :=
  (match history with
   | [] => []
   | _ => ["Previous conversation:"]
          ++ map history_line (slice history (Some (-6)) None)
          ++ [""]
   end)
  ++ (match user_context with
      | [] => []
      | _ => ["User context:"]
             ++ map (fun '(key, value) => "- " +:+ key +:+ ": " +:+ py_str value) user_context
             ++ [""]
      end)
  ++ ["Current question: " +:+ message].

Definition simplified_message (message : string) (user_context : pydict)
    (conversation_id : string) : string :=
  ("Conversation ID: " +:+ conversation_id +:+ nl +:+ nl +:+ "Question: " +:+ message)
  +:+ (match user_context with
       | [] => ""
       | _ => nl +:+ nl +:+ "User context: " +:+ dict_repr user_context
       end).

Definition _enhance_message_with_context (message : string) (history : list Turn)
    (user_context : pydict) (conversation_id : string) : string :=
  let enhanced_message := join nl (context_lines message history user_context) in
  if (4000 <? String.length enhanced_message)%nat
  then simplified_message message user_context conversation_id
  else enhanced_message.

Definition _get_agent (agent_type : AgentType) : exc Agent :=
  match agents agent_type with
  | Some agent => Ok agent
  | None => Raise (mkAgentException ("Agent type " +:+ enum_str agent_type +:+ " not available"))
  end.

(** The readings of the outside world one request consumes: one uuid and
    six clock readings. *)
Record Env := mkEnv {
  uuid : string;
  t_create : Z;
  t_user : Z; t_user_updated : Z;
  t_assistant : Z; t_assistant_updated : Z;
  t_response : Z
}.

(** The body of the [try] block of [process_message].  The class defines
    the method twice; this is the later definition, the one that is bound. *)
Definition process_message_try (env : Env) (message : string) (agent_type : AgentType)
    (conversation_id : option string) (context : option pydict) : SE store ChatResponse :=
  conversation_id ←
    (if NewsTool.truthy_str conversation_id then mret (default "" conversation_id)
     else fun s => let '(s', cid) := create_conversation (uuid env) (t_create env)
                                        "anonymous" s in (s', Ok cid));
  agent ← lift (_get_agent agent_type);
  history ← (fun s => (s, get_conversation_messages conversation_id s));
  let enhanced_message :=
    _enhance_message_with_context message history (default [] context) conversation_id in
  result ← lift (_run_agent_with_tools agent enhanced_message);
  let response_text := _extract_response_text result in
  _ ← add_message conversation_id "user" (PStr message) (t_user env) (t_user_updated env);
  _ ← add_message conversation_id "assistant" response_text
        (t_assistant env) (t_assistant_updated env);
  response_str ← lift (validate_response response_text);
  mret {| response := response_str;
          chat_conversation_id := conversation_id;
          agent_type := agent_type;
          chat_timestamp := t_response env;
          meta_processing_time := get_processing_time result;
          meta_tool_used := _check_if_tools_used result |}.

(** [except Exception as e: raise AgentException(...)] *)
Definition process_message (env : Env) (message : string) (agent_type : AgentType)
    (conversation_id : option string) (context : option pydict) : SE store ChatResponse :=
  fun s =>
    match process_message_try env message agent_type conversation_id context s with
    | (s', Ok r) => (s', Ok r)
    | (s', Raise e) =>
        (s', Raise (mkAgentException ("Message processing failed: " +:+ exn_msg e)))
    end.

End Service.

End AgentService.
(* ===================================================================== *)
(** * app/agents/financial_manager_agent.py and app/agents/factory.py *)
(* ===================================================================== *)

Module FinancialManagerAgent.

Import AgentService.

Section World.
(** [os.getenv("OPENAI_API_KEY")] *)
Variable api_key : option string.
(** The call [Agent(model=..., system_prompt=..., tools=[...])]. *)
Variable construct : exc Agent.

(** The state is the attribute [self.agent]. *)
Definition initialize : SE (option Agent) Agent :=
  fun self_agent =>
    match self_agent with
    | None =>
        if negb (NewsTool.truthy_str api_key) then
          (None, Raise (Exn ValueError "OPENAI_API_KEY environment variable is not set"))
        else
          match construct with
          | Ok agent => (Some agent, Ok agent)
          | Raise e => (None, Raise e)
          end
    | Some agent => (Some agent, Ok agent)
    end.

End World.

End FinancialManagerAgent.

Module AgentFactory.

Import AgentService.

Section World.
Variable api_key : option string.
Variable construct : exc Agent.

(** [agent = FinancialManagerAgent(); return await agent.initialize()] *)
Definition create_financial_manager : exc Agent :=
  snd (FinancialManagerAgent.initialize api_key construct None).

End World.

End AgentFactory.

(* ===================================================================== *)
(** * app/services/financial_manager_service.py: registry and history *)
(* ===================================================================== *)

Module AgentRegistry.

Import ConversationRepository AgentService.

#[global] Instance AgentType_eq_dec : EqDecision AgentType.
Proof. solve_decision. Defined.

#[global] Instance AgentType_countable : Countable AgentType.
Proof.
  refine (inj_countable' (fun _ => tt) (fun _ => FINANCIAL_MANAGER) _).
  intros []. reflexivity.
Defined.

(** [self._agents]: a registered value is an agent or Python's [None]. *)
Abbreviation registry := (gmap AgentType (option Agent)).

(** [self._agents.get(agent_type)] as [_get_agent] tests it. *)
Definition registered (r : registry) (agent_type : AgentType) : option Agent :=
  match r !! agent_type with
  | Some (Some agent) => Some agent
  | _ => None
  end.

Definition initialize_agents (api_key : option string) (construct : exc Agent)
    : SE registry unit :=
  fun r =>
    match AgentFactory.create_financial_manager api_key construct with
    | Ok agent => (<[FINANCIAL_MANAGER := Some agent]> r, Ok tt)
    | Raise e =>
        (r, Raise (mkAgentException ("Agent initialization failed: " +:+ exn_msg e)))
    end.

Record AgentStatus := mkAgentStatus {
  status_agent_type : AgentType;
  is_available : bool;
  last_health_check : Z;
  version : string
}.

(** [clock i] is the reading of [datetime.now()] for the i-th entry. *)
Definition get_agent_status (clock : nat -> Z) (r : registry) : list AgentStatus :=
  imap (fun i '(agent_type, agent_instance) =>
          {| status_agent_type := agent_type;
             is_available := match agent_instance with Some _ => true | None => false end;
             last_health_check := clock i;
             version := "1.0.0" |})
       (map_to_list r).

Definition is_ValueError (e : exn) : bool :=
  match exn_class e with ValueError => true | _ => false end.

Definition get_conversation_history (conversation_id : string) (s : store)
    : exc ConversationHistory :=
  match get_conversation conversation_id s with
  | Ok conversation => Ok conversation
  | Raise e =>
      if is_ValueError e then
        Raise (mkAgentException ("Conversation not found: " +:+ exn_msg e))
      else Raise (mkAgentException "Failed to retrieve conversation history")
  end.

End AgentRegistry.

(* ===================================================================== *)
(** * app/controllers/health.py and financial_manager_controller.py *)
(* ===================================================================== *)

Module Health.

Import AgentService AgentRegistry.

(** [agent_type.value] *)
Definition value (agent_type : AgentType) : string :=
  match agent_type with FINANCIAL_MANAGER => "financial_manager" end.

Definition agents_health_check (clock : nat -> Z) (r : registry) : pydict :=
  let statuses := get_agent_status clock r in
  let all_healthy := forallb is_available statuses in
  [("status", PStr (if all_healthy then "healthy" else "degraded"));
   ("agents",
    PDict (map (fun status => (value (status_agent_type status),
                               PBool (is_available status))) statuses))].

End Health.

Module Controller.

Import ConversationRepository AgentService AgentRegistry.

(** A validated [ChatRequest]. *)
Record ChatRequest := mkChatRequest {
  message : string;
  request_agent_type : AgentType;
  request_conversation_id : option string;
  context : option pydict
}.

(** What the endpoint raises: the agent error it caught, re-raised, or a new
    [HTTPException] with the given status code and detail. *)
Inductive Failure :=
  | Reraised (e : exn)
  | HTTPException (status_code : Z) (detail : string).

Definition is_AgentException (e : exn) : bool :=
  match exn_class e with AgentException => true | _ => false end.

Section Service.
Variable py_str : pyval -> string.
Variable dict_repr : pydict -> string.
Variable agents : AgentType -> option Agent.
Variable enum_str : AgentType -> string.

(** [request.context or {}] *)
Definition context_or_empty (context : option pydict) : pydict :=
  match context with
  | Some (item :: items) => item :: items
  | _ => []
  end.

Definition chat_with_agent (env : Env) (request : ChatRequest)
    : store -> store * (ChatResponse + Failure) :=
  fun s =>
    match process_message py_str dict_repr agents enum_str env
            (message request) (request_agent_type request)
            (request_conversation_id request)
            (Some (context_or_empty (context request))) s with
    | (s', Ok response) => (s', inl response)
    | (s', Raise e) =>
        if is_AgentException e then (s', inr (Reraised e))
        else (s', inr (HTTPException 500 "Internal server error"))
    end.

(** [GET /conversations/{conversation_id}] *)
Definition get_conversation_history (conversation_id : string) (s : store)
    : exc ConversationHistory :=
  AgentRegistry.get_conversation_history conversation_id s.

End Service.

End Controller.


(* ===================================================================== *)
(** * Notions used to state the properties *)
(* ===================================================================== *)

(** [fear_greed_stated] and [insights_stated] follow the wording of the
    specification, not the code; [fear_greed_kept] and [insights_guarded]
    are written from the same wording with the guards the code has.  The
    theorems below compare them with the code.  The rest of the module names
    what the statements about the store and the service need. *)
Module Stated.

Import NewsTool AgentTool.

(** The trend of a series whose last close is [c] and whose fifth-from-last
    close is [c5]. *)
Definition trend_between (c c5 : Q) : string :=
  if Qltb c5 c then "bullish" else if Qltb c c5 then "bearish" else "neutral".

Definition clamp (lo hi x : Z) : Z := Z.max lo (Z.min hi x).

(** The sentiments that are not null. *)
Fixpoint non_null_sentiments (articles : list NewsArticle) : list string :=
  match articles with
  | [] => []
  | a :: rest =>
      match sentiment a with
      | Some s => s :: non_null_sentiments rest
      | None => non_null_sentiments rest
      end
  end.

(** The fraction of the given sentiments that are "positive". *)
Definition positive_ratio (sentiments : list string) : Q :=
  (Q_of_nat (count "positive" sentiments) / Q_of_nat (length sentiments))%Q.

Definition adjustment (overall : string) : Q :=
  if String.eqb overall "positive" then 10%Q
  else if String.eqb overall "negative" then (-10)%Q
  else 0%Q.

(** The fear and greed index as the specification words it: the ratio is
    taken over the non-null sentiments, for every article list. *)
Definition fear_greed_stated (articles : list NewsArticle) : Z :=
  clamp 0 100
    (int (100 * positive_ratio (non_null_sentiments articles)
          + adjustment (_calculate_overall_sentiment articles))%Q).

(** The index with the ratio taken over the sentiments the code keeps (not
    null and not empty), and the neutral value when there is none. *)
Definition fear_greed_kept (articles : list NewsArticle) : Z :=
  match sentiments_of articles with
  | [] => 50
  | kept =>
      clamp 0 100
        (int (100 * positive_ratio kept
              + adjustment (_calculate_overall_sentiment articles))%Q)
  end.

Definition num_gt (v : pyval) (n : Q) : bool :=
  match gt_num v n with Ok b => b | Raise _ => false end.
Definition num_lt (v : pyval) (n : Q) : bool :=
  match lt_num v n with Ok b => b | Raise _ => false end.
Definition len_or_0 (v : pyval) : nat :=
  match py_len v with Ok n => n | Raise _ => 0%nat end.

Definition or_generic (collected : list string) : list string :=
  match collected with
  | [] => [generic_insight]
  | _ => firstn 5 collected
  end.

Section Insights.
Variable py_str : pyval -> string.
Variables price_data news_data : pydict.

Let change_pct := py_str (dict_get "price_change_percentage" price_data (PNum 0)).
Let trend := dict_get "trend_direction" price_data (PStr "unknown").
Let volume := dict_lookup "volume_trend" price_data.
Let sentiment := dict_get "overall_sentiment" news_data (PStr "neutral").
Let fear_greed := dict_get "fear_greed_index" news_data (PNum 50).
Let headlines := dict_get "top_headlines" news_data (PList []).
Let current_price := dict_get "current_price" price_data (PNum 0).

Definition trend_rule : list string :=
  if eq_str trend "bullish" then [upward_phrase change_pct]
  else if eq_str trend "bearish" then [downward_phrase change_pct]
  else [].

Definition volume_rule : list string :=
  if eq_str volume "increasing" then [volume_phrase] else [].

Definition fear_greed_rule : list string :=
  if num_gt fear_greed 70 then [greed_phrase]
  else if num_lt fear_greed 30 then [fear_phrase]
  else [].

Definition headlines_rule : list string :=
  if truthy headlines then [headlines_phrase (len_or_0 headlines)] else [].

(** The five rules as the specification words them: trend and volume
    phrases depend on the trend fields alone, and a sentiment phrase is
    produced whenever the overall sentiment is not "neutral". *)
Definition insights_stated : list string :=
  or_generic
    (trend_rule ++ volume_rule
     ++ (if eq_str sentiment "neutral" then []
         else if eq_str sentiment "negative" then [negative_phrase]
         else [positive_phrase])
     ++ fear_greed_rule ++ headlines_rule).

(** The rules with the guards of the code: the two price phrases need a
    positive current price, and only the sentiments "positive" and
    "negative" have a phrase. *)
Definition insights_guarded : list string :=
  or_generic
    ((if num_gt current_price 0 then trend_rule ++ volume_rule else [])
     ++ (if eq_str sentiment "positive" then [positive_phrase]
         else if eq_str sentiment "negative" then [negative_phrase]
         else [])
     ++ fear_greed_rule ++ headlines_rule).

Definition is_num (v : pyval) : bool :=
  match v with PNum _ | PBool _ => true | _ => false end.
Definition has_len (v : pyval) : bool :=
  match v with PStr _ | PList _ | PDict _ => true | _ => false end.

(** The fields the rules compare have the types the tools give them. *)
Definition well_typed : bool :=
  is_num current_price && is_num fear_greed
  && (has_len headlines || negb (truthy headlines)).

End Insights.

(** A computation on the insight list is [bounded k] when it only appends,
    at most [k] phrases if it returns and at most [k - 1] if it raises. *)
Definition bounded {A} (k : nat) (m : AgentTool.W A) : Prop :=
  forall acc,
    exists extra, fst (m acc) = acc ++ extra
      /\ match snd (m acc) with
         | Ok _ => (length extra <= k)%nat
         | Raise _ => (length extra + 1 <= k)%nat
         end.

Import ConversationRepository.

(** The mutating operations of the conversation store. *)
Inductive op :=
  | Create (fresh_id : string) (now : Z) (user_id : string)
  | Add (conversation_id role : string) (content : pyval) (ts now : Z).

Definition apply_op (o : op) (s : store) : store :=
  match o with
  | Create fresh_id now user_id => fst (create_conversation fresh_id now user_id s)
  | Add id role content ts now => fst (add_message id role content ts now s)
  end.

Definition exec (ops : list op) (s : store) : store :=
  fold_left (fun s o => apply_op o s) ops s.

(** uuid4 yields an identifier that is not in use. *)
Fixpoint fresh_creates (ops : list op) (s : store) : Prop :=
  match ops with
  | [] => True
  | o :: rest =>
      match o with
      | Create fresh_id _ _ => s !! fresh_id = None
      | Add _ _ _ _ _ => True
      end
      /\ fresh_creates rest (apply_op o s)
  end.

(** The turns that the [Add] calls for one conversation carry, in call order. *)
Fixpoint turns_for (id : string) (ops : list op) : list Turn :=
  match ops with
  | [] => []
  | Add id' role content ts _ :: rest =>
      if String.eqb id id' then mkTurn role content ts :: turns_for id rest
      else turns_for id rest
  | Create _ _ _ :: rest => turns_for id rest
  end.

(** The clock reading of the last [Add] for one conversation. *)
Fixpoint last_update (id : string) (ops : list op) (before : Z) : Z :=
  match ops with
  | [] => before
  | Add id' _ _ _ now :: rest =>
      last_update id rest (if String.eqb id id' then now else before)
  | Create _ _ _ :: rest => last_update id rest before
  end.

(** One [add_message] call: role, content and its two clock readings. *)
Definition call : Type := string * pyval * Z * Z.

Definition turn_of_call (c : call) : Turn :=
  let '(role, content, ts, _) := c in mkTurn role content ts.

Definition adds_to (id : string) (calls : list call) : list op :=
  map (fun '(role, content, ts, now) => Add id role content ts now) calls.

(** The conversation a request works on, and the store once it is resolved:
    the given identifier when there is one, else a newly created
    conversation under the uuid. *)
Definition resolved_id (env : AgentService.Env) (conversation_id : option string) : string :=
  if NewsTool.truthy_str conversation_id then default "" conversation_id
  else AgentService.uuid env.

Definition resolved_store (env : AgentService.Env) (conversation_id : option string)
    (s : store) : store :=
  if NewsTool.truthy_str conversation_id then s
  else fst (create_conversation (AgentService.uuid env) (AgentService.t_create env)
              "anonymous" s).

(** A conversation after the two turns of one request were appended. *)
Definition appended (conv : ConversationHistory) (env : AgentService.Env)
    (message : string) (response_text : pyval) : ConversationHistory :=
  {| conversation_id := conversation_id conv;
     user_id := user_id conv;
     messages := messages conv
                 ++ [mkTurn "user" (PStr message) (AgentService.t_user env);
                     mkTurn "assistant" response_text (AgentService.t_assistant env)];
     created_at := created_at conv;
     updated_at := AgentService.t_assistant_updated env |}.

(** The theme buckets of [_extract_key_themes]. *)
Definition theme_names : list string :=
  ["Financial Performance"; "Product Development"; "Regulatory Environment";
   "Business Partnerships"; "Market Activity"].

(** An article that carries one of the three sentiment labels. *)
Definition labelled (a : NewsTool.NewsArticle) : Prop :=
  exists s, NewsTool.sentiment a = Some s /\ In s ["positive"; "negative"; "neutral"].

(** What every analysis built by [analyse] satisfies. *)
Definition sound_result (now : Z) (symbol : string) (max_results : Z)
    (r : NewsTool.NewsAnalysisResult) : Prop :=
  NewsTool.symbol r = symbol
  /\ Forall labelled (NewsTool.articles r)
  /\ (0 <= max_results -> Z.of_nat (length (NewsTool.articles r)) <= max_results)
  /\ NewsTool.overall_sentiment r = NewsTool._calculate_overall_sentiment (NewsTool.articles r)
  /\ In (NewsTool.overall_sentiment r) ["positive"; "negative"; "neutral"]
  /\ 0 <= NewsTool.fear_greed_index r <= 100
  /\ NewsTool.timestamp r = now.

(** The registry after a series of start-up attempts, each with its own
    environment, beginning with the empty registry of a new service. *)
Definition after_startups (attempts : list (option string * exc AgentService.Agent))
    : gmap AgentService.AgentType (option AgentService.Agent) :=
  fold_left (fun r '(api_key, construct) =>
               fst (AgentRegistry.initialize_agents api_key construct r))
            attempts ∅.

End Stated.

(* ===================================================================== *)
(** * Concrete inputs *)
(* ===================================================================== *)

Module Scenario.

(** The thirty-sample flat series. *)
Definition flat_closes : list (option Q) := repeat (Some 100%Q) 30.

Definition flat_quotes : PriceTool.Quotes :=
  PriceTool.mkQuotes flat_closes flat_closes flat_closes flat_closes.

Definition reply (quotes : PriceTool.Quotes) : string -> string -> string -> exc PriceTool.Quotes :=
  fun _ _ _ => Ok quotes.

(** A reply whose last close is null. *)
Definition null_last_quotes : PriceTool.Quotes :=
  PriceTool.mkQuotes [Some 101%Q; Some 102%Q] [Some 99%Q; Some 98%Q]
                     [Some 100%Q; None] [Some 5%Q; Some 6%Q].

(** A reply of five samples whose first close is null. *)
Definition null_first_quotes : PriceTool.Quotes :=
  PriceTool.mkQuotes [] [] [None; Some 1%Q; Some 2%Q; Some 3%Q; Some 4%Q] [].

(** A connection failure. *)
Definition no_reply : string -> string -> string -> exc PriceTool.Quotes :=
  fun _ _ _ => Raise (Exn HTTPError "All connection attempts failed").

(** A reply with no closes, so a current price of 0, but rising volumes, and
    the price analysis the tool builds from it. *)
Definition rising_volume_quotes : PriceTool.Quotes :=
  PriceTool.mkQuotes [] [] []
    (map (fun v => Some (inject_Z v)) [10; 10; 10; 10; 10; 20; 20; 20; 20; 20]).

Definition zero_price_data : pydict :=
  AgentTool.get_price_analysis
    (AgentTool.wired_price_call (reply rising_volume_quotes) 0) "AAPL" "1month".

(** A rising price and a greedy market with three headlines. *)
Definition rising_price_data : pydict :=
  [("current_price", PNum 150); ("price_change_percentage", PNum 4);
   ("trend_direction", PStr "bullish"); ("volume_trend", PStr "increasing")].
Definition greedy_news_data : pydict :=
  [("overall_sentiment", PStr "positive"); ("fear_greed_index", PNum 76);
   ("top_headlines", PList [PStr "a"; PStr "b"; PStr "c"])].

(** A news result whose overall sentiment is none of the three labels. *)
Definition mixed_news_data : pydict :=
  [("overall_sentiment", PStr "mixed"); ("fear_greed_index", PNum 50);
   ("top_headlines", PList [])].

(** Articles with a given sentiment field. *)
Definition article (sentiment : option string) : NewsTool.NewsArticle :=
  NewsTool.mkNewsArticle "Quarterly update" "Newswire" "2024-01-01" None None sentiment.

(** One positive article and one whose sentiment is the empty string. *)
Definition positive_and_empty : list NewsTool.NewsArticle :=
  [article (Some "positive"); article (Some "")].

(** One article whose sentiment is null. *)
Definition unscored : list NewsTool.NewsArticle := [article None].

(** One positive and two negative articles. *)
Definition mostly_negative : list NewsTool.NewsArticle :=
  [article (Some "negative"); article (Some "positive"); article (Some "negative")].

(** The news tool without a credential and without a network. *)
Definition themes_in_order (themes : list string) : list string := themes.
Definition days_ago (i : nat) : string := "day-" +:+ pretty i.
Definition no_news_reply : string -> Z -> exc pyval :=
  fun _ _ => Raise (Exn HTTPError "All connection attempts failed").

(** A store with one conversation that already holds a turn. *)
Definition one_turn : ConversationRepository.ConversationHistory :=
  ConversationRepository.mkConversationHistory "c1" "anonymous"
    [ConversationRepository.mkTurn "user" (PStr "hello") 10] 5 11.

Definition one_conversation : gmap string ConversationRepository.ConversationHistory :=
  {[ "c1" := one_turn ]}.

Definition later_ops : list Stated.op :=
  [Stated.Add "c1" "assistant" (PStr "hi") 12 13;
   Stated.Create "c2" 14 "anonymous";
   Stated.Add "c2" "user" (PStr "other") 15 16;
   Stated.Add "missing" "user" (PStr "lost") 17 18;
   Stated.Add "c1" "user" (PStr "bye") 19 20].

(** A question of 3990 characters and a one-entry user context. *)
Definition long_question : string := String "Q" (replicate_char 3989 "x").
Definition small_context : pydict := [("k", PStr "v")].

(** An agent that answers every prompt with a fixed text. *)
Definition fixed_agent : AgentService.Agent :=
  AgentService.mkAgent (fun _ => Ok (AgentService.RStr "AAPL is up 4%."))
                       (fun _ => Ok (AgentService.RStr "AAPL is up 4%."))
                       (fun _ => Ok (AgentService.RStr "AAPL is up 4%."))
                       (Ok (AgentService.RStr "AAPL is up 4%.")).

(** An agent whose result has a [text] attribute that is not a string. *)
Definition numeric_text_agent : AgentService.Agent :=
  let result := AgentService.RObj (AgentService.mkResultObj None None (Some (PNum 7)) None "7") in
  AgentService.mkAgent (fun _ => Ok result) (fun _ => Ok result) (fun _ => Ok result)
                       (Ok result).

(** An agent that is down. *)
Definition failing_agent : AgentService.Agent :=
  let failure := Raise (Exn HTTPError "model overloaded") in
  AgentService.mkAgent (fun _ => failure) (fun _ => failure) (fun _ => failure) failure.

Definition request_env : AgentService.Env := AgentService.mkEnv "c2" 21 22 23 24 25 26.

(** One request for conversation "c1" of [one_conversation], served by the
    given agent. *)
Definition request (agent : AgentService.Agent)
    : gmap string ConversationRepository.ConversationHistory * exc AgentService.ChatResponse :=
  AgentService.process_message str_plain dict_repr_plain (fun _ => Some agent)
    (fun _ => "financial_manager") request_env "How is AAPL doing?" AgentService.FINANCIAL_MANAGER (Some "c1") None
    one_conversation.

(** An iteration order for [set(themes)]: each member once, where it occurs
    last. *)
Definition members_once (l : list string) : list string :=
  nodup String.string_dec l.

Definition titled (t : string) : NewsTool.NewsArticle :=
  NewsTool.mkNewsArticle t "Reuters" "2024-01-01" None None (Some "neutral").

Definition themed_articles : list NewsTool.NewsArticle :=
  [titled "Earnings beat as trading volume climbs";
   titled "Record profit and a product launch";
   titled "Quiet day"].

(** Eight turns of a conversation, the last six of them. *)
Definition eight_turns : list ConversationRepository.Turn :=
  map (fun i => ConversationRepository.mkTurn
                  (if Z.even i then "user" else "assistant") (PNum (inject_Z i)) i)
      [1; 2; 3; 4; 5; 6; 7; 8].

Definition last_six_turns : list ConversationRepository.Turn :=
  map (fun i => ConversationRepository.mkTurn
                  (if Z.even i then "user" else "assistant") (PNum (inject_Z i)) i)
      [3; 4; 5; 6; 7; 8].

(** A conversation that is created, written to, created again under the
    same identifier, and written to again. *)
Definition rebuilding_ops : list Stated.op :=
  [Stated.Create "c1" 1 "anonymous";
   Stated.Add "c1" "user" (PStr "first") 2 3;
   Stated.Create "c1" 4 "anonymous";
   Stated.Add "c1" "user" (PStr "again") 5 6].

(** The envelope of an outcome of the chat endpoint, when there is one. *)
Definition envelope_of
    (outcome : gmap string ConversationRepository.ConversationHistory
               * (AgentService.ChatResponse + Controller.Failure))
    : AgentService.ChatResponse :=
  match snd outcome with
  | inl reply => reply
  | inr _ => AgentService.mkChatResponse "" "" AgentService.FINANCIAL_MANAGER 0 None false
  end.

(** A data source that serves the one-month range only. *)
Definition monthly_only : string -> string -> string -> exc PriceTool.Quotes :=
  fun _ range _ =>
    if String.eqb range "1mo" then Ok flat_quotes
    else Raise (Exn HTTPError "422 Unprocessable Entity").

(** Twelve prices in no particular order. *)
Definition shuffled_prices : list (option Q) :=
  map (fun z => Some (inject_Z z)) [5; 3; 9; 1; 7; 2; 8; 4; 6; 10; 11; 12].

End Scenario.

(* ===================================================================== *)
(** * Facts about the Python built-ins *)
(* ===================================================================== *)

Lemma Qltb_lt (x y : Q) : Qltb x y = true <-> (x < y)%Q.
Proof.
  unfold Qltb. rewrite negb_true_iff. split.
  - intros H. apply Qnot_le_lt. intros Hle.
    apply Qle_bool_iff in Hle. congruence.
  - intros H. destruct (Qle_bool y x) eqn:E; [|reflexivity].
    apply Qle_bool_iff in E. exfalso. exact (Qlt_not_le _ _ H E).
Qed.

Lemma Qltb_ge (x y : Q) : Qltb x y = false <-> (y <= x)%Q.
Proof.
  unfold Qltb. rewrite negb_false_iff. apply Qle_bool_iff.
Qed.

Lemma min_from_spec (l : list Q) (x : Q) :
  In (min_from x l) (x :: l) /\ Forall (fun y => min_from x l <= y)%Q (x :: l).
Proof.
  revert x. induction l as [|a l IH]; intros x.
  - split; [now left|]. constructor; [apply Qle_refl | constructor].
  - unfold min_from. simpl fold_left. fold (min_from (if Qltb a x then a else x) l).
    destruct (IH (if Qltb a x then a else x)) as [Hin Hall].
    inversion Hall as [|? ? Hhd Htl]; subst.
    destruct (Qltb a x) eqn:E.
    + apply Qltb_lt in E. split.
      * destruct Hin as [<-|Hin]; [right; now left | right; now right].
      * constructor; [|constructor; assumption].
        eapply Qle_trans; [exact Hhd | apply Qlt_le_weak, E].
    + apply Qltb_ge in E. split.
      * destruct Hin as [<-|Hin]; [now left | right; now right].
      * constructor; [assumption|]. constructor; [|assumption].
        eapply Qle_trans; [exact Hhd | exact E].
Qed.

Lemma max_from_spec (l : list Q) (x : Q) :
  In (max_from x l) (x :: l) /\ Forall (fun y => y <= max_from x l)%Q (x :: l).
Proof.
  revert x. induction l as [|a l IH]; intros x.
  - split; [now left|]. constructor; [apply Qle_refl | constructor].
  - unfold max_from. simpl fold_left. fold (max_from (if Qltb x a then a else x) l).
    destruct (IH (if Qltb x a then a else x)) as [Hin Hall].
    inversion Hall as [|? ? Hhd Htl]; subst.
    destruct (Qltb x a) eqn:E.
    + apply Qltb_lt in E. split.
      * destruct Hin as [<-|Hin]; [right; now left | right; now right].
      * constructor; [|constructor; assumption].
        eapply Qle_trans; [apply Qlt_le_weak, E | exact Hhd].
    + apply Qltb_ge in E. split.
      * destruct Hin as [<-|Hin]; [now left | right; now right].
      * constructor; [assumption|]. constructor; [|assumption].
        eapply Qle_trans; [exact E | exact Hhd].
Qed.

Lemma insert_sorted_perm (x : Q) (l : list Q) : Permutation (x :: l) (insert_sorted x l).
Proof.
  induction l as [|y l IH]; simpl; [reflexivity|].
  destruct (Qltb x y); [reflexivity|].
  etransitivity; [apply perm_swap|]. now constructor.
Qed.

Lemma insert_sorted_Sorted (x : Q) (l : list Q) :
  Sorted Qle l -> Sorted Qle (insert_sorted x l).
Proof.
  induction l as [|y l IH]; intros Hs; simpl.
  - repeat constructor.
  - destruct (Qltb x y) eqn:E.
    + constructor; [assumption|]. constructor. apply Qlt_le_weak, Qltb_lt, E.
    + apply Qltb_ge in E. inversion Hs as [|? ? Hs' Hhd]; subst.
      constructor; [now apply IH|].
      destruct l as [|z l]; simpl.
      * now constructor.
      * destruct (Qltb x z); constructor; [assumption|].
        inversion Hhd; subst; assumption.
Qed.

Lemma sorted_from_spec (l acc : list Q) :
  Sorted Qle acc ->
  Sorted Qle (fold_left (fun acc x => insert_sorted x acc) l acc)
  /\ Permutation (acc ++ l) (fold_left (fun acc x => insert_sorted x acc) l acc).
Proof.
  revert acc. induction l as [|x l IH]; intros acc Hs; simpl.
  - split; [assumption|]. now rewrite app_nil_r.
  - destruct (IH (insert_sorted x acc) (insert_sorted_Sorted x acc Hs)) as [H1 H2].
    split; [assumption|].
    etransitivity; [|exact H2].
    etransitivity; [symmetry; apply Permutation_middle|].
    apply (Permutation_app_tail l (insert_sorted_perm x acc)).
Qed.

Lemma sorted_Sorted (l : list Q) : Sorted Qle (sorted l).
Proof. apply sorted_from_spec. constructor. Qed.

Lemma sorted_perm (l : list Q) : Permutation l (sorted l).
Proof. apply (sorted_from_spec l []). constructor. Qed.

Lemma sorted_length (l : list Q) : length (sorted l) = length l.
Proof. symmetry. apply Permutation_length, sorted_perm. Qed.

Lemma index_in_range {A} (l : list A) (k : Z) :
  - Z.of_nat (length l) <= k < Z.of_nat (length l) ->
  exists x, index l k = Ok x
            /\ nth_error l (Z.to_nat (if k <? 0 then Z.of_nat (length l) + k else k)) = Some x.
Proof.
  intros Hk. unfold index.
  set (n := Z.of_nat (length l)) in *.
  set (i := if k <? 0 then n + k else k).
  assert (Hi : 0 <= i < n).
  { subst i. destruct (Z.ltb_spec k 0); lia. }
  destruct (Z.ltb_spec i 0); [lia|].
  destruct (Z.leb_spec n i); [lia|]. simpl.
  destruct (nth_error l (Z.to_nat i)) eqn:E; [eauto|].
  apply nth_error_None in E. lia.
Qed.

(** [_calculate_support_resistance] returns for every input. *)
Lemma support_resistance_total (prices : list (option Q)) (level_type : string) :
  exists levels, PriceTool._calculate_support_resistance prices level_type = Ok levels.
Proof.
  unfold PriceTool._calculate_support_resistance.
  destruct prices as [|p0 prices']; [eauto|].
  destruct (not_none (p0 :: prices')) as [|p ps] eqn:Ev; [eauto|].
  set (n := Z.of_nat (length (p :: ps))).
  assert (Hn : 0 < n) by (subst n; simpl; lia).
  destruct (String.eqb level_type "support"); destruct (Z.ltb_spec 10 n).
  - destruct (index_in_range (sorted (p :: ps)) (n / 10)) as [x [Hx _]].
    { rewrite sorted_length. fold n. Z.to_euclidean_division_equations. lia. }
    rewrite Hx. simpl. eauto.
  - simpl. eauto.
  - destruct (index_in_range (sorted (p :: ps)) (- n / 10)) as [x [Hx _]].
    { rewrite sorted_length. fold n. Z.to_euclidean_division_equations. lia. }
    rewrite Hx. simpl. eauto.
  - simpl. eauto.
Qed.

(* ===================================================================== *)
(** * Support and resistance levels *)
(* ===================================================================== *)

(** C6. Over the non-null values of a price list (their count is n), the
    function returns no level when there is none; otherwise its first level
    is the minimum (level type "support") or the maximum (any other level
    type) of those values, and exactly one more level follows if and only if
    n > 10: the element of the sorted values at Python index [n // 10] for
    support and [-n // 10] for resistance.  Every level is rounded to two
    decimals.  The sorted values are an ordered permutation of the values. *)
Theorem support_resistance_levels (prices : list (option Q)) (level_type : string) :
  let valid := not_none prices in
  let n := Z.of_nat (length valid) in
  let support := String.eqb level_type "support" in
  match valid with
  | [] => PriceTool._calculate_support_resistance prices level_type = Ok []
  | _ :: _ =>
      exists first extra,
        PriceTool._calculate_support_resistance prices level_type
          = Ok (map round2 (first :: extra))
        /\ In first valid
        /\ Forall (fun x => if support then first <= x else x <= first)%Q valid
        /\ (if 10 <? n
            then exists x, extra = [x]
                   /\ index (sorted valid) (if support then n / 10 else - n / 10) = Ok x
            else extra = [])
        /\ Sorted Qle (sorted valid) /\ Permutation valid (sorted valid)
  end.
Proof.
  intros valid n support. subst valid n support.
  unfold PriceTool._calculate_support_resistance.
  destruct prices as [|p0 prices']; [reflexivity|].
  destruct (not_none (p0 :: prices')) as [|p ps] eqn:Ev; [reflexivity|].
  set (n := Z.of_nat (length (p :: ps))).
  assert (Hn : 0 < n) by (subst n; simpl; lia).
  pose proof (sorted_Sorted (p :: ps)) as HS.
  pose proof (sorted_perm (p :: ps)) as HP.
  destruct (min_from_spec ps p) as [Hmin_in Hmin].
  destruct (max_from_spec ps p) as [Hmax_in Hmax].
  destruct (String.eqb level_type "support"); destruct (Z.ltb_spec 10 n).
  - destruct (index_in_range (sorted (p :: ps)) (n / 10)) as [x [Hx _]].
    { rewrite sorted_length. fold n. Z.to_euclidean_division_equations. lia. }
    rewrite Hx. exists (min_from p ps), [x]. repeat split; eauto.
  - exists (min_from p ps), []. repeat split; eauto.
  - destruct (index_in_range (sorted (p :: ps)) (- n / 10)) as [x [Hx _]].
    { rewrite sorted_length. fold n. Z.to_euclidean_division_equations. lia. }
    rewrite Hx. exists (max_from p ps), [x]. repeat split; eauto.
  - exists (max_from p ps), []. repeat split; eauto.
Qed.

(* ===================================================================== *)
(** * The price fetcher *)
(* ===================================================================== *)

Ltac exc_step := cbn [mbind exc_bind mret exc_ret try_except].

Lemma index_nonempty {A} (l : list A) (k : Z) (x : A) : index l k = Ok x -> l <> [].
Proof.
  intros H ->. unfold index in H. change (Z.of_nat (length (@nil A))) with 0 in H.
  set (i := if k <? 0 then 0 + k else k) in H.
  destruct (Z.ltb_spec i 0); cbn [orb] in H; [discriminate|].
  destruct (Z.leb_spec 0 i); cbn iota in H; [discriminate | lia].
Qed.

Lemma moving_averages_total (prices : list (option Q)) :
  exists mas, PriceTool._calculate_moving_averages prices = Ok mas.
Proof.
  unfold PriceTool._calculate_moving_averages.
  destruct (not_none prices) as [|p ps] eqn:Ev; [eauto|].
  destruct (5 <=? length (p :: ps))%nat.
  - exc_step. destruct (10 <=? length (p :: ps))%nat; exc_step; eauto.
  - destruct (index_in_range (p :: ps) (-1)) as [x [Hx _]]; [simpl length; lia|].
    rewrite Hx. exc_step. destruct (10 <=? length (p :: ps))%nat; exc_step; eauto.
Qed.

Lemma price_change_pct_current (c : Q) (start : option Q) :
  PriceTool.price_change_pct (Some c) start
  = Ok (match start with
        | Some s => if Qeq_bool s 0 then 0 else (c - s) / s * 100
        | None => 0
        end)%Q.
Proof. destruct start as [s|]; simpl; [destruct (Qeq_bool s 0)|]; reflexivity. Qed.

Lemma recent_trend_short (closes : list (option Q)) :
  (length closes < 5)%nat -> PriceTool.recent_trend_of closes = Ok "neutral".
Proof.
  intros H. unfold PriceTool.recent_trend_of.
  destruct (Nat.leb_spec 5 (length closes)); [lia | reflexivity].
Qed.

Lemma recent_trend_long (closes : list (option Q)) (c c5 : Q) :
  (5 <= length closes)%nat ->
  index closes (-1) = Ok (Some c) -> index closes (-5) = Ok (Some c5) ->
  PriceTool.recent_trend_of closes = Ok (Stated.trend_between c c5).
Proof.
  intros H H1 H5. unfold PriceTool.recent_trend_of, Stated.trend_between.
  destruct (Nat.leb_spec 5 (length closes)); [|lia].
  rewrite H1, H5. exc_step. unfold PriceTool.gt_opt, PriceTool.lt_opt. exc_step.
  destruct (Qltb c5 c); [reflexivity|]. exc_step.
  destruct (Qltb c c5); reflexivity.
Qed.

(** A reply whose last close, and fifth-from-last close when there are five,
    are not null yields a record. *)
Lemma get_price_data_try_ok
    (fetch : string -> string -> string -> exc PriceTool.Quotes) (now : Z)
    (symbol period interval : string) (quotes : PriceTool.Quotes) (c : Q) (trend : string) :
  fetch (PriceTool.format_symbol symbol)
        (PriceTool.assoc_get period PriceTool.period_map "1mo") interval = Ok quotes ->
  index (PriceTool.close quotes) (-1) = Ok (Some c) ->
  PriceTool.recent_trend_of (PriceTool.close quotes) = Ok trend ->
  exists start support resistance mas,
    index (PriceTool.close quotes) 0 = Ok start
    /\ PriceTool._calculate_moving_averages (PriceTool.close quotes) = Ok mas
    /\ PriceTool.get_price_data_try fetch now symbol period interval
       = Ok {| PriceTool.symbol := symbol;
               PriceTool.current_price := c;
               PriceTool.price_change_percentage :=
                 round2 (match start with
                         | Some s => if Qeq_bool s 0 then 0 else (c - s) / s * 100
                         | None => 0
                         end)%Q;
               PriceTool.price_range :=
                 PriceTool.price_range_of (PriceTool.high quotes) (PriceTool.low quotes);
               PriceTool.trend_direction := trend;
               PriceTool.volume_trend := PriceTool.volume_trend_of (PriceTool.volume quotes);
               PriceTool.support_levels := support;
               PriceTool.resistance_levels := resistance;
               PriceTool.moving_averages := mas;
               PriceTool.rsi := None;
               PriceTool.timestamp := now |}.
Proof.
  intros Hfetch Hlast Htrend.
  pose proof (index_nonempty _ _ _ Hlast) as Hne.
  destruct (index_in_range (PriceTool.close quotes) 0) as [start [Hstart _]].
  { destruct (PriceTool.close quotes); [congruence | simpl length; lia]. }
  destruct (support_resistance_total (PriceTool.low quotes) "support") as [support Hsup].
  destruct (support_resistance_total (PriceTool.high quotes) "resistance") as [resistance Hres].
  destruct (moving_averages_total (PriceTool.close quotes)) as [mas Hmas].
  exists start, support, resistance, mas. split; [assumption|]. split; [assumption|].
  unfold PriceTool.get_price_data_try. rewrite Hfetch. exc_step.
  unfold PriceTool.current_price_of, PriceTool.start_price_of.
  destruct (PriceTool.close quotes) as [|c0 cs] eqn:Ec; [congruence|].
  rewrite Hlast. exc_step. rewrite Hstart. exc_step.
  rewrite price_change_pct_current. exc_step.
  rewrite Htrend. exc_step. rewrite Hsup. exc_step. rewrite Hres. exc_step.
  rewrite Hmas. exc_step. reflexivity.
Qed.

(** C2 (amended). When the fetch succeeds with a non-empty closes series
    whose last close is not null and, if at least five samples exist, whose
    fifth-from-last close is not null, [get_price_data] returns a record:
    its current price is the last close; its percentage change is
    round((last − first)/first × 100, 2), and 0 when the first close is 0 or
    null; its trend is "neutral" with fewer than five samples, and otherwise
    "bullish", "bearish" or "neutral" as the last close is above, below or
    equal to the fifth-from-last.  For thirty closes equal to 100 the trend
    is "neutral", the change 0 and MA_20 is 100. *)
Theorem price_data_of_closes
    (fetch : string -> string -> string -> exc PriceTool.Quotes) (now : Z)
    (symbol period interval : string) (quotes : PriceTool.Quotes) (c : Q) :
  let closes := PriceTool.close quotes in
  fetch (PriceTool.format_symbol symbol)
        (PriceTool.assoc_get period PriceTool.period_map "1mo") interval = Ok quotes ->
  index closes (-1) = Ok (Some c) ->
  ((5 <= length closes)%nat -> exists c5, index closes (-5) = Ok (Some c5)) ->
  exists r,
    PriceTool.get_price_data fetch now symbol period interval = Some r
    /\ PriceTool.current_price r = c
    /\ (forall f, index closes 0 = Ok (Some f) -> ~ (f == 0)%Q ->
          PriceTool.price_change_percentage r = round2 ((c - f) / f * 100))
    /\ (forall f, index closes 0 = Ok (Some f) -> (f == 0)%Q ->
          PriceTool.price_change_percentage r = 0%Q)
    /\ (index closes 0 = Ok None -> PriceTool.price_change_percentage r = 0%Q)
    /\ ((length closes < 5)%nat -> PriceTool.trend_direction r = "neutral")
    /\ (forall c5, (5 <= length closes)%nat -> index closes (-5) = Ok (Some c5) ->
          ((c5 < c)%Q -> PriceTool.trend_direction r = "bullish")
          /\ ((c < c5)%Q -> PriceTool.trend_direction r = "bearish")
          /\ ((c == c5)%Q -> PriceTool.trend_direction r = "neutral"))
    /\ (closes = Scenario.flat_closes ->
          PriceTool.trend_direction r = "neutral"
          /\ PriceTool.price_change_percentage r = 0%Q
          /\ PriceTool.moving_averages r = [("MA_20", 100%Q); ("MA_50", 100%Q)]).
Proof.
  intros closes Hfetch Hlast Hfifth. subst closes.
  assert (Htrend : exists t, PriceTool.recent_trend_of (PriceTool.close quotes) = Ok t
            /\ ((length (PriceTool.close quotes) < 5)%nat -> t = "neutral")
            /\ (forall c5, (5 <= length (PriceTool.close quotes))%nat ->
                  index (PriceTool.close quotes) (-5) = Ok (Some c5) ->
                  t = Stated.trend_between c c5)).
  { destruct (Nat.le_gt_cases 5 (length (PriceTool.close quotes))) as [Hlen|Hlen].
    - destruct (Hfifth Hlen) as [c5 H5]. exists (Stated.trend_between c c5).
      split; [now apply recent_trend_long|]. split; [lia|].
      intros c5' _ H5'. congruence.
    - exists "neutral". split; [now apply recent_trend_short|].
      split; [reflexivity | lia]. }
  destruct Htrend as [t [Ht [Hshort Hlong]]].
  destruct (get_price_data_try_ok fetch now symbol period interval quotes c t
              Hfetch Hlast Ht) as [start [support [resistance [mas [Hstart [Hmas Htry]]]]]].
  eexists. split.
  { unfold PriceTool.get_price_data, PriceTool.get_price_data_logged.
    rewrite Htry. reflexivity. }
  cbn [PriceTool.current_price PriceTool.price_change_percentage
       PriceTool.trend_direction PriceTool.moving_averages].
  split; [reflexivity|].
  split.
  { intros f Hf Hnz. rewrite Hf in Hstart. injection Hstart as <-.
    destruct (Qeq_bool f 0) eqn:E; [|reflexivity].
    apply Qeq_bool_iff in E. contradiction. }
  split.
  { intros f Hf Hz. rewrite Hf in Hstart. injection Hstart as <-.
    apply Qeq_bool_iff in Hz. rewrite Hz. reflexivity. }
  split.
  { intros Hf. rewrite Hf in Hstart. injection Hstart as <-. reflexivity. }
  split; [exact Hshort|].
  split.
  { intros c5 Hlen H5. rewrite (Hlong c5 Hlen H5). unfold Stated.trend_between.
    split; [|split].
    - intros Hlt. apply Qltb_lt in Hlt. now rewrite Hlt.
    - intros Hlt. pose proof (Qlt_le_weak _ _ Hlt) as Hle.
      apply Qltb_ge in Hle. rewrite Hle. apply Qltb_lt in Hlt. now rewrite Hlt.
    - intros Heq.
      assert (H1 : Qltb c5 c = false) by (apply Qltb_ge; rewrite Heq; apply Qle_refl).
      assert (H2 : Qltb c c5 = false) by (apply Qltb_ge; rewrite Heq; apply Qle_refl).
      now rewrite H1, H2. }
  intros Hflat. rewrite Hflat in *.
  assert (Hc : c = 100%Q) by (vm_compute in Hlast; congruence).
  subst c.
  split.
  { rewrite (Hlong 100%Q); [reflexivity | simpl; lia | reflexivity]. }
  split.
  { vm_compute in Hstart. injection Hstart as <-. reflexivity. }
  vm_compute in Hmas. congruence.
Qed.

Lemma price_data_of_closes_witness :
  exists r,
    PriceTool.get_price_data (Scenario.reply Scenario.flat_quotes) 0 "AAPL" "1month" "1d" = Some r
    /\ PriceTool.current_price r = 100%Q
    /\ PriceTool.trend_direction r = "neutral"
    /\ PriceTool.price_change_percentage r = 0%Q
    /\ PriceTool.moving_averages r = [("MA_20", 100%Q); ("MA_50", 100%Q)].
Proof.
  destruct (price_data_of_closes (Scenario.reply Scenario.flat_quotes) 0
              "AAPL" "1month" "1d" Scenario.flat_quotes 100%Q
              eq_refl eq_refl
              (fun _ => ex_intro _ 100%Q eq_refl))
    as [r [Hr [Hc [_ [_ [_ [_ [_ Hflat]]]]]]]].
  destruct (Hflat eq_refl) as [Ht [Hp Hm]].
  exists r. repeat split; assumption.
Defined.

(** C2 as stated fails on series with null entries: with a null last close,
    and with five samples of which the first is null, no record is
    returned, so no current price, change or trend is set. *)
Lemma price_data_null_close_counterexample :
  PriceTool.get_price_data (Scenario.reply Scenario.null_last_quotes) 0 "AAPL" "1month" "1d"
    = None
  /\ PriceTool.get_price_data (Scenario.reply Scenario.null_first_quotes) 0 "AAPL" "1month" "1d"
    = None.
Proof. split; reflexivity. Qed.

Example support_resistance_of_twelve :
  let prices := map (fun z => Some (inject_Z z)) [5; 3; 9; 1; 7; 2; 8; 4; 6; 10; 11; 12] in
  PriceTool._calculate_support_resistance prices "support" = Ok [1%Q; 2%Q]
  /\ PriceTool._calculate_support_resistance prices "resistance" = Ok [12%Q; 11%Q]
  /\ PriceTool._calculate_support_resistance (firstn 10 prices) "resistance" = Ok [10%Q]
  /\ PriceTool._calculate_support_resistance [None; None] "support" = Ok [].
Proof. repeat split. Qed.

Example round2_half_even :
  round2 (2675 # 1000) = (67 # 25)%Q /\ round2 (125 # 1000) = (3 # 25)%Q
  /\ round2 (-125 # 1000) = (-3 # 25)%Q /\ int (-7 # 2) = -3 /\ int (7 # 2) = 3.
Proof. repeat split. Qed.

Example failed_fetch_gives_placeholder :
  PriceTool.get_price_data Scenario.no_reply 0 "AAPL" "1month" "1d" = None
  /\ AgentTool.get_price_analysis (AgentTool.wired_price_call Scenario.no_reply 0)
       "AAPL" "1month"
     = AgentTool.price_placeholder "AAPL" "1month"
         (Exn AttributeError "'NoneType' object has no attribute 'symbol'").
Proof. split; reflexivity. Qed.

(** A failed fetch makes the whole call evaluate to [None]. *)
Lemma failed_fetch_gives_none
    (fetch : string -> string -> string -> exc PriceTool.Quotes) (now : Z)
    (symbol period interval : string) :
  match fetch (PriceTool.format_symbol symbol)
              (PriceTool.assoc_get period PriceTool.period_map "1mo") interval with
  | Raise e =>
      PriceTool.get_price_data_try fetch now symbol period interval = Raise e
      /\ PriceTool.get_price_data fetch now symbol period interval = None
  | Ok _ => True
  end.
Proof.
  unfold PriceTool.get_price_data, PriceTool.get_price_data_logged,
    PriceTool.get_price_data_try.
  destruct (fetch _ _ interval); [exact I|]. exc_step. split; reflexivity.
Qed.

(** C10. [get_price_data] returns for every input: when the body of its
    [try] block raises, whether in the fetch or in the derivation, the
    exception is logged and the value is [None]; otherwise the value is the
    record the body built.  A failed fetch always gives [None]. *)
Theorem get_price_data_never_raises
    (fetch : string -> string -> string -> exc PriceTool.Quotes) (now : Z)
    (symbol period interval : string) :
  match PriceTool.get_price_data_try fetch now symbol period interval with
  | Raise e =>
      PriceTool.get_price_data_logged fetch now symbol period interval
      = (None, ["Exception while getting price data: " +:+ exn_msg e +:+ " "])
      /\ PriceTool.get_price_data fetch now symbol period interval = None
  | Ok r =>
      PriceTool.get_price_data_logged fetch now symbol period interval = (Some r, [])
      /\ PriceTool.get_price_data fetch now symbol period interval = Some r
  end
  /\ match fetch (PriceTool.format_symbol symbol)
                 (PriceTool.assoc_get period PriceTool.period_map "1mo") interval with
     | Raise e =>
         PriceTool.get_price_data_try fetch now symbol period interval = Raise e
         /\ PriceTool.get_price_data fetch now symbol period interval = None
     | Ok _ => True
     end.
Proof.
  split.
  - unfold PriceTool.get_price_data, PriceTool.get_price_data_logged.
    destruct (PriceTool.get_price_data_try fetch now symbol period interval);
      split; reflexivity.
  - apply failed_fetch_gives_none.
Qed.

(* ===================================================================== *)
(** * The news fetcher *)
(* ===================================================================== *)

Lemma int_Qeq (x y : Q) : (x == y)%Q -> int x = int y.
Proof.
  unfold Qeq, int. intros H.
  rewrite <- (Z.quot_mul_cancel_r (Qnum x) (Zpos (Qden x)) (Zpos (Qden y))) by discriminate.
  rewrite <- (Z.quot_mul_cancel_r (Qnum y) (Zpos (Qden y)) (Zpos (Qden x))) by discriminate.
  rewrite H. f_equal. apply Z.mul_comm.
Qed.

Lemma adjustment_get_stated (overall : string) :
  NewsTool.adjustment_get overall NewsTool.adjustments 0 = Stated.adjustment overall.
Proof.
  unfold Stated.adjustment. simpl.
  destruct (String.eqb overall "positive"); [reflexivity|].
  destruct (String.eqb overall "negative"); [reflexivity|].
  destruct (String.eqb overall "neutral"); reflexivity.
Qed.

Lemma clamp_bounds (x : Z) : 0 <= Stated.clamp 0 100 x <= 100.
Proof. unfold Stated.clamp. lia. Qed.

(** The overall sentiment is the majority vote between the positive and the
    negative sentiments, and neutral on a tie. *)
Lemma overall_sentiment_majority (articles : list NewsTool.NewsArticle) :
  let p := NewsTool.count "positive" (NewsTool.sentiments_of articles) in
  let n := NewsTool.count "negative" (NewsTool.sentiments_of articles) in
  ((n < p)%nat -> NewsTool._calculate_overall_sentiment articles = "positive")
  /\ ((p < n)%nat -> NewsTool._calculate_overall_sentiment articles = "negative")
  /\ (p = n -> NewsTool._calculate_overall_sentiment articles = "neutral").
Proof.
  intros p n. subst p n. unfold NewsTool._calculate_overall_sentiment.
  destruct articles as [|a rest].
  - cbv [NewsTool.sentiments_of NewsTool.count List.filter length].
    repeat split; intros; try reflexivity; try lia.
  - set (p := NewsTool.count "positive" _). set (n := NewsTool.count "negative" _).
    destruct (Nat.ltb_spec n p); destruct (Nat.ltb_spec p n);
      repeat split; intros; try reflexivity; try lia.
Qed.

(** C3 (amended). For every article list the index is 50 when no article
    has a sentiment that is neither null nor empty, and otherwise
    clamp(0, 100, int(100 × positive_ratio + adjustment)), where
    positive_ratio is the fraction of such sentiments that are "positive" and
    the adjustment is +10, −10 or 0 for a majority-vote overall sentiment of
    positive, negative or neutral.  The index always lies in [0, 100]; the
    empty list has overall sentiment "neutral" and index 50. *)
Theorem fear_greed_index_kept (articles : list NewsTool.NewsArticle) :
  NewsTool._calculate_fear_greed_index articles = Stated.fear_greed_kept articles
  /\ 0 <= NewsTool._calculate_fear_greed_index articles <= 100
  /\ NewsTool._calculate_overall_sentiment [] = "neutral"
  /\ NewsTool._calculate_fear_greed_index [] = 50.
Proof.
  assert (Heq : NewsTool._calculate_fear_greed_index articles = Stated.fear_greed_kept articles).
  { unfold NewsTool._calculate_fear_greed_index, Stated.fear_greed_kept.
    destruct articles as [|a rest]; [reflexivity|].
    destruct (NewsTool.sentiments_of (a :: rest)) as [|s ss] eqn:Es; [reflexivity|].
    cbn [length Nat.eqb]. unfold Stated.clamp. f_equal. f_equal.
    apply int_Qeq. rewrite adjustment_get_stated. unfold Stated.positive_ratio.
    apply Qplus_comp; [apply Qmult_comm | reflexivity]. }
  split; [exact Heq|]. split; [|split; reflexivity].
  rewrite Heq. unfold Stated.fear_greed_kept.
  destruct (NewsTool.sentiments_of articles); [lia | apply clamp_bounds].
Qed.

(** C3 as stated fails: with one positive article and one whose sentiment is
    the empty string, half of the non-null sentiments are positive, which
    gives 60, while the code drops the empty sentiment and returns 100.  And
    for a non-empty list without any sentiment the code returns 50, although
    no sentiment is positive and the overall sentiment is neutral. *)
Lemma fear_greed_non_null_counterexample :
  NewsTool._calculate_fear_greed_index Scenario.positive_and_empty = 100
  /\ Stated.fear_greed_stated Scenario.positive_and_empty = 60
  /\ NewsTool._calculate_fear_greed_index Scenario.positive_and_empty
     <> Stated.fear_greed_stated Scenario.positive_and_empty
  /\ NewsTool._calculate_fear_greed_index Scenario.unscored = 50
  /\ NewsTool._calculate_overall_sentiment Scenario.unscored = "neutral"
  /\ Stated.non_null_sentiments Scenario.unscored = [].
Proof. repeat split. vm_compute. discriminate. Qed.

(** A failed live fetch does not reach the tool layer: the fetcher answers
    with the mock articles, from which the tool builds its usual response. *)
Example failed_live_fetch_is_mocked :
  let result := NewsTool.get_financial_news Scenario.themes_in_order Scenario.days_ago 0
                  (Some "key") Scenario.no_news_reply "AAPL" None 5 in
  NewsTool.overall_sentiment result = "positive"
  /\ NewsTool.fear_greed_index result = 76
  /\ dict_lookup "fear_greed_index"
       (AgentTool.get_news_sentiment
          (AgentTool.wired_news_call 0 Scenario.themes_in_order Scenario.days_ago
             (Some "key") Scenario.no_news_reply) "AAPL" 5)
     = PNum 76.
Proof. repeat split. Qed.

Example mostly_negative_index :
  NewsTool._calculate_overall_sentiment Scenario.mostly_negative = "negative"
  /\ NewsTool._calculate_fear_greed_index Scenario.mostly_negative = 23.
Proof. split; reflexivity. Qed.

Lemma mock_articles_fields (days_ago_iso : nat -> string)
    (items : list NewsTool.mock_item) (i : nat) :
  map (fun a => (NewsTool.title a, NewsTool.source a, NewsTool.sentiment a))
      (map (fun '(i, (t, src, sent)) =>
              {| NewsTool.title := t; NewsTool.source := src;
                 NewsTool.published_at := days_ago_iso i;
                 NewsTool.description := None; NewsTool.url := None;
                 NewsTool.sentiment := Some sent |})
           (NewsTool.enumerate_from i items))
  = map (fun '(t, src, sent) => (t, src, Some sent)) items.
Proof.
  revert i. induction items as [|[[t src] sent] items IH]; intros i; simpl.
  - reflexivity.
  - f_equal. apply IH.
Qed.

Lemma slice_map {A B} (f : A -> B) (l : list A) (lo hi : option Z) :
  slice (map f l) lo hi = map f (slice l lo hi).
Proof. unfold slice. rewrite length_map, skipn_map, firstn_map. reflexivity. Qed.

(** Without a credential, and whenever the live fetch raises, the result is
    the mock result. *)
Lemma financial_news_mocked
    (set_order : list string -> list string) (days_ago_iso : nat -> string) (now : Z)
    (news_api_key : option string) (http_get : string -> Z -> exc pyval)
    (symbol : string) (query : option string) (max_results : Z) :
  NewsTool.truthy_str news_api_key = false
  \/ (exists e, NewsTool._get_real_news set_order now http_get symbol query max_results
                = Raise e) ->
  NewsTool.get_financial_news set_order days_ago_iso now news_api_key http_get
    symbol query max_results
  = NewsTool._get_mock_news set_order days_ago_iso now symbol query max_results.
Proof.
  intros H. unfold NewsTool.get_financial_news.
  destruct H as [H|[e H]].
  - rewrite H. reflexivity.
  - destruct (NewsTool.truthy_str news_api_key); [rewrite H|]; reflexivity.
Qed.

(** Every table, the generic one included, holds three rows: two positive
    and one negative. *)
Lemma mock_table_cases (k : string) :
  let table := NewsTool.mock_get k NewsTool.mock_news NewsTool.generic_news in
  exists t1 s1 t2 s2 t3 s3,
    table = [(t1, s1, "positive"); (t2, s2, "positive"); (t3, s3, "negative")].
Proof.
  unfold NewsTool.mock_news, NewsTool.generic_news. cbn [NewsTool.mock_get].
  repeat match goal with |- context [if ?b then _ else _] => destruct b end;
    repeat eexists.
Qed.

(** C8. When no news credential is configured, and whenever the live fetch
    raises, [get_financial_news] returns the mock result.  Its articles are
    the first [max_results] rows of the table of the upper-cased symbol:
    the Apple rows for "AAPL", the Tesla rows for "TSLA", the Bitcoin rows
    for "BTC", and the generic rows for every other symbol.  Its overall
    sentiment is the majority vote of the article sentiments, a tie giving
    "neutral".  With [max_results] 5 every symbol has exactly three
    articles, two positive and one negative, so the overall sentiment is
    "positive"; for "AAPL" they are the three Apple rows. *)
Theorem mock_news_fallback
    (set_order : list string -> list string) (days_ago_iso : nat -> string) (now : Z)
    (news_api_key : option string) (http_get : string -> Z -> exc pyval)
    (symbol : string) (query : option string) (max_results : Z) :
  NewsTool.truthy_str news_api_key = false
  \/ (exists e, NewsTool._get_real_news set_order now http_get symbol query max_results
                = Raise e) ->
  let r := NewsTool.get_financial_news set_order days_ago_iso now news_api_key http_get
             symbol query max_results in
  let table := NewsTool.mock_get (upper symbol) NewsTool.mock_news NewsTool.generic_news in
  let rows := map (fun a => (NewsTool.title a, NewsTool.source a, NewsTool.sentiment a))
                  (NewsTool.articles r) in
  let p := NewsTool.count "positive" (NewsTool.sentiments_of (NewsTool.articles r)) in
  let n := NewsTool.count "negative" (NewsTool.sentiments_of (NewsTool.articles r)) in
  r = NewsTool._get_mock_news set_order days_ago_iso now symbol query max_results
  /\ rows = map (fun '(t, src, sent) => (t, src, Some sent))
                (slice table None (Some max_results))
  (* the table of each known symbol *)
  /\ (upper symbol = "AAPL" ->
      rows = slice [("Apple announces record iPhone sales", "Bloomberg", Some "positive");
                    ("New Apple AI features impress analysts", "CNBC", Some "positive");
                    ("Apple faces regulatory challenges in EU", "Reuters", Some "negative")]
                   None (Some max_results))
  /\ (upper symbol = "TSLA" ->
      rows = slice [("Tesla deliveries exceed expectations", "Wall Street Journal",
                     Some "positive");
                    ("New Tesla factory accelerates production", "Bloomberg",
                     Some "positive");
                    ("Tesla faces competition from legacy automakers", "Reuters",
                     Some "negative")]
                   None (Some max_results))
  /\ (upper symbol = "BTC" ->
      rows = slice [("Bitcoin ETF approvals drive institutional adoption", "CoinDesk",
                     Some "positive");
                    ("Regulatory clarity improves for cryptocurrencies", "Bloomberg",
                     Some "positive");
                    ("Market volatility concerns persist", "Reuters", Some "negative")]
                   None (Some max_results))
  (* the generic table for every other symbol *)
  /\ (in_list (upper symbol) ["AAPL"; "TSLA"; "BTC"] = false ->
      table = NewsTool.generic_news
      /\ rows = slice [("Strong quarterly earnings reported", "Financial Times",
                        Some "positive");
                       ("Market shows positive momentum", "Bloomberg", Some "positive");
                       ("Economic uncertainty affects performance", "Reuters",
                        Some "negative")]
                      None (Some max_results))
  /\ (in_list (upper symbol) (map fst NewsTool.mock_news) = false ->
      table = NewsTool.generic_news)
  (* the vote *)
  /\ ((n < p)%nat -> NewsTool.overall_sentiment r = "positive")
  /\ ((p < n)%nat -> NewsTool.overall_sentiment r = "negative")
  /\ (p = n -> NewsTool.overall_sentiment r = "neutral")
  (* the default number of results *)
  /\ (max_results = 5 ->
      length (NewsTool.articles r) = 3%nat
      /\ map snd rows = [Some "positive"; Some "positive"; Some "negative"]
      /\ p = 2%nat /\ n = 1%nat
      /\ NewsTool.overall_sentiment r = "positive")
  /\ (upper symbol = "AAPL" -> max_results = 5 ->
      length (NewsTool.articles r) = 3%nat
      /\ NewsTool.overall_sentiment r = "positive"
      /\ rows = [("Apple announces record iPhone sales", "Bloomberg", Some "positive");
                 ("New Apple AI features impress analysts", "CNBC", Some "positive");
                 ("Apple faces regulatory challenges in EU", "Reuters", Some "negative")]).
Proof.
  intros H r table rows p n.
  assert (Hr : r = NewsTool._get_mock_news set_order days_ago_iso now symbol query max_results).
  { subst r. apply financial_news_mocked, H. }
  split; [exact Hr|].
  assert (Hrows : rows = map (fun '(t, src, sent) => (t, src, Some sent))
                           (slice table None (Some max_results))).
  { subst rows. rewrite Hr. unfold NewsTool._get_mock_news, NewsTool.analyse.
    cbn [NewsTool.articles]. fold table. apply mock_articles_fields. }
  assert (Hgeneric : in_list (upper symbol) ["AAPL"; "TSLA"; "BTC"] = false ->
                     table = NewsTool.generic_news).
  { intros Hnot. subst table. unfold in_list in Hnot. simpl in Hnot.
    apply orb_false_iff in Hnot as [H1 Hnot].
    apply orb_false_iff in Hnot as [H2 Hnot].
    apply orb_false_iff in Hnot as [H3 _].
    simpl. rewrite H1, H2, H3. reflexivity. }
  assert (Hfive : max_results = 5 ->
                  length (NewsTool.articles r) = 3%nat
                  /\ map snd rows = [Some "positive"; Some "positive"; Some "negative"]
                  /\ p = 2%nat /\ n = 1%nat
                  /\ NewsTool.overall_sentiment r = "positive").
  { intros ->. subst rows p n. rewrite Hr. unfold NewsTool._get_mock_news.
    destruct (mock_table_cases (upper symbol)) as [t1 [s1 [t2 [s2 [t3 [s3 ->]]]]]].
    repeat split. }
  split; [exact Hrows|].
  split; [intros Hu; rewrite Hrows; subst table; rewrite Hu, <- slice_map; reflexivity|].
  split; [intros Hu; rewrite Hrows; subst table; rewrite Hu, <- slice_map; reflexivity|].
  split; [intros Hu; rewrite Hrows; subst table; rewrite Hu, <- slice_map; reflexivity|].
  split.
  { intros Hnot. split; [exact (Hgeneric Hnot)|].
    rewrite Hrows, (Hgeneric Hnot), <- slice_map. reflexivity. }
  split; [exact Hgeneric|].
  subst p n. rewrite Hr.
  unfold NewsTool._get_mock_news, NewsTool.analyse.
  cbn [NewsTool.articles NewsTool.overall_sentiment].
  split; [apply overall_sentiment_majority|].
  split; [apply overall_sentiment_majority|].
  split; [apply overall_sentiment_majority|].
  split.
  { intros Hm. destruct (Hfive Hm) as [H1 [H2 [H3 [H4 H5]]]].
    rewrite Hr in H1, H3, H4, H5. unfold NewsTool._get_mock_news, NewsTool.analyse in *.
    cbn [NewsTool.articles NewsTool.overall_sentiment] in *.
    repeat split; assumption. }
  intros Hu Hm. destruct (Hfive Hm) as [H1 [_ [_ [_ H5]]]].
  rewrite Hr in H1, H5. unfold NewsTool._get_mock_news, NewsTool.analyse in *.
  cbn [NewsTool.articles NewsTool.overall_sentiment] in *.
  split; [exact H1|]. split; [exact H5|].
  rewrite Hrows. subst table. rewrite Hu, Hm. reflexivity.
Qed.

Lemma mock_news_fallback_witness :
  let r := NewsTool.get_financial_news Scenario.themes_in_order Scenario.days_ago 0
             (Some "key") Scenario.no_news_reply "tsla" None 2 in
  map (fun a => (NewsTool.title a, NewsTool.source a, NewsTool.sentiment a))
      (NewsTool.articles r)
  = [("Tesla deliveries exceed expectations", "Wall Street Journal", Some "positive");
     ("New Tesla factory accelerates production", "Bloomberg", Some "positive")]
  /\ NewsTool.overall_sentiment r = "positive".
Proof.
  pose proof (mock_news_fallback Scenario.themes_in_order Scenario.days_ago 0 (Some "key")
                Scenario.no_news_reply "tsla" None 2
                (or_intror (ex_intro _ _ eq_refl))) as H.
  cbv zeta in H. destruct H as [_ [_ [_ [Htsla [_ [_ [_ [Hpos _]]]]]]]].
  split.
  - rewrite (Htsla eq_refl). reflexivity.
  - apply Hpos. vm_compute. lia.
Defined.

(* ===================================================================== *)
(** * The agent-facing tools *)
(* ===================================================================== *)

Lemma nums_of_strings {A} (f : A -> string) (l : list A) :
  nums (PList (map (fun a => PStr (f a)) l)) = [].
Proof.
  induction l as [|a l IH]; [reflexivity|].
  change (nums (PStr (f a)) ++ nums (PList (map (fun a => PStr (f a)) l)) = []).
  rewrite IH. reflexivity.
Qed.

(** The index is the only number in an answer of the news tool. *)
Lemma news_response_nums (r : NewsTool.NewsAnalysisResult) :
  nums (PDict (AgentTool.news_response r)) = [inject_Z (NewsTool.fear_greed_index r)].
Proof.
  unfold AgentTool.news_response.
  change (nums (PDict _)) with
    (nums (PStr (NewsTool.symbol r))
     ++ nums (PStr (NewsTool.overall_sentiment r))
     ++ nums (PNum (inject_Z (NewsTool.fear_greed_index r)))
     ++ nums (PList (map (fun t => PStr t) (NewsTool.key_themes r)))
     ++ nums (PList (map (fun a => PStr (NewsTool.title a)) (NewsTool.articles r)))
     ++ nums (PList (map (fun s => PStr s) (NewsTool.sentiments_of (NewsTool.articles r))))
     ++ nums (PList (map (fun a => PStr ("Negative news: " +:+ NewsTool.title a))
                         (List.filter
                            (fun a => bool_decide (NewsTool.sentiment a = Some "negative"))
                            (NewsTool.articles r))))
     ++ []).
  rewrite !nums_of_strings. reflexivity.
Qed.

(** C1 (amended). The three tool operations are total: whatever the fetcher
    call does, each returns a mapping.  If the price fetcher raises, or
    returns no record, [get_price_analysis] returns the placeholder: current
    price 0, change 0, range "N/A", empty support, resistance and
    moving-average collections, and an [error] string that carries the
    failure; every number in it is zero.  With the price tool wired in, a
    failed HTTP fetch leads to this placeholder.  [get_news_sentiment]
    returns its neutral placeholder (sentiment "neutral", index 50, empty
    lists, one [risk_factors] entry carrying the failure, 50 its only
    number) only if the call of the news tool itself raises.  The news tool
    as it is wired never does: [get_news_sentiment] answers with the
    analysis of [get_financial_news] and no [error] entry, and without a
    credential, or when the live fetch raises, that is the analysis of the
    mock articles; with [max_results] 5 it has sentiment "positive", index
    76, three headlines and one risk factor, for every symbol.  The failure
    record of [get_comprehensive_analysis] holds no number at all. *)
Theorem tool_error_paths
    (price_call : string -> string -> exc (option PriceTool.PriceAnalysisResult))
    (news_call : string -> Z -> exc NewsTool.NewsAnalysisResult)
    (py_str : pyval -> string)
    (symbol period : string) (max_results : Z) :
  (* get_price_analysis *)
  match price_call symbol period with
  | Raise e =>
      AgentTool.get_price_analysis price_call symbol period
      = AgentTool.price_placeholder symbol period e
  | Ok None =>
      AgentTool.get_price_analysis price_call symbol period
      = AgentTool.price_placeholder symbol period
          (Exn AttributeError "'NoneType' object has no attribute 'symbol'")
  | Ok (Some r) =>
      AgentTool.get_price_analysis price_call symbol period = AgentTool.price_response r period
  end
  (* get_news_sentiment *)
  /\ match news_call symbol max_results with
     | Raise e =>
         AgentTool.get_news_sentiment news_call symbol max_results
         = AgentTool.news_placeholder symbol e
     | Ok r =>
         AgentTool.get_news_sentiment news_call symbol max_results = AgentTool.news_response r
     end
  (* get_comprehensive_analysis *)
  /\ AgentTool.get_comprehensive_analysis price_call news_call py_str symbol period
     = (let price_data := AgentTool.get_price_analysis price_call symbol period in
        let news_data := AgentTool.get_news_sentiment news_call symbol 5 in
        AgentTool.comprehensive_response symbol period price_data news_data
          (AgentTool._generate_combined_insights py_str price_data news_data))
  (* the price placeholder *)
  /\ (forall e,
        let d := AgentTool.price_placeholder symbol period e in
        dict_lookup "current_price" d = PNum 0
        /\ dict_lookup "price_change_percentage" d = PNum 0
        /\ dict_lookup "price_range" d = PStr "N/A"
        /\ dict_lookup "support_levels" d = PList []
        /\ dict_lookup "resistance_levels" d = PList []
        /\ dict_lookup "moving_averages" d = PDict []
        /\ dict_lookup "error" d = PStr ("Failed to get price data: " +:+ exn_msg e)
        /\ Forall (fun q => q = 0%Q) (nums (PDict d)))
  (* the news placeholder *)
  /\ (forall e,
        let d := AgentTool.news_placeholder symbol e in
        dict_lookup "overall_sentiment" d = PStr "neutral"
        /\ dict_lookup "fear_greed_index" d = PNum 50
        /\ dict_lookup "key_themes" d = PList []
        /\ dict_lookup "top_headlines" d = PList []
        /\ dict_lookup "article_sentiments" d = PList []
        /\ dict_lookup "risk_factors" d = PList [PStr ("Data unavailable: " +:+ exn_msg e)]
        /\ nums (PDict d) = [50%Q])
  (* the failure record of the comprehensive analysis *)
  /\ (forall e, nums (PDict (AgentTool.comprehensive_failure symbol period e)) = [])
  (* the price tool as the factory builds it *)
  /\ (forall fetch now,
        match fetch (PriceTool.format_symbol symbol)
                    (PriceTool.assoc_get period PriceTool.period_map "1mo") "1d" with
        | Raise _ =>
            AgentTool.get_price_analysis (AgentTool.wired_price_call fetch now) symbol period
            = AgentTool.price_placeholder symbol period
                (Exn AttributeError "'NoneType' object has no attribute 'symbol'")
        | Ok _ => True
        end)
  (* the news tool as the factory builds it *)
  /\ (forall set_order days_ago_iso now news_api_key http_get,
        let answer :=
          AgentTool.get_news_sentiment
            (AgentTool.wired_news_call now set_order days_ago_iso news_api_key http_get)
            symbol max_results in
        answer
        = AgentTool.news_response
            (NewsTool.get_financial_news set_order days_ago_iso now news_api_key http_get
               symbol None max_results)
        /\ dict_lookup "error" answer = PNone
        /\ (NewsTool.truthy_str news_api_key = false
            \/ (exists e, NewsTool._get_real_news set_order now http_get symbol None
                            max_results = Raise e) ->
            answer
            = AgentTool.news_response
                (NewsTool._get_mock_news set_order days_ago_iso now symbol None max_results)
            /\ (max_results = 5 ->
                dict_lookup "overall_sentiment" answer = PStr "positive"
                /\ dict_lookup "fear_greed_index" answer = PNum 76
                /\ dict_lookup "article_sentiments" answer
                   = PList [PStr "positive"; PStr "positive"; PStr "negative"]
                /\ (exists h1 h2 h3,
                      dict_lookup "top_headlines" answer = PList [PStr h1; PStr h2; PStr h3]
                      /\ dict_lookup "risk_factors" answer
                         = PList [PStr ("Negative news: " +:+ h3)])
                /\ nums (PDict answer) = [76%Q]))).
Proof.
  split; [|split; [|split; [|split; [|split; [|split; [|split]]]]]].
  - unfold AgentTool.get_price_analysis, AgentTool._get_price_analysis_impl.
    destruct (price_call symbol period) as [[r|]|e]; reflexivity.
  - unfold AgentTool.get_news_sentiment, AgentTool._get_news_sentiment_impl.
    destruct (news_call symbol max_results) as [r|e]; reflexivity.
  - reflexivity.
  - intros e d. subst d. repeat split. repeat constructor.
  - intros e d. subst d. repeat split.
  - intros e. reflexivity.
  - intros fetch now.
    pose proof (failed_fetch_gives_none fetch now symbol period "1d") as H.
    destruct (fetch _ _ "1d") as [q|e]; [exact I|].
    destruct H as [_ H].
    unfold AgentTool.get_price_analysis, AgentTool._get_price_analysis_impl,
      AgentTool.wired_price_call.
    rewrite H. reflexivity.
  - intros set_order days_ago_iso now news_api_key http_get answer.
    assert (Hanswer : answer
                      = AgentTool.news_response
                          (NewsTool.get_financial_news set_order days_ago_iso now
                             news_api_key http_get symbol None max_results)).
    { reflexivity. }
    split; [exact Hanswer|]. split; [rewrite Hanswer; reflexivity|].
    intros Hfail.
    rewrite (financial_news_mocked _ _ _ _ _ _ _ _ Hfail) in Hanswer.
    split; [exact Hanswer|].
    intros ->. rewrite Hanswer. unfold NewsTool._get_mock_news.
    destruct (mock_table_cases (upper symbol)) as [t1 [s1 [t2 [s2 [t3 [s3 ->]]]]]].
    split; [reflexivity|]. split; [reflexivity|]. split; [reflexivity|].
    split; [exists t1, t2, t3; split; reflexivity|].
    rewrite news_response_nums. reflexivity.
Qed.

(** C1 as stated fails for the news tool.  With a credential set and the
    HTTP request failing, the live fetch raises; [get_news_sentiment] then
    answers not with the neutral placeholder but with the analysis of the
    mock articles: sentiment "positive", index 76, three headlines, and no
    entry that tells of the failure. *)
Lemma news_error_path_counterexample :
  let answer :=
    AgentTool.get_news_sentiment
      (AgentTool.wired_news_call 0 Scenario.themes_in_order Scenario.days_ago (Some "key")
         Scenario.no_news_reply) "AAPL" 5 in
  NewsTool._get_real_news Scenario.themes_in_order 0 Scenario.no_news_reply "AAPL" None 5
  = Raise (Exn HTTPError "All connection attempts failed")
  /\ dict_lookup "overall_sentiment" answer = PStr "positive"
  /\ dict_lookup "fear_greed_index" answer = PNum 76
  /\ dict_lookup "top_headlines" answer
     = PList [PStr "Apple announces record iPhone sales";
              PStr "New Apple AI features impress analysts";
              PStr "Apple faces regulatory challenges in EU"]
  /\ dict_lookup "risk_factors" answer
     = PList [PStr "Negative news: Apple faces regulatory challenges in EU"]
  /\ dict_lookup "error" answer = PNone
  /\ nums (PDict answer) = [76%Q]
  /\ (forall e, answer <> AgentTool.news_placeholder "AAPL" e).
Proof.
  split; [reflexivity|]. split; [reflexivity|]. split; [reflexivity|].
  split; [reflexivity|]. split; [reflexivity|]. split; [reflexivity|].
  split; [reflexivity|].
  intros e H.
  assert (Hs : dict_lookup "overall_sentiment" (AgentTool.news_placeholder "AAPL" e)
               = PStr "positive") by (rewrite <- H; reflexivity).
  discriminate Hs.
Qed.

(* ===================================================================== *)
(** * Combined insights *)
(* ===================================================================== *)

Lemma bounded_mono {A} (j k : nat) (m : AgentTool.W A) :
  (j <= k)%nat -> Stated.bounded j m -> Stated.bounded k m.
Proof.
  intros Hjk Hm acc. destruct (Hm acc) as [extra [H1 H2]].
  exists extra. split; [assumption|]. destruct (snd (m acc)); lia.
Qed.

Lemma bounded_ret {A} (a : A) : Stated.bounded 0 (mret a : AgentTool.W A).
Proof. intros acc. exists []. split; [symmetry; apply app_nil_r | simpl; lia]. Qed.

Lemma bounded_append (s : string) : Stated.bounded 1 (AgentTool.append s).
Proof. intros acc. exists [s]. split; [reflexivity | simpl; lia]. Qed.

Lemma bounded_bind {A B} (j k : nat) (m : AgentTool.W A) (f : A -> AgentTool.W B) :
  Stated.bounded j m -> (forall a, Stated.bounded k (f a)) -> Stated.bounded (j + k) (m ≫= f).
Proof.
  intros Hm Hf acc. unfold mbind, SE_bind.
  destruct (Hm acc) as [e1 [H1 H2]].
  destruct (m acc) as [acc1 [a|e]]; simpl in H1, H2; subst acc1.
  - destruct (Hf a (acc ++ e1)) as [e2 [H3 H4]].
    exists (e1 ++ e2). split; [rewrite H3; symmetry; apply app_assoc|].
    rewrite length_app. destruct (snd (f a (acc ++ e1))); lia.
  - exists e1. split; [reflexivity | simpl; lia].
Qed.

Lemma bounded_lift_bind {A B} (k : nat) (m : exc A) (f : A -> AgentTool.W B) :
  (1 <= k)%nat -> (forall a, Stated.bounded k (f a)) -> Stated.bounded k (lift m ≫= f).
Proof.
  intros Hk Hf acc. unfold mbind, SE_bind, lift.
  destruct m as [a|e].
  - apply Hf.
  - exists []. split; [symmetry; apply app_nil_r | simpl; lia].
Qed.

Lemma bounded_when (k : nat) (b : bool) (m : AgentTool.W unit) :
  Stated.bounded k m -> Stated.bounded k (AgentTool.when b m).
Proof.
  intros Hm. destruct b; [exact Hm|].
  apply (bounded_mono 0); [lia | apply bounded_ret].
Qed.

Lemma insights_try_bounded (py_str : pyval -> string) (price_data news_data : pydict) :
  Stated.bounded 5 (AgentTool.insights_try py_str price_data news_data).
Proof.
  unfold AgentTool.insights_try.
  apply bounded_lift_bind; [lia|]. intros positive.
  apply (bounded_bind 2 3).
  { apply bounded_when. apply (bounded_bind 1 1).
    - destruct (eq_str _ "bullish"); [apply bounded_append|].
      destruct (eq_str _ "bearish"); [apply bounded_append|].
      apply (bounded_mono 0); [lia | apply bounded_ret].
    - intros _. apply bounded_when, bounded_append. }
  intros _. apply (bounded_bind 1 2).
  { destruct (eq_str _ "positive"); [apply bounded_append|].
    destruct (eq_str _ "negative"); [apply bounded_append|].
    apply (bounded_mono 0); [lia | apply bounded_ret]. }
  intros _. apply bounded_lift_bind; [lia|]. intros greedy.
  apply (bounded_bind 1 1).
  { destruct greedy; [apply bounded_append|].
    apply bounded_lift_bind; [lia|]. intros fearful.
    apply bounded_when, bounded_append. }
  intros _. apply bounded_when.
  apply bounded_lift_bind; [lia|]. intros n. apply bounded_append.
Qed.

Lemma slice_prefix_short {A} (l : list A) (k : Z) :
  Z.of_nat (length l) <= k -> slice l None (Some k) = l.
Proof.
  intros H. unfold slice, clamp_bound.
  destruct (Z.ltb_spec k 0); [lia|].
  rewrite Z.min_l by lia. rewrite Z.sub_0_r, Nat2Z.id. simpl.
  apply firstn_all.
Qed.

Lemma combined_insights_length (py_str : pyval -> string) (price_data news_data : pydict) :
  (1 <= length (AgentTool._generate_combined_insights py_str price_data news_data) <= 5)%nat.
Proof.
  unfold AgentTool._generate_combined_insights.
  destruct (insights_try_bounded py_str price_data news_data []) as [extra [H1 H2]].
  destruct (AgentTool.insights_try py_str price_data news_data []) as [ins [u|e]];
    simpl in H1, H2; subst ins.
  - destruct extra as [|x xs]; [simpl; lia|].
    rewrite (slice_prefix_short (x :: xs) 5) by (simpl length in *; lia).
    simpl length in *. lia.
  - destruct (extra ++ [AgentTool.limited_insight]) as [|x xs] eqn:E.
    + destruct extra; discriminate.
    + assert (Hlen : length (x :: xs) = (length extra + 1)%nat).
      { rewrite <- E, length_app. reflexivity. }
      rewrite (slice_prefix_short (x :: xs) 5) by lia. lia.
Qed.

Lemma gt_num_typed (v : pyval) (n : Q) :
  Stated.is_num v = true -> gt_num v n = Ok (Stated.num_gt v n).
Proof. destruct v; simpl; intros H; try discriminate; reflexivity. Qed.

Lemma lt_num_typed (v : pyval) (n : Q) :
  Stated.is_num v = true -> lt_num v n = Ok (Stated.num_lt v n).
Proof. destruct v; simpl; intros H; try discriminate; reflexivity. Qed.

Lemma py_len_typed (v : pyval) :
  Stated.has_len v = true -> py_len v = Ok (Stated.len_or_0 v).
Proof. destruct v; simpl; intros H; try discriminate; reflexivity. Qed.

Lemma gt_num_untyped (v : pyval) (n : Q) :
  Stated.is_num v = false -> exists e, gt_num v n = Raise e.
Proof. destruct v; simpl; intros H; try discriminate; eauto. Qed.

Lemma py_len_untyped (v : pyval) :
  Stated.has_len v = false -> exists e, py_len v = Raise e.
Proof. destruct v; simpl; intros H; try discriminate; eauto. Qed.

(** When the body raises, the phrases collected so far are kept and the
    "limited" phrase follows them. *)
Lemma combined_insights_raise (py_str : pyval -> string) (price_data news_data : pydict)
    (collected : list string) (e : exn) :
  AgentTool.insights_try py_str price_data news_data [] = (collected, Raise e) ->
  AgentTool._generate_combined_insights py_str price_data news_data
  = collected ++ [AgentTool.limited_insight].
Proof.
  intros H. unfold AgentTool._generate_combined_insights.
  destruct (insights_try_bounded py_str price_data news_data []) as [extra [H1 H2]].
  rewrite H in *. simpl in H1, H2. subst collected.
  destruct (extra ++ [AgentTool.limited_insight]) as [|x xs] eqn:E.
  - destruct extra; discriminate.
  - apply slice_prefix_short. rewrite <- E, length_app. simpl length. lia.
Qed.

Lemma insights_try_ill_typed (py_str : pyval -> string) (price_data news_data : pydict) :
  Stated.well_typed price_data news_data = false ->
  exists collected e,
    AgentTool.insights_try py_str price_data news_data [] = (collected, Raise e).
Proof.
  unfold Stated.well_typed, AgentTool.insights_try. intros Hwt.
  set (bull := eq_str (dict_get "trend_direction" price_data (PStr "unknown")) "bullish").
  set (bear := eq_str (dict_get "trend_direction" price_data (PStr "unknown")) "bearish").
  set (vol := eq_str (dict_lookup "volume_trend" price_data) "increasing").
  set (pos := eq_str (dict_get "overall_sentiment" news_data (PStr "neutral")) "positive").
  set (neg := eq_str (dict_get "overall_sentiment" news_data (PStr "neutral")) "negative").
  destruct (Stated.is_num (dict_get "current_price" price_data (PNum 0))) eqn:Hcp.
  2:{ destruct (gt_num_untyped _ 0 Hcp) as [e He]. rewrite He. eexists _, _. reflexivity. }
  rewrite (gt_num_typed _ 0 Hcp).
  set (cp := Stated.num_gt (dict_get "current_price" price_data (PNum 0)) 0).
  destruct (Stated.is_num (dict_get "fear_greed_index" news_data (PNum 50))) eqn:Hfg.
  2:{ destruct (gt_num_untyped _ 70 Hfg) as [e He]. rewrite He.
      destruct cp, bull, bear, vol, pos, neg; eexists _, _; reflexivity. }
  rewrite (gt_num_typed _ 70 Hfg), (lt_num_typed _ 30 Hfg).
  set (greedy := Stated.num_gt (dict_get "fear_greed_index" news_data (PNum 50)) 70).
  set (fearful := Stated.num_lt (dict_get "fear_greed_index" news_data (PNum 50)) 30).
  cbn [andb] in Hwt. apply orb_false_iff in Hwt as [Hlen Ht].
  apply negb_false_iff in Ht. rewrite Ht.
  destruct (py_len_untyped _ Hlen) as [e He]. rewrite He.
  destruct cp, bull, bear, vol, pos, neg, greedy, fearful; eexists _, _; reflexivity.
Qed.

(** C4 (amended). The insight list always has between 1 and 5 entries.  For
    mappings whose compared fields have the types the tools give them, it is
    assembled in this order and never reordered: a trend phrase when the
    current price is positive and the trend is "bullish" or "bearish"; the
    volume phrase when the current price is positive and the volume trend is
    "increasing"; a sentiment phrase when the overall sentiment is
    "positive" or "negative"; a fear/greed phrase when the index is above 70
    or below 30; the headline-count phrase when there are headlines.  The
    list is cut at 5, and is the single generic phrase when no rule fires.
    For other mappings the list ends with the "limited insights" phrase. *)
Theorem combined_insights_guarded
    (py_str : pyval -> string) (price_data news_data : pydict) :
  (1 <= length (AgentTool._generate_combined_insights py_str price_data news_data) <= 5)%nat
  /\ (Stated.well_typed price_data news_data = true ->
      AgentTool._generate_combined_insights py_str price_data news_data
      = Stated.insights_guarded py_str price_data news_data)
  /\ (Stated.well_typed price_data news_data = false ->
      exists collected,
        AgentTool._generate_combined_insights py_str price_data news_data
        = collected ++ [AgentTool.limited_insight]).
Proof.
  split; [apply combined_insights_length|].
  split.
  2:{ intros Hwt.
      destruct (insights_try_ill_typed py_str price_data news_data Hwt) as [collected [e H]].
      exists collected. exact (combined_insights_raise _ _ _ _ _ H). }
  unfold Stated.well_typed. intros Hwt.
  apply andb_true_iff in Hwt as [Hwt Hh]. apply andb_true_iff in Hwt as [Hcp Hfg].
  unfold AgentTool._generate_combined_insights, AgentTool.insights_try,
    Stated.insights_guarded, Stated.trend_rule, Stated.volume_rule,
    Stated.fear_greed_rule, Stated.headlines_rule.
  rewrite (gt_num_typed _ 0 Hcp), (gt_num_typed _ 70 Hfg), (lt_num_typed _ 30 Hfg).
  set (cp := Stated.num_gt (dict_get "current_price" price_data (PNum 0)) 0).
  set (greedy := Stated.num_gt (dict_get "fear_greed_index" news_data (PNum 50)) 70).
  set (fearful := Stated.num_lt (dict_get "fear_greed_index" news_data (PNum 50)) 30).
  set (bull := eq_str (dict_get "trend_direction" price_data (PStr "unknown")) "bullish").
  set (bear := eq_str (dict_get "trend_direction" price_data (PStr "unknown")) "bearish").
  set (vol := eq_str (dict_lookup "volume_trend" price_data) "increasing").
  set (pos := eq_str (dict_get "overall_sentiment" news_data (PStr "neutral")) "positive").
  set (neg := eq_str (dict_get "overall_sentiment" news_data (PStr "neutral")) "negative").
  destruct (truthy (dict_get "top_headlines" news_data (PList []))) eqn:Ht.
  - cbn [negb] in Hh. rewrite orb_false_r in Hh. rewrite (py_len_typed _ Hh).
    destruct cp, bull, bear, vol, pos, neg, greedy, fearful; reflexivity.
  - destruct cp, bull, bear, vol, pos, neg, greedy, fearful; reflexivity.
Qed.

Lemma combined_insights_guarded_witness :
  AgentTool._generate_combined_insights str_plain
    Scenario.rising_price_data Scenario.greedy_news_data
  = ["Strong upward momentum with 4% gain over the period";
     "Increasing trading volume supports the price trend";
     "Positive market sentiment aligns with recent news flow";
     "High greed index suggests optimistic market sentiment";
     "Recent news includes 3 key developments"].
Proof.
  rewrite (proj1 (proj2 (combined_insights_guarded str_plain
                           Scenario.rising_price_data Scenario.greedy_news_data)) eq_refl).
  reflexivity.
Defined.

(** C4 as stated fails: for a reply without closes and with rising volumes
    the price analysis has current price 0 and volume trend "increasing";
    the rules as stated give the volume phrase, while the code skips both
    price phrases and returns the generic phrase alone.  And an overall
    sentiment that is not "neutral" but neither "positive" nor "negative"
    produces no sentiment phrase; and a null current price gives the
    "limited insights" phrase, which none of the stated rules produces. *)
Lemma combined_insights_price_gate_counterexample :
  dict_lookup "current_price" Scenario.zero_price_data = PNum 0
  /\ dict_lookup "volume_trend" Scenario.zero_price_data = PStr "increasing"
  /\ AgentTool._generate_combined_insights str_plain Scenario.zero_price_data []
     = [AgentTool.generic_insight]
  /\ Stated.insights_stated str_plain Scenario.zero_price_data []
     = [AgentTool.volume_phrase]
  /\ AgentTool._generate_combined_insights str_plain Scenario.zero_price_data []
     <> Stated.insights_stated str_plain Scenario.zero_price_data []
  /\ eq_str (dict_lookup "overall_sentiment" Scenario.mixed_news_data) "neutral" = false
  /\ AgentTool._generate_combined_insights str_plain [] Scenario.mixed_news_data
     = [AgentTool.generic_insight]
  /\ AgentTool._generate_combined_insights str_plain [("current_price", PNone)] []
     = [AgentTool.limited_insight].
Proof.
  split; [reflexivity|]. split; [reflexivity|]. split; [reflexivity|].
  split; [reflexivity|]. split; [vm_compute; discriminate|].
  split; [reflexivity|]. split; reflexivity.
Qed.

(* ===================================================================== *)
(** * The conversation store *)
(* ===================================================================== *)

Section Store.
Import ConversationRepository.

Lemma add_message_found (s : gmap string ConversationHistory)
    (id role : string) (content : pyval) (ts now : Z) (conv : ConversationHistory) :
  s !! id = Some conv ->
  add_message id role content ts now s
  = (<[id := {| conversation_id := conversation_id conv;
                user_id := user_id conv;
                messages := messages conv ++ [mkTurn role content ts];
                created_at := created_at conv;
                updated_at := now |}]> s, Ok tt).
Proof. intros H. unfold add_message, get_conversation. rewrite H. reflexivity. Qed.

Lemma add_message_missing (s : gmap string ConversationHistory)
    (id role : string) (content : pyval) (ts now : Z) :
  s !! id = None ->
  add_message id role content ts now s
  = (s, Raise (Exn ValueError ("Conversation " +:+ id +:+ " not found"))).
Proof. intros H. unfold add_message, get_conversation. rewrite H. reflexivity. Qed.

(** An [add_message] for another conversation leaves this one alone. *)
Lemma add_message_other (s : gmap string ConversationHistory)
    (id id' role : string) (content : pyval) (ts now : Z) :
  id <> id' -> fst (add_message id' role content ts now s) !! id = s !! id.
Proof.
  intros Hne. destruct (s !! id') as [conv'|] eqn:E.
  - rewrite (add_message_found _ _ _ _ _ _ _ E). simpl.
    apply lookup_insert_ne. congruence.
  - rewrite (add_message_missing _ _ _ _ _ _ E). reflexivity.
Qed.

Lemma exec_adds_log (ops : list Stated.op) :
  forall (s : gmap string ConversationHistory) (id : string) (conv : ConversationHistory),
    s !! id = Some conv ->
    Stated.fresh_creates ops s ->
    exists conv',
      Stated.exec ops s !! id = Some conv'
      /\ messages conv' = messages conv ++ Stated.turns_for id ops
      /\ updated_at conv' = Stated.last_update id ops (updated_at conv)
      /\ conversation_id conv' = conversation_id conv
      /\ user_id conv' = user_id conv
      /\ created_at conv' = created_at conv.
Proof.
  induction ops as [|o ops IH]; intros s id conv Hs Hfresh.
  - exists conv. simpl. rewrite app_nil_r. repeat split; try reflexivity. exact Hs.
  - destruct Hfresh as [Ho Hfresh]. simpl Stated.exec.
    change (fold_left (fun s o => Stated.apply_op o s) ops (Stated.apply_op o s))
      with (Stated.exec ops (Stated.apply_op o s)).
    destruct o as [fresh_id now user|id' role content ts now].
    + (* Create: the identifier is fresh, so another entry *)
      assert (Hne : fresh_id <> id) by (intros ->; congruence).
      assert (Hs' : Stated.apply_op (Stated.Create fresh_id now user) s !! id = Some conv).
      { simpl. rewrite lookup_insert_ne by exact Hne. exact Hs. }
      destruct (IH _ id conv Hs' Hfresh) as [conv' H]. exists conv'. exact H.
    + simpl Stated.turns_for. simpl Stated.last_update.
      destruct (String.eqb_spec id id') as [<-|Hne].
      * (* Add to this conversation *)
        simpl Stated.apply_op in *.
        rewrite (add_message_found _ _ _ _ _ _ _ Hs) in *. simpl fst in *.
        edestruct (IH _ id _ (lookup_insert_eq s id _) Hfresh)
          as [conv' [H1 [H2 [H3 [H4 [H5 H6]]]]]].
        exists conv'. simpl in H2, H3, H4, H5, H6.
        repeat split; try assumption.
        rewrite H2, <- app_assoc. reflexivity.
      * (* Add to another conversation, or to none *)
        assert (Hs' : Stated.apply_op (Stated.Add id' role content ts now) s !! id
                      = Some conv).
        { simpl. rewrite add_message_other by exact Hne. exact Hs. }
        destruct (IH _ id conv Hs' Hfresh) as [conv' H]. exists conv'. exact H.
Qed.

Lemma turns_for_adds (id : string) (calls : list Stated.call) :
  Stated.turns_for id (Stated.adds_to id calls) = map Stated.turn_of_call calls.
Proof.
  induction calls as [|[[[role content] ts] now] calls IH]; simpl; [reflexivity|].
  rewrite String.eqb_refl. f_equal. exact IH.
Qed.

Lemma fresh_creates_adds (id : string) (calls : list Stated.call) :
  forall s : gmap string ConversationHistory,
    Stated.fresh_creates (Stated.adds_to id calls) s.
Proof.
  induction calls as [|[[[role content] ts] now] calls IH]; intros s; simpl; [exact I|].
  split; [exact I | apply IH].
Qed.

End Store.

(** C9. The conversation store is append-only.  For a conversation that
    exists, after any sequence of store operations (creations under fresh
    identifiers, appends to any identifier) its messages are the messages it
    had followed by the turns of the appends addressed to it, in call order:
    no earlier turn is moved or changed.  Its [updated_at] is the clock
    reading of the last such append.  In particular, N [add_message] calls on
    a newly created conversation make [get_conversation_messages] return
    exactly those N turns in call order. *)
Theorem conversation_log_append_only
    (s : gmap string ConversationRepository.ConversationHistory)
    (id : string) (conv : ConversationRepository.ConversationHistory)
    (ops : list Stated.op) :
  s !! id = Some conv ->
  Stated.fresh_creates ops s ->
  (exists conv',
      Stated.exec ops s !! id = Some conv'
      /\ ConversationRepository.messages conv'
         = ConversationRepository.messages conv ++ Stated.turns_for id ops
      /\ ConversationRepository.updated_at conv'
         = Stated.last_update id ops (ConversationRepository.updated_at conv))
  /\ ConversationRepository.get_conversation_messages id (Stated.exec ops s)
     = Ok (ConversationRepository.messages conv ++ Stated.turns_for id ops)
  /\ (forall fresh_id now user calls,
        let created :=
          fst (ConversationRepository.create_conversation fresh_id now user s) in
        ConversationRepository.get_conversation_messages fresh_id
          (Stated.exec (Stated.adds_to fresh_id calls) created)
        = Ok (map Stated.turn_of_call calls)
        /\ length (map Stated.turn_of_call calls) = length calls).
Proof.
  intros Hs Hfresh.
  destruct (exec_adds_log ops s id conv Hs Hfresh) as [conv' [H1 [H2 [H3 _]]]].
  split; [exists conv'; auto|].
  split.
  - unfold ConversationRepository.get_conversation_messages,
      ConversationRepository.get_conversation.
    rewrite H1. exc_step. rewrite H2. reflexivity.
  - intros fresh_id now user calls created. split; [|apply length_map].
    subst created. simpl fst.
    set (c0 := ConversationRepository.mkConversationHistory fresh_id user [] now now).
    destruct (exec_adds_log (Stated.adds_to fresh_id calls) (<[fresh_id := c0]> s)
                fresh_id c0 (lookup_insert_eq s fresh_id c0) (fresh_creates_adds _ _ _))
      as [c [G1 [G2 _]]].
    unfold ConversationRepository.get_conversation_messages,
      ConversationRepository.get_conversation.
    rewrite G1. exc_step. rewrite G2. simpl. rewrite turns_for_adds. reflexivity.
Qed.

Lemma conversation_log_append_only_witness :
  ConversationRepository.get_conversation_messages "c1"
    (Stated.exec Scenario.later_ops Scenario.one_conversation)
  = Ok [ConversationRepository.mkTurn "user" (PStr "hello") 10;
        ConversationRepository.mkTurn "assistant" (PStr "hi") 12;
        ConversationRepository.mkTurn "user" (PStr "bye") 19].
Proof.
  apply (proj1 (proj2 (conversation_log_append_only
                         Scenario.one_conversation "c1" Scenario.one_turn
                         Scenario.later_ops eq_refl
                         (conj I (conj eq_refl (conj I (conj I (conj I I)))))))).
Defined.

(* ===================================================================== *)
(** * The enriched prompt *)
(* ===================================================================== *)

Lemma string_app_assoc (a b c : string) : (a +:+ b) +:+ c = a +:+ (b +:+ c).
Proof.
  induction a as [|x a IH]; [reflexivity|].
  change (String x ((a +:+ b) +:+ c) = String x (a +:+ (b +:+ c))). now f_equal.
Qed.

Lemma string_app_nil (t : string) : t +:+ "" = t.
Proof.
  induction t as [|x t IH]; [reflexivity|].
  change (String x (t +:+ "") = String x t). now f_equal.
Qed.

Lemma ends_with_refl (s : string) : ends_with s s = true.
Proof. destruct s; simpl; [reflexivity|]. rewrite Ascii.eqb_refl, String.eqb_refl. reflexivity. Qed.

Lemma ends_with_app (a b : string) : ends_with (a +:+ b) b = true.
Proof.
  induction a as [|x a IH]; [apply ends_with_refl|].
  change (String.eqb (String x (a +:+ b)) b || ends_with (a +:+ b) b = true).
  rewrite IH. apply orb_true_r.
Qed.

Lemma join_last (sep : string) (l : list string) (x : string) :
  exists prefix, join sep (l ++ [x]) = prefix +:+ x.
Proof.
  induction l as [|y l IH].
  - exists "". reflexivity.
  - destruct IH as [p Hp].
    exists (y +:+ sep +:+ p).
    change ((y :: l) ++ [x]) with (y :: (l ++ [x])).
    destruct (l ++ [x]) as [|z rest] eqn:E; [destruct l; discriminate|].
    change (join sep (y :: z :: rest)) with (y +:+ sep +:+ join sep (z :: rest)).
    rewrite Hp. rewrite !string_app_assoc. reflexivity.
Qed.

(** C7 (amended). The assembled prompt ends with "Current question: "
    followed by the literal message.  When it is longer than 4000
    characters the result is the fallback "Conversation ID: <id>", a blank
    line, "Question: <message>", followed, when there is a user context, by
    a blank line and "User context: <context>"; otherwise the result is the
    assembled prompt.  The message is last in the result whenever the
    assembled prompt fits the budget or there is no user context. *)
Theorem enhanced_message_question
    (py_str : pyval -> string) (dict_repr : pydict -> string)
    (message : string) (history : list ConversationRepository.Turn)
    (user_context : pydict) (conversation_id : string) :
  let assembled := join AgentService.nl
                     (AgentService.context_lines py_str message history user_context) in
  let result := AgentService._enhance_message_with_context py_str dict_repr
                  message history user_context conversation_id in
  (exists prefix, assembled = prefix +:+ "Current question: " +:+ message)
  /\ (if (4000 <? String.length assembled)%nat
      then result
           = ("Conversation ID: " +:+ conversation_id +:+ AgentService.nl +:+ AgentService.nl
              +:+ "Question: " +:+ message)
             +:+ match user_context with
                 | [] => ""
                 | _ => AgentService.nl +:+ AgentService.nl +:+ "User context: "
                        +:+ dict_repr user_context
                 end
      else result = assembled)
  /\ ((String.length assembled <= 4000)%nat \/ user_context = [] ->
      ends_with result message = true).
Proof.
  intros assembled result.
  assert (Hasm : exists prefix, assembled = prefix +:+ "Current question: " +:+ message).
  { subst assembled. unfold AgentService.context_lines. rewrite app_assoc.
    apply join_last. }
  split; [exact Hasm|].
  subst result. unfold AgentService._enhance_message_with_context. fold assembled.
  split.
  - destruct (4000 <? String.length assembled)%nat; reflexivity.
  - intros H. destruct (Nat.ltb_spec 4000 (String.length assembled)) as [Hlong|Hshort].
    + destruct H as [H|H]; [lia|]. subst user_context.
      unfold AgentService.simplified_message.
      rewrite string_app_nil, <- !string_app_assoc. apply ends_with_app.
    + destruct Hasm as [prefix ->].
      rewrite <- string_app_assoc. apply ends_with_app.
Qed.

Lemma enhanced_message_question_witness :
  AgentService._enhance_message_with_context str_plain dict_repr_plain
    "How is AAPL doing?" [ConversationRepository.mkTurn "user" (PStr "hello") 10]
    Scenario.small_context "c1"
  = join AgentService.nl
      ["Previous conversation:"; "User: hello"; "";
       "User context:"; "- k: v"; "";
       "Current question: How is AAPL doing?"]
  /\ ends_with
       (AgentService._enhance_message_with_context str_plain dict_repr_plain
          "How is AAPL doing?" [ConversationRepository.mkTurn "user" (PStr "hello") 10]
          Scenario.small_context "c1")
       "How is AAPL doing?" = true.
Proof.
  split; [reflexivity|].
  apply (proj2 (proj2 (enhanced_message_question str_plain dict_repr_plain
                         "How is AAPL doing?" [ConversationRepository.mkTurn "user" (PStr "hello") 10]
                         Scenario.small_context "c1"))).
  left. vm_compute. lia.
Defined.

(** C7 as stated fails: a 3990-character question makes the assembled
    prompt longer than 4000 characters, and with a user context the fallback
    ends with the context, not with the question. *)
Lemma enhanced_message_fallback_counterexample :
  (4000 <? String.length
             (join AgentService.nl
                (AgentService.context_lines str_plain Scenario.long_question []
                   Scenario.small_context)))%nat = true
  /\ ends_with
       (AgentService._enhance_message_with_context str_plain dict_repr_plain
          Scenario.long_question [] Scenario.small_context "c1")
       "User context: {'k': 'v'}" = true
  /\ ends_with
       (AgentService._enhance_message_with_context str_plain dict_repr_plain
          Scenario.long_question [] Scenario.small_context "c1")
       Scenario.long_question = false.
Proof. repeat split; vm_compute; reflexivity. Qed.

(* ===================================================================== *)
(** * Processing a message *)
(* ===================================================================== *)

Ltac se_step := cbv beta iota delta [mbind SE_bind mret SE_ret lift fst snd].

(** The steps of a request after the conversation [id] is resolved in the
    store [s1]. *)
Ltac after_resolution agents agent_type id s1 :=
  unfold AgentService._get_agent;
  destruct (agents agent_type) as [agent|]; [|left; reflexivity];
  unfold ConversationRepository.get_conversation_messages,
    ConversationRepository.get_conversation;
  destruct (s1 !! id) as [conv|] eqn:Hconv; [|left; reflexivity];
  exc_step;
  destruct (AgentService._run_agent_with_tools agent _) as [result|e];
    [|left; reflexivity];
  rewrite (add_message_found _ _ _ _ _ _ _ Hconv);
  rewrite (add_message_found _ _ _ _ _ _ _ (lookup_insert_eq s1 id _));
  cbn [ConversationRepository.conversation_id ConversationRepository.user_id
       ConversationRepository.messages ConversationRepository.created_at];
  rewrite insert_insert_eq, <- app_assoc;
  destruct (AgentService._extract_response_text result) as [| | |text| |];
  cbv beta iota delta [AgentService.validate_response];
  cbn [AgentService.chat_conversation_id AgentService.response];
  try (right; exists conv; eexists; split; reflexivity);
  exists conv; split; [reflexivity|]; split; reflexivity.

(** C5. [process_message] appends the user turn and the assistant turn
    together or not at all.  When it returns an envelope, the conversation
    holds its earlier messages followed by the user turn and the assistant
    turn, and nothing else in the store changed.  When anything fails, no
    envelope is returned; either no turn was appended (the store is as it
    was once the conversation was resolved) or both were (the failure came
    after the second append); and the error is a single agent error whose
    message is "Message processing failed: " followed by the message of the
    original exception. *)
Theorem process_message_both_or_neither
    (py_str : pyval -> string) (dict_repr : pydict -> string)
    (agents : AgentService.AgentType -> option AgentService.Agent)
    (enum_str : AgentService.AgentType -> string)
    (env : AgentService.Env) (message : string) (agent_type : AgentService.AgentType)
    (conversation_id : option string) (context : option pydict)
    (s : gmap string ConversationRepository.ConversationHistory) :
  let id := Stated.resolved_id env conversation_id in
  let s1 := Stated.resolved_store env conversation_id s in
  match AgentService.process_message py_str dict_repr agents enum_str env message agent_type
          conversation_id context s with
  | (s', Ok envelope) =>
      exists conv,
        s1 !! id = Some conv
        /\ AgentService.chat_conversation_id envelope = id
        /\ s' = <[id := Stated.appended conv env message
                          (PStr (AgentService.response envelope))]> s1
  | (s', Raise e) =>
      (s' = s1
       \/ exists conv response_text,
            s1 !! id = Some conv
            /\ s' = <[id := Stated.appended conv env message response_text]> s1)
      /\ exn_class e = AgentException
      /\ exists original,
           AgentService.process_message_try py_str dict_repr agents enum_str env message
             agent_type conversation_id context s = (s', Raise original)
           /\ exn_msg e = "500: Agent error: Message processing failed: " +:+ exn_msg original
  end.
Proof.
  intros id s1.
  unfold AgentService.process_message.
  assert (Htry :
    match AgentService.process_message_try py_str dict_repr agents enum_str env message
            agent_type conversation_id context s with
    | (s', Ok envelope) =>
        exists conv, s1 !! id = Some conv
          /\ AgentService.chat_conversation_id envelope = id
          /\ s' = <[id := Stated.appended conv env message
                            (PStr (AgentService.response envelope))]> s1
    | (s', Raise _) =>
        s' = s1
        \/ exists conv response_text,
             s1 !! id = Some conv
             /\ s' = <[id := Stated.appended conv env message response_text]> s1
    end).
  { unfold AgentService.process_message_try, Stated.appended. se_step.
    subst id s1. unfold Stated.resolved_id, Stated.resolved_store.
    destruct (NewsTool.truthy_str conversation_id).
    - after_resolution agents agent_type (default "" conversation_id) s.
    - cbv beta iota delta [ConversationRepository.create_conversation fst].
      set (s1 := <[AgentService.uuid env := _]> s).
      after_resolution agents agent_type (AgentService.uuid env) s1. }
  destruct (AgentService.process_message_try py_str dict_repr agents enum_str env message
              agent_type conversation_id context s) as [s' [envelope|e]].
  - exact Htry.
  - split; [exact Htry|]. split; [reflexivity|].
    exists e. split; reflexivity.
Qed.

(** The three outcomes of a request: an envelope with both turns appended, a
    failure before the appends, and a failure after them. *)
Example request_outcomes :
  (* the agent answers *)
  (exists envelope, snd (Scenario.request Scenario.fixed_agent) = Ok envelope
     /\ AgentService.response envelope = "AAPL is up 4%.")
  /\ ConversationRepository.get_conversation_messages "c1"
       (fst (Scenario.request Scenario.fixed_agent))
     = Ok [ConversationRepository.mkTurn "user" (PStr "hello") 10;
           ConversationRepository.mkTurn "user" (PStr "How is AAPL doing?") 22;
           ConversationRepository.mkTurn "assistant" (PStr "AAPL is up 4%.") 24]
  (* the agent fails *)
  /\ snd (Scenario.request Scenario.failing_agent)
     = Raise (AgentService.mkAgentException "Message processing failed: model overloaded")
  /\ ConversationRepository.get_conversation_messages "c1"
       (fst (Scenario.request Scenario.failing_agent))
     = Ok [ConversationRepository.mkTurn "user" (PStr "hello") 10]
  (* the envelope cannot be built *)
  /\ snd (Scenario.request Scenario.numeric_text_agent)
     = Raise (AgentService.mkAgentException
                "Message processing failed: response: Input should be a valid string")
  /\ ConversationRepository.get_conversation_messages "c1"
       (fst (Scenario.request Scenario.numeric_text_agent))
     = Ok [ConversationRepository.mkTurn "user" (PStr "hello") 10;
           ConversationRepository.mkTurn "user" (PStr "How is AAPL doing?") 22;
           ConversationRepository.mkTurn "assistant" (PNum 7) 24].
Proof. split; [eexists; split; reflexivity|]. repeat split. Qed.

(* ===================================================================== *)
(** * Further properties: the price fetcher *)
(* ===================================================================== *)

Lemma upper_ascii_idem (c : ascii) : upper_ascii (upper_ascii c) = upper_ascii c.
Proof. destruct c as [[] [] [] [] [] [] [] []]; reflexivity. Qed.

Lemma upper_idem (s : string) : upper (upper s) = upper s.
Proof.
  induction s as [|c s IH]; [reflexivity|].
  change (String (upper_ascii (upper_ascii c)) (upper (upper s))
          = String (upper_ascii c) (upper s)).
  now rewrite upper_ascii_idem, IH.
Qed.

Lemma upper_app (a b : string) : upper (a +:+ b) = upper a +:+ upper b.
Proof.
  induction a as [|c a IH]; [reflexivity|].
  change (String (upper_ascii c) (upper (a +:+ b))
          = String (upper_ascii c) (upper a +:+ upper b)).
  now rewrite IH.
Qed.

Lemma prefix_refl (s : string) : String.prefix s s = true.
Proof.
  induction s as [|c s IH]; [reflexivity|].
  simpl. destruct (ascii_dec c c); [exact IH | congruence].
Qed.

Lemma contains_app_r (sub s : string) : contains sub (s +:+ sub) = true.
Proof.
  induction s as [|c s IH].
  - destruct sub; simpl; [reflexivity|].
    destruct (ascii_dec a a); [|congruence]. now rewrite prefix_refl.
  - change (String.prefix sub (String c (s +:+ sub)) || contains sub (s +:+ sub) = true).
    rewrite IH. apply orb_true_r.
Qed.

(** X1. Resolving a symbol is idempotent, and the resolved symbol is in
    upper case: resolving the resolved form changes nothing, so a crypto
    ticker never receives the quote-currency suffix twice. *)
Theorem format_symbol_idempotent (symbol : string) :
  PriceTool.format_symbol (PriceTool.format_symbol symbol) = PriceTool.format_symbol symbol
  /\ upper (PriceTool.format_symbol symbol) = PriceTool.format_symbol symbol.
Proof.
  assert (Hup : upper (PriceTool.format_symbol symbol) = PriceTool.format_symbol symbol).
  { unfold PriceTool.format_symbol.
    destruct (existsb _ PriceTool.suffixes); cbn [negb]; [apply upper_idem|].
    destruct (in_list _ PriceTool.crypto_tickers); [|apply upper_idem].
    rewrite upper_app, upper_idem. reflexivity. }
  split; [|exact Hup].
  unfold PriceTool.format_symbol at 1. rewrite Hup.
  unfold PriceTool.format_symbol.
  destruct (existsb (fun ext => contains ext (upper symbol)) PriceTool.suffixes) eqn:Hs;
    cbn [negb].
  - rewrite Hs. reflexivity.
  - destruct (in_list (upper symbol) PriceTool.crypto_tickers) eqn:Hc.
    + assert (H : existsb (fun ext => contains ext (upper symbol +:+ "-USD"))
                    PriceTool.suffixes = true).
      { unfold PriceTool.suffixes. cbn [existsb]. rewrite contains_app_r. reflexivity. }
      rewrite H. reflexivity.
    + rewrite Hs. cbn [negb]. rewrite Hc. reflexivity.
Qed.

(** X2. A period that is not one of the six known tokens is treated
    exactly as "1month": the two calls give the same result. *)
Theorem unknown_period_is_one_month
    (fetch : string -> string -> string -> exc PriceTool.Quotes) (now : Z)
    (symbol period interval : string) :
  in_list period (map fst PriceTool.period_map) = false ->
  PriceTool.get_price_data_logged fetch now symbol period interval
  = PriceTool.get_price_data_logged fetch now symbol "1month" interval.
Proof.
  intros H. unfold in_list in H. cbn [map fst PriceTool.period_map existsb] in H.
  repeat (apply orb_false_iff in H; destruct H as [? H]).
  assert (Hp : PriceTool.assoc_get period PriceTool.period_map "1mo"
               = PriceTool.assoc_get "1month" PriceTool.period_map "1mo").
  { cbn [PriceTool.assoc_get PriceTool.period_map].
    repeat match goal with Hx : String.eqb period _ = false |- _ => rewrite Hx; clear Hx end.
    reflexivity. }
  unfold PriceTool.get_price_data_logged, PriceTool.get_price_data_try.
  rewrite Hp. reflexivity.
Qed.

Lemma unknown_period_is_one_month_witness :
  PriceTool.get_price_data_logged Scenario.monthly_only 0 "AAPL" "1 month" "1d"
  = PriceTool.get_price_data_logged Scenario.monthly_only 0 "AAPL" "1month" "1d"
  /\ PriceTool.get_price_data Scenario.monthly_only 0 "AAPL" "3months" "1d" = None.
Proof.
  split; [|reflexivity].
  apply (unknown_period_is_one_month Scenario.monthly_only 0 "AAPL" "1 month" "1d").
  reflexivity.
Defined.

Lemma Qltb_irrefl (x : Q) : Qltb x x = false.
Proof. apply Qltb_ge, Qle_refl. Qed.

Ltac volume_cases :=
  repeat split; intros;
  repeat match goal with H : _ /\ _ |- _ => destruct H end;
  try discriminate; try congruence; try tauto;
  try (cbn [length] in *; lia).

(** X3. The volume trend is "stable" exactly for fewer than five samples.
    From five samples on it is "unknown" when the last five are all null,
    and otherwise "increasing" or "decreasing"; it is "increasing" only if
    the five samples before the last five hold a non-null value and their
    mean is strictly below the mean of the last five, so a series of
    exactly five samples is never "increasing". *)
Theorem volume_trend_cases (volumes : list (option Q)) :
  let recent := not_none (slice volumes (Some (-5)) None) in
  let earlier := not_none (slice volumes (Some (-10)) (Some (-5))) in
  let trend := PriceTool.volume_trend_of volumes in
  (trend = "stable" <-> (length volumes < 5)%nat)
  /\ (trend = "unknown" <-> (5 <= length volumes)%nat /\ recent = [])
  /\ (trend = "increasing" <->
        (5 <= length volumes)%nat /\ recent <> [] /\ earlier <> []
        /\ (PriceTool.mean earlier < PriceTool.mean recent)%Q)
  /\ (trend = "stable" \/ trend = "unknown" \/ trend = "increasing" \/ trend = "decreasing")
  /\ (length volumes = 5%nat -> trend <> "increasing").
Proof.
  intros recent earlier trend.
  assert (Hfive : length volumes = 5%nat -> earlier = []).
  { intros H. subst earlier. unfold slice. rewrite H. reflexivity. }
  subst trend. unfold PriceTool.volume_trend_of. fold recent. fold earlier.
  assert (Hm : match volumes with [] => false | _ => true end
               && (5 <=? length volumes)%nat = (5 <=? length volumes)%nat).
  { destruct volumes; reflexivity. }
  rewrite Hm. clear Hm.
  destruct (Nat.leb_spec 5 (length volumes)) as [Hlen|Hlen]; [|volume_cases].
  destruct recent as [|r rs] eqn:Er; [volume_cases|].
  rewrite <- Er in *.
  assert (Hne : recent <> []) by (rewrite Er; discriminate).
  clear Er r rs.
  destruct earlier as [|e es] eqn:Ee.
  { rewrite Qltb_irrefl. volume_cases. }
  rewrite <- Ee in *.
  assert (Hee : earlier <> []) by (rewrite Ee; discriminate).
  clear Ee e es.
  destruct (Qltb (PriceTool.mean earlier) (PriceTool.mean recent)) eqn:Hlt.
  - apply Qltb_lt in Hlt. volume_cases.
  - apply Qltb_ge in Hlt. volume_cases; exfalso; eapply Qlt_not_le; eassumption.
Qed.

Lemma slice_suffix_all {A} (l : list A) (k : Z) :
  k < 0 -> Z.of_nat (length l) <= - k -> slice l (Some k) None = l.
Proof.
  intros Hk H. unfold slice, clamp_bound.
  destruct (Z.ltb_spec k 0); [|lia].
  rewrite Z.max_l by lia. rewrite Z.sub_0_r, Nat2Z.id. simpl. apply firstn_all.
Qed.

(** X4. With no non-null close there are no moving averages.  With between
    one and twenty non-null closes, MA_20 and MA_50 are the same number: the
    last of them (rounded) when there are fewer than five, and their mean
    (rounded) from five on. *)
Theorem moving_averages_short_series (prices : list (option Q)) :
  let valid := not_none prices in
  (valid = [] -> PriceTool._calculate_moving_averages prices = Ok [])
  /\ ((1 <= length valid <= 20)%nat ->
      exists m,
        PriceTool._calculate_moving_averages prices = Ok [("MA_20", m); ("MA_50", m)]
        /\ ((length valid < 5)%nat ->
              exists last, index valid (-1) = Ok last /\ m = round2 last)
        /\ ((5 <= length valid)%nat -> m = round2 (PriceTool.mean valid))).
Proof.
  intros valid. unfold PriceTool._calculate_moving_averages. fold valid.
  split; [intros ->; reflexivity|].
  intros [Hlo Hhi].
  destruct valid as [|p ps] eqn:Ev; [simpl in Hlo; lia|].
  rewrite <- Ev in *.
  rewrite (slice_suffix_all valid (-20)) by lia.
  rewrite (slice_suffix_all valid (-50)) by lia.
  rewrite (Nat.min_r 20 (length valid)) by lia.
  rewrite (Nat.min_r 50 (length valid)) by lia.
  destruct (Nat.leb_spec 5 (length valid)) as [H5|H5].
  - exc_step. exists (round2 (PriceTool.mean valid)).
    split; [|split; [lia | reflexivity]].
    destruct (10 <=? length valid)%nat; reflexivity.
  - destruct (index_in_range valid (-1)) as [x [Hx _]]; [lia|].
    rewrite Hx. exc_step.
    destruct (Nat.leb_spec 10 (length valid)); [lia|]. exc_step.
    exists (round2 x). split; [reflexivity|]. split; [|lia].
    intros _. exists x. split; reflexivity.
Qed.

Lemma moving_averages_short_series_witness :
  PriceTool._calculate_moving_averages [Some 10%Q; None; Some 20%Q; Some 31%Q]
  = Ok [("MA_20", 31%Q); ("MA_50", 31%Q)]
  /\ PriceTool._calculate_moving_averages
       [Some 1%Q; Some 2%Q; None; Some 3%Q; Some 4%Q; Some 6%Q]
     = Ok [("MA_20", (16 # 5)%Q); ("MA_50", (16 # 5)%Q)].
Proof.
  split.
  - destruct (proj2 (moving_averages_short_series [Some 10%Q; None; Some 20%Q; Some 31%Q]))
      as [m [H [Hlast _]]]; [simpl; lia|].
    destruct Hlast as [x [Hx ->]]; [simpl; lia|].
    rewrite H. vm_compute in Hx. injection Hx as <-. reflexivity.
  - destruct (proj2 (moving_averages_short_series
                       [Some 1%Q; Some 2%Q; None; Some 3%Q; Some 4%Q; Some 6%Q]))
      as [m [H [_ Hmean]]]; [simpl; lia|].
    rewrite H, Hmean by (simpl; lia). reflexivity.
Defined.

(** X5. The price range is "N/A" exactly when the highs or the lows hold no
    non-null value. *)
Theorem price_range_not_available (highs lows : list (option Q)) :
  PriceTool.price_range_of highs lows = "N/A"
  <-> not_none highs = [] \/ not_none lows = [].
Proof.
  unfold PriceTool.price_range_of.
  destruct (not_none highs) as [|h hs], (not_none lows) as [|l ls]; split; intros H;
    try reflexivity; try (left; reflexivity); try (right; reflexivity).
  - discriminate H.
  - destruct H; discriminate.
Qed.

(** X6. An empty closes series is not a failure: the fetch succeeding with
    no closes yields a record with current price 0, change 0, trend
    "neutral" and no moving averages, whatever the other series hold. *)
Theorem empty_closes_zero_record
    (fetch : string -> string -> string -> exc PriceTool.Quotes) (now : Z)
    (symbol period interval : string) (quotes : PriceTool.Quotes) :
  fetch (PriceTool.format_symbol symbol)
        (PriceTool.assoc_get period PriceTool.period_map "1mo") interval = Ok quotes ->
  PriceTool.close quotes = [] ->
  exists r,
    PriceTool.get_price_data fetch now symbol period interval = Some r
    /\ PriceTool.current_price r = 0%Q
    /\ PriceTool.price_change_percentage r = 0%Q
    /\ PriceTool.trend_direction r = "neutral"
    /\ PriceTool.moving_averages r = [].
Proof.
  intros Hfetch Hclose.
  destruct (support_resistance_total (PriceTool.low quotes) "support") as [support Hsup].
  destruct (support_resistance_total (PriceTool.high quotes) "resistance") as [resistance Hres].
  unfold PriceTool.get_price_data, PriceTool.get_price_data_logged,
    PriceTool.get_price_data_try.
  rewrite Hfetch. exc_step. rewrite Hclose.
  cbn [PriceTool.current_price_of PriceTool.start_price_of]. exc_step.
  cbn [PriceTool.price_change_pct Qeq_bool]. 
  change (PriceTool.price_change_pct (Some 0%Q) (Some 0%Q)) with (@Ok Q 0%Q). exc_step.
  change (PriceTool.recent_trend_of []) with (@Ok string "neutral"). exc_step.
  rewrite Hsup. exc_step. rewrite Hres. exc_step.
  change (PriceTool._calculate_moving_averages []) with (@Ok (list (string * Q)) []).
  exc_step. cbn [PriceTool.validate_float]. exc_step.
  eexists. split; [reflexivity|]. repeat split.
Qed.

Lemma empty_closes_zero_record_witness :
  exists r,
    PriceTool.get_price_data (Scenario.reply Scenario.rising_volume_quotes) 0
      "AAPL" "1month" "1d" = Some r
    /\ PriceTool.current_price r = 0%Q
    /\ PriceTool.volume_trend r = "increasing".
Proof.
  destruct (empty_closes_zero_record (Scenario.reply Scenario.rising_volume_quotes) 0
              "AAPL" "1month" "1d" Scenario.rising_volume_quotes eq_refl eq_refl)
    as [r [Hr [Hc _]]].
  exists r. split; [exact Hr|]. split; [exact Hc|].
  vm_compute in Hr. injection Hr as <-. reflexivity.
Defined.

Lemma bind_ok_inv {A B} (m : exc A) (f : A -> exc B) (b : B) :
  m ≫= f = Ok b -> exists a, m = Ok a /\ f a = Ok b.
Proof. destruct m as [a|e]; [eauto | discriminate]. Qed.

Lemma recent_trend_labels (closes : list (option Q)) (t : string) :
  PriceTool.recent_trend_of closes = Ok t -> In t ["bullish"; "bearish"; "neutral"].
Proof.
  unfold PriceTool.recent_trend_of.
  destruct (5 <=? length closes)%nat.
  - intros H.
    apply bind_ok_inv in H as [c1 [_ H]]. apply bind_ok_inv in H as [c5 [_ H]].
    apply bind_ok_inv in H as [up [_ H]].
    destruct up.
    + injection H as <-. simpl. tauto.
    + apply bind_ok_inv in H as [c1' [_ H]]. apply bind_ok_inv in H as [c5' [_ H]].
      apply bind_ok_inv in H as [down [_ H]].
      injection H as <-. destruct down; simpl; tauto.
  - intros H. injection H as <-. simpl. tauto.
Qed.

Lemma volume_trend_labels (volumes : list (option Q)) :
  In (PriceTool.volume_trend_of volumes) ["increasing"; "decreasing"; "stable"; "unknown"].
Proof.
  unfold PriceTool.volume_trend_of.
  destruct (_ && _); [|simpl; tauto].
  destruct (not_none (slice volumes (Some (-5)) None)); [simpl; tauto|].
  destruct (Qltb _ _); simpl; tauto.
Qed.

Lemma support_resistance_length (prices : list (option Q)) (level_type : string)
    (levels : list Q) :
  PriceTool._calculate_support_resistance prices level_type = Ok levels ->
  (length levels <= 2)%nat.
Proof.
  unfold PriceTool._calculate_support_resistance.
  destruct prices as [|p0 ps0]; [intros H; injection H as <-; simpl; lia|].
  destruct (not_none (p0 :: ps0)) as [|p ps]; [intros H; injection H as <-; simpl; lia|].
  intros H. apply bind_ok_inv in H as [sig [Hsig H]]. injection H as <-.
  rewrite length_map.
  destruct (String.eqb level_type "support"), (10 <? _).
  - apply bind_ok_inv in Hsig as [x [_ Hsig]]. injection Hsig as <-. simpl. lia.
  - injection Hsig as <-. simpl. lia.
  - apply bind_ok_inv in Hsig as [x [_ Hsig]]. injection Hsig as <-. simpl. lia.
  - injection Hsig as <-. simpl. lia.
Qed.

Lemma moving_averages_keys (prices : list (option Q)) (mas : list (string * Q)) :
  PriceTool._calculate_moving_averages prices = Ok mas ->
  mas = [] \/ map fst mas = ["MA_20"; "MA_50"].
Proof.
  unfold PriceTool._calculate_moving_averages.
  destruct (not_none prices); [intros H; injection H as <-; now left|].
  intros H. apply bind_ok_inv in H as [m20 [_ H]]. apply bind_ok_inv in H as [m50 [_ H]].
  injection H as <-. now right.
Qed.

(** What a returned record is made of. *)
Lemma get_price_data_some_inv
    (fetch : string -> string -> string -> exc PriceTool.Quotes) (now : Z)
    (symbol period interval : string) (r : PriceTool.PriceAnalysisResult) :
  PriceTool.get_price_data fetch now symbol period interval = Some r ->
  exists quotes,
    fetch (PriceTool.format_symbol symbol)
          (PriceTool.assoc_get period PriceTool.period_map "1mo") interval = Ok quotes
    /\ PriceTool.symbol r = symbol
    /\ PriceTool.recent_trend_of (PriceTool.close quotes) = Ok (PriceTool.trend_direction r)
    /\ PriceTool.volume_trend r = PriceTool.volume_trend_of (PriceTool.volume quotes)
    /\ PriceTool.price_range r
       = PriceTool.price_range_of (PriceTool.high quotes) (PriceTool.low quotes)
    /\ PriceTool._calculate_support_resistance (PriceTool.low quotes) "support"
       = Ok (PriceTool.support_levels r)
    /\ PriceTool._calculate_support_resistance (PriceTool.high quotes) "resistance"
       = Ok (PriceTool.resistance_levels r)
    /\ PriceTool._calculate_moving_averages (PriceTool.close quotes)
       = Ok (PriceTool.moving_averages r)
    /\ PriceTool.current_price_of (PriceTool.close quotes)
       = Ok (Some (PriceTool.current_price r))
    /\ PriceTool.rsi r = None
    /\ PriceTool.timestamp r = now.
Proof.
  unfold PriceTool.get_price_data, PriceTool.get_price_data_logged.
  destruct (PriceTool.get_price_data_try fetch now symbol period interval) as [r'|e] eqn:Htry;
    [|discriminate].
  intros H. injection H as ->.
  unfold PriceTool.get_price_data_try in Htry.
  apply bind_ok_inv in Htry as [quotes [Hq H]]. exists quotes. split; [exact Hq|].
  apply bind_ok_inv in H as [current [Hcur H]].
  apply bind_ok_inv in H as [start [_ H]].
  apply bind_ok_inv in H as [change [_ H]].
  apply bind_ok_inv in H as [trend [Htrend H]].
  apply bind_ok_inv in H as [support [Hsup H]].
  apply bind_ok_inv in H as [resistance [Hres H]].
  apply bind_ok_inv in H as [mas [Hmas H]].
  apply bind_ok_inv in H as [cp [Hcp H]].
  injection H as <-. cbn.
  destruct current as [c|]; [|discriminate]. injection Hcp as <-.
  repeat split; assumption.
Qed.

(** X7. Every record that [get_price_data] returns carries the symbol as it
    was given (not the resolved form), a trend among "bullish", "bearish"
    and "neutral", a volume trend among "increasing", "decreasing", "stable"
    and "unknown", at most two support and two resistance levels, either no
    moving average or exactly MA_20 and MA_50, and no RSI. *)
Theorem price_record_invariants
    (fetch : string -> string -> string -> exc PriceTool.Quotes) (now : Z)
    (symbol period interval : string) (r : PriceTool.PriceAnalysisResult) :
  PriceTool.get_price_data fetch now symbol period interval = Some r ->
  PriceTool.symbol r = symbol
  /\ In (PriceTool.trend_direction r) ["bullish"; "bearish"; "neutral"]
  /\ In (PriceTool.volume_trend r) ["increasing"; "decreasing"; "stable"; "unknown"]
  /\ (length (PriceTool.support_levels r) <= 2)%nat
  /\ (length (PriceTool.resistance_levels r) <= 2)%nat
  /\ (PriceTool.moving_averages r = []
      \/ map fst (PriceTool.moving_averages r) = ["MA_20"; "MA_50"])
  /\ PriceTool.rsi r = None.
Proof.
  intros H.
  destruct (get_price_data_some_inv _ _ _ _ _ _ H)
    as [quotes [_ [Hs [Ht [Hv [_ [Hsup [Hres [Hmas [_ [Hrsi _]]]]]]]]]]].
  split; [exact Hs|].
  split; [exact (recent_trend_labels _ _ Ht)|].
  split; [rewrite Hv; apply volume_trend_labels|].
  split; [exact (support_resistance_length _ _ _ Hsup)|].
  split; [exact (support_resistance_length _ _ _ Hres)|].
  split; [exact (moving_averages_keys _ _ Hmas) | exact Hrsi].
Qed.

Lemma price_record_invariants_witness :
  exists r,
    PriceTool.get_price_data (Scenario.reply Scenario.flat_quotes) 0 "btc" "1month" "1d"
    = Some r
    /\ PriceTool.symbol r = "btc"
    /\ (length (PriceTool.support_levels r) <= 2)%nat.
Proof.
  destruct (PriceTool.get_price_data (Scenario.reply Scenario.flat_quotes) 0
              "btc" "1month" "1d") as [r|] eqn:E; [|vm_compute in E; discriminate].
  exists r. split; [reflexivity|].
  destruct (price_record_invariants _ _ _ _ _ _ E) as [Hs [_ [_ [Hl _]]]].
  split; assumption.
Defined.

Lemma Qfloor_frac (x : Q) :
  (0 <= x - inject_Z (Qfloor x))%Q /\ (x - inject_Z (Qfloor x) < 1)%Q.
Proof.
  pose proof (Qfloor_le x) as H1. pose proof (Qlt_floor x) as H2.
  rewrite inject_Z_plus in H2. change (inject_Z 1) with 1%Q in H2.
  split; lra.
Qed.

Lemma round_half_even_near (x : Q) :
  round_half_even x = Qfloor x \/ round_half_even x = Qfloor x + 1.
Proof.
  unfold round_half_even.
  destruct (Qltb _ _); [now left|].
  destruct (Qltb _ _); [now right|].
  destruct (Z.even _); [now left | now right].
Qed.

Lemma round_half_even_mono (x y : Q) :
  (x <= y)%Q -> round_half_even x <= round_half_even y.
Proof.
  intros Hxy.
  pose proof (Qfloor_resp_le _ _ Hxy) as Hf.
  destruct (Z.eq_dec (Qfloor x) (Qfloor y)) as [Heq|Hne].
  - unfold round_half_even. rewrite <- Heq.
    set (f := Qfloor x).
    destruct (Qltb (x - inject_Z f) (1 # 2)) eqn:Hx1.
    { destruct (Qltb (y - inject_Z f) (1 # 2)); [lia|].
      destruct (Qltb (1 # 2) (y - inject_Z f)); [lia|].
      destruct (Z.even f); lia. }
    apply Qltb_ge in Hx1.
    assert (Hy1 : Qltb (y - inject_Z f) (1 # 2) = false).
    { apply Qltb_ge. lra. }
    rewrite Hy1.
    destruct (Qltb (1 # 2) (x - inject_Z f)) eqn:Hx2.
    { apply Qltb_lt in Hx2.
      assert (Hy2 : Qltb (1 # 2) (y - inject_Z f) = true) by (apply Qltb_lt; lra).
      rewrite Hy2. lia. }
    destruct (Qltb (1 # 2) (y - inject_Z f)); [destruct (Z.even f); lia|].
    destruct (Z.even f); lia.
  - destruct (round_half_even_near x) as [-> | ->], (round_half_even_near y) as [-> | ->];
      lia.
Qed.

Lemma round2_mono (x y : Q) : (x <= y)%Q -> (round2 x <= round2 y)%Q.
Proof.
  intros Hxy. unfold round2. rewrite !Qred_correct.
  assert (H : round_half_even (x * 100) <= round_half_even (y * 100)).
  { apply round_half_even_mono. lra. }
  apply Qmult_le_compat_r; [|discriminate].
  rewrite <- Zle_Qle. exact H.
Qed.

Lemma index_In {A} (l : list A) (k : Z) (x : A) : index l k = Ok x -> In x l.
Proof.
  unfold index. destruct (_ || _); [discriminate|].
  destruct (nth_error l _) eqn:E; [|discriminate].
  intros H. injection H as <-. eapply nth_error_In. exact E.
Qed.

(** X8. When two levels are returned they are ordered: the second support
    level is never below the first, and the second resistance level is
    never above the first. *)
Theorem support_resistance_ordered (prices : list (option Q)) (level_type : string)
    (first second : Q) :
  PriceTool._calculate_support_resistance prices level_type = Ok [first; second] ->
  if String.eqb level_type "support" then (first <= second)%Q else (second <= first)%Q.
Proof.
  unfold PriceTool._calculate_support_resistance.
  destruct prices as [|p0 ps0]; [discriminate|].
  destruct (not_none (p0 :: ps0)) as [|p ps] eqn:Ev; [discriminate|].
  intros H. apply bind_ok_inv in H as [sig [Hsig H]].
  destruct (min_from_spec ps p) as [_ Hmin]. destruct (max_from_spec ps p) as [_ Hmax].
  rewrite List.Forall_forall in Hmin, Hmax.
  destruct (String.eqb level_type "support"), (10 <? _).
  - apply bind_ok_inv in Hsig as [x [Hx Hsig]]. injection Hsig as <-.
    injection H as <- <-. apply round2_mono, Hmin.
    apply index_In in Hx. eapply Permutation_in; [symmetry; apply sorted_perm | exact Hx].
  - injection Hsig as <-. discriminate.
  - apply bind_ok_inv in Hsig as [x [Hx Hsig]]. injection Hsig as <-.
    injection H as <- <-. apply round2_mono, Hmax.
    apply index_In in Hx. eapply Permutation_in; [symmetry; apply sorted_perm | exact Hx].
  - injection Hsig as <-. discriminate.
Qed.

Lemma support_resistance_ordered_witness :
  PriceTool._calculate_support_resistance Scenario.shuffled_prices "support"
  = Ok [1%Q; 2%Q]
  /\ (1 <= 2)%Q
  /\ PriceTool._calculate_support_resistance Scenario.shuffled_prices "resistance"
     = Ok [12%Q; 11%Q]
  /\ (11 <= 12)%Q.
Proof.
  split; [reflexivity|].
  split; [exact (support_resistance_ordered Scenario.shuffled_prices "support"
                   1%Q 2%Q eq_refl)|].
  split; [reflexivity|].
  exact (support_resistance_ordered Scenario.shuffled_prices "resistance"
           12%Q 11%Q eq_refl).
Defined.

(* ===================================================================== *)
(** * Further properties: the news fetcher *)
(* ===================================================================== *)

Lemma lower_upper (s : string) : lower (upper s) = lower s.
Proof.
  induction s as [|c s IH]; [reflexivity|].
  cbn [upper lower]. rewrite IH. f_equal.
  destruct c as [[] [] [] [] [] [] [] []]; reflexivity.
Qed.

Lemma analyze_sentiment_labels (text : string) :
  In (NewsTool._analyze_sentiment text) ["positive"; "negative"; "neutral"].
Proof.
  unfold NewsTool._analyze_sentiment.
  destruct (_ <? _)%nat; [simpl; tauto|].
  destruct (_ <? _)%nat; simpl; tauto.
Qed.

(** X9. The keyword classifier ignores letter case, and always answers
    "positive", "negative" or "neutral". *)
Theorem analyze_sentiment_case_insensitive (text : string) :
  NewsTool._analyze_sentiment (upper text) = NewsTool._analyze_sentiment text
  /\ In (NewsTool._analyze_sentiment text) ["positive"; "negative"; "neutral"].
Proof.
  split.
  - unfold NewsTool._analyze_sentiment. rewrite lower_upper. reflexivity.
  - apply analyze_sentiment_labels.
Qed.

Lemma themes_of_title_names (t x : string) :
  In x (NewsTool.themes_of_title t) -> In x Stated.theme_names.
Proof.
  unfold NewsTool.themes_of_title, Stated.theme_names.
  repeat match goal with |- context [if ?b then _ else _] => destruct b end;
    simpl; tauto.
Qed.

(** X10. Provided the iteration of a set yields each of its members once,
    the key themes are exactly the themes found in some article title: none
    is repeated, none is lost by the cap of five, and each is one of the
    five bucket names. *)
Theorem key_themes_are_the_distinct_themes
    (set_order : list string -> list string) (articles : list NewsTool.NewsArticle) :
  (forall l, List.NoDup (set_order l) /\ forall x, In x (set_order l) <-> In x l) ->
  let themes := NewsTool._extract_key_themes set_order articles in
  List.NoDup themes
  /\ (forall x, In x themes <->
        exists a, In a articles /\ In x (NewsTool.themes_of_title (NewsTool.title a)))
  /\ incl themes Stated.theme_names
  /\ (length themes <= 5)%nat.
Proof.
  intros Hset themes. subst themes. unfold NewsTool._extract_key_themes.
  set (found := flat_map (fun a => NewsTool.themes_of_title (NewsTool.title a)) articles).
  destruct (Hset found) as [Hnd Hin].
  assert (Hincl : incl (set_order found) Stated.theme_names).
  { intros x Hx. apply Hin in Hx. subst found. apply in_flat_map in Hx as [a [_ Hx]].
    exact (themes_of_title_names _ _ Hx). }
  assert (Hlen : (length (set_order found) <= 5)%nat).
  { exact (NoDup_incl_length Hnd Hincl). }
  rewrite (slice_prefix_short (set_order found) 5) by lia.
  split; [exact Hnd|]. split; [|split; assumption].
  intros x. rewrite Hin. subst found. apply in_flat_map.
Qed.

Lemma key_themes_are_the_distinct_themes_witness :
  let themes :=
    NewsTool._extract_key_themes Scenario.members_once Scenario.themed_articles in
  themes = ["Market Activity"; "Financial Performance"; "Product Development"]
  /\ List.NoDup themes
  /\ (forall x, In x themes <->
        exists a, In a Scenario.themed_articles
                  /\ In x (NewsTool.themes_of_title (NewsTool.title a)))
  /\ incl themes Stated.theme_names
  /\ (length themes <= 5)%nat.
Proof.
  split; [vm_compute; reflexivity|].
  apply (key_themes_are_the_distinct_themes Scenario.members_once
           Scenario.themed_articles).
  intros l. split.
  - apply NoDup_nodup.
  - intros x. apply nodup_In.
Defined.

Lemma slice_Forall {A} (P : A -> Prop) (l : list A) (lo hi : option Z) :
  Forall P l -> Forall P (slice l lo hi).
Proof. intros H. unfold slice. apply Forall_take, Forall_drop, H. Qed.

Lemma slice_prefix_length {A} (l : list A) (k : Z) :
  0 <= k -> Z.of_nat (length (slice l None (Some k))) <= k.
Proof.
  intros H. unfold slice, clamp_bound.
  destruct (Z.ltb_spec k 0); [lia|].
  pose proof (firstn_le_length (Z.to_nat (Z.min (Z.of_nat (length l)) k - 0))
                (skipn (Z.to_nat 0) l)).
  lia.
Qed.

Lemma fear_greed_index_range (articles : list NewsTool.NewsArticle) :
  0 <= NewsTool._calculate_fear_greed_index articles <= 100.
Proof.
  unfold NewsTool._calculate_fear_greed_index.
  destruct articles; [lia|].
  destruct (_ =? _)%nat; lia.
Qed.

Lemma overall_sentiment_labels (articles : list NewsTool.NewsArticle) :
  In (NewsTool._calculate_overall_sentiment articles) ["positive"; "negative"; "neutral"].
Proof.
  unfold NewsTool._calculate_overall_sentiment.
  destruct articles; [simpl; tauto|].
  destruct (_ <? _)%nat; [simpl; tauto|].
  destruct (_ <? _)%nat; simpl; tauto.
Qed.

Lemma mock_table_labelled (k : string) :
  Forall (fun '(_, _, s) => In s ["positive"; "negative"; "neutral"])
         (NewsTool.mock_get k NewsTool.mock_news NewsTool.generic_news).
Proof.
  unfold NewsTool.mock_news, NewsTool.generic_news. cbn [NewsTool.mock_get].
  repeat match goal with |- context [if ?b then _ else _] => destruct b end;
    repeat constructor; simpl; tauto.
Qed.

Lemma mock_articles_labelled (days_ago_iso : nat -> string)
    (items : list NewsTool.mock_item) (i : nat) :
  Forall (fun '(_, _, s) => In s ["positive"; "negative"; "neutral"]) items ->
  Forall Stated.labelled
    (map (fun '(i, (t, src, sent)) =>
            {| NewsTool.title := t; NewsTool.source := src;
               NewsTool.published_at := days_ago_iso i;
               NewsTool.description := None; NewsTool.url := None;
               NewsTool.sentiment := Some sent |})
         (NewsTool.enumerate_from i items)).
Proof.
  intros H. revert i. induction H as [|[[t src] sent] items Hx _ IH]; intros i; simpl.
  - constructor.
  - constructor; [|apply IH]. exists sent. split; [reflexivity | exact Hx].
Qed.

Lemma enumerate_from_length {A} (i : nat) (l : list A) :
  length (NewsTool.enumerate_from i l) = length l.
Proof. revert i. induction l; intros i; simpl; [reflexivity | f_equal; apply IHl]. Qed.

Lemma article_of_labelled (x : pyval) (a : NewsTool.NewsArticle) :
  NewsTool.article_of x = Ok a -> Stated.labelled a.
Proof.
  unfold NewsTool.article_of. intros H.
  repeat (apply bind_ok_inv in H as [? [_ H]]).
  injection H as <-. eexists. split; [reflexivity|].
  apply analyze_sentiment_labels.
Qed.

Lemma articles_of_labelled (l : list pyval) (arts : list NewsTool.NewsArticle) :
  NewsTool.articles_of l = Ok arts ->
  Forall Stated.labelled arts /\ length arts = length l.
Proof.
  revert arts. induction l as [|x l IH]; intros arts H; simpl in H.
  - injection H as <-. split; [constructor | reflexivity].
  - apply bind_ok_inv in H as [a [Ha H]]. apply bind_ok_inv in H as [rest [Hrest H]].
    injection H as <-. destruct (IH _ Hrest) as [Hl Hn].
    split; [constructor; [exact (article_of_labelled _ _ Ha) | exact Hl] | simpl; lia].
Qed.

Section NewsResult.
Variable set_order : list string -> list string.
Variable days_ago_iso : nat -> string.
Variable now : Z.
Variable news_api_key : option string.
Variable http_get : string -> Z -> exc pyval.

Lemma analyse_sound (symbol : string) (max_results : Z)
    (articles : list NewsTool.NewsArticle) :
  Forall Stated.labelled articles ->
  (0 <= max_results -> Z.of_nat (length articles) <= max_results) ->
  Stated.sound_result now symbol max_results (NewsTool.analyse set_order now symbol articles).
Proof.
  intros Hl Hn. unfold Stated.sound_result, NewsTool.analyse; cbn.
  repeat split; try assumption; try reflexivity.
  - apply overall_sentiment_labels.
  - apply fear_greed_index_range.
  - apply fear_greed_index_range.
Qed.

Lemma mock_news_sound (symbol : string) (query : option string) (max_results : Z) :
  Stated.sound_result now symbol max_results
    (NewsTool._get_mock_news set_order days_ago_iso now symbol query max_results).
Proof.
  unfold NewsTool._get_mock_news. apply analyse_sound.
  - apply mock_articles_labelled, slice_Forall, mock_table_labelled.
  - intros H. rewrite length_map, enumerate_from_length.
    apply slice_prefix_length, H.
Qed.

Lemma real_news_sound (symbol : string) (query : option string) (max_results : Z)
    (r : NewsTool.NewsAnalysisResult) :
  NewsTool._get_real_news set_order now http_get symbol query max_results = Ok r ->
  Stated.sound_result now symbol max_results r.
Proof.
  unfold NewsTool._get_real_news. intros H.
  apply bind_ok_inv in H as [data [_ H]]. apply bind_ok_inv in H as [listed [_ H]].
  destruct listed as [| | |s|l|]; try discriminate.
  - destruct (slice _ _ _); [|discriminate]. injection H as <-.
    apply analyse_sound; [constructor | simpl; lia].
  - apply bind_ok_inv in H as [arts [Harts H]]. injection H as <-.
    apply articles_of_labelled in Harts as [Hl Hn].
    apply analyse_sound; [exact Hl|].
    intros Hm. rewrite Hn. apply slice_prefix_length, Hm.
Qed.

End NewsResult.

Lemma mock_or_real_sound
    (set_order : list string -> list string) (days_ago_iso : nat -> string) (now : Z)
    (news_api_key : option string) (http_get : string -> Z -> exc pyval)
    (symbol : string) (query : option string) (max_results : Z) :
  Stated.sound_result now symbol max_results
    (NewsTool.get_financial_news set_order days_ago_iso now news_api_key http_get
       symbol query max_results).
Proof.
  unfold NewsTool.get_financial_news.
  destruct (NewsTool.truthy_str news_api_key).
  - destruct (NewsTool._get_real_news _ _ _ _ _ _) as [r|e] eqn:E; cbn [try_except].
    + exact (real_news_sound _ _ _ _ _ _ _ E).
    + apply mock_news_sound.
  - cbn [try_except]. apply mock_news_sound.
Qed.

(** X11. Whatever the news API answers, and whether or not a key is set, the
    result of [get_financial_news] is for the symbol asked, every article
    carries one of the three sentiment labels, the overall sentiment is the
    vote over these articles and one of the three labels, the index lies
    between 0 and 100, and a non-negative [max_results] bounds the number of
    articles. *)
Theorem news_result_invariants
    (set_order : list string -> list string) (days_ago_iso : nat -> string) (now : Z)
    (news_api_key : option string) (http_get : string -> Z -> exc pyval)
    (symbol : string) (query : option string) (max_results : Z) :
  let r := NewsTool.get_financial_news set_order days_ago_iso now news_api_key http_get
             symbol query max_results in
  NewsTool.symbol r = symbol
  /\ Forall Stated.labelled (NewsTool.articles r)
  /\ (0 <= max_results -> Z.of_nat (length (NewsTool.articles r)) <= max_results)
  /\ NewsTool.overall_sentiment r = NewsTool._calculate_overall_sentiment (NewsTool.articles r)
  /\ In (NewsTool.overall_sentiment r) ["positive"; "negative"; "neutral"]
  /\ 0 <= NewsTool.fear_greed_index r <= 100
  /\ NewsTool.timestamp r = now.
Proof.
  intros r. subst r.
  exact (mock_or_real_sound set_order days_ago_iso now news_api_key http_get
           symbol query max_results).
Qed.

Lemma count_le_length (x : string) (l : list string) :
  (NewsTool.count x l <= length l)%nat.
Proof. unfold NewsTool.count. apply filter_length_le. Qed.

Lemma count_all_excludes (x y : string) (l : list string) :
  x <> y -> NewsTool.count x l = length l -> NewsTool.count y l = 0%nat.
Proof.
  intros Hxy. unfold NewsTool.count. induction l as [|z l IH]; [reflexivity|].
  simpl. destruct (String.eqb_spec x z) as [->|Hz]; simpl.
  - intros H. destruct (String.eqb_spec y z) as [->|_]; [congruence|].
    apply IH. lia.
  - intros H. pose proof (List.filter_length_le (String.eqb x) l). lia.
Qed.

(** X12. When some article carries a sentiment, the index is 0 as soon as
    none of the sentiments is "positive" (also when all are neutral), and
    100 when all of them are. *)
Theorem fear_greed_extremes (articles : list NewsTool.NewsArticle) :
  let kept := NewsTool.sentiments_of articles in
  kept <> [] ->
  (NewsTool.count "positive" kept = 0%nat ->
   NewsTool._calculate_fear_greed_index articles = 0)
  /\ (NewsTool.count "positive" kept = length kept ->
      NewsTool._calculate_fear_greed_index articles = 100).
Proof.
  intros kept Hkept.
  assert (Hlen : (0 < length kept)%nat) by (destruct kept; [congruence | simpl; lia]).
  assert (Hart : articles <> []) by (intros ->; apply Hkept; reflexivity).
  destruct (overall_sentiment_majority articles) as [Hpos [Hneg Htie]].
  fold kept in Hpos, Hneg, Htie.
  unfold NewsTool._calculate_fear_greed_index.
  destruct articles as [|a rest]; [congruence|]. fold kept.
  destruct (Nat.eqb_spec (length kept) 0); [lia|].
  set (total := NewsTool.Q_of_nat (length kept)).
  assert (Htotal : ~ (total == 0)%Q).
  { unfold total, NewsTool.Q_of_nat, Qeq. simpl. lia. }
  split; intros Hp; rewrite Hp.
  - assert (Hadj : NewsTool._calculate_overall_sentiment (a :: rest) = "negative"
                   \/ NewsTool._calculate_overall_sentiment (a :: rest) = "neutral").
    { destruct (Nat.eq_dec (NewsTool.count "negative" kept) 0%nat) as [E|E].
      - right. apply Htie. lia.
      - left. apply Hneg. lia. }
    destruct Hadj as [-> | ->].
    + rewrite (int_Qeq _ (-10)%Q); [reflexivity|].
      cbn [NewsTool.adjustment_get NewsTool.adjustments String.eqb Ascii.eqb Bool.eqb].
      unfold NewsTool.Q_of_nat. simpl inject_Z. field. exact Htotal.
    + rewrite (int_Qeq _ 0%Q); [reflexivity|].
      cbn [NewsTool.adjustment_get NewsTool.adjustments String.eqb Ascii.eqb Bool.eqb].
      unfold NewsTool.Q_of_nat. simpl inject_Z. field. exact Htotal.
  - rewrite Hpos.
    + rewrite (int_Qeq _ 110%Q); [reflexivity|].
      cbn [NewsTool.adjustment_get NewsTool.adjustments String.eqb Ascii.eqb Bool.eqb].
      fold total. field. exact Htotal.
    + rewrite (count_all_excludes "positive" "negative" kept); [lia | discriminate | exact Hp].
Qed.

Lemma fear_greed_extremes_witness :
  NewsTool.sentiments_of Scenario.themed_articles = ["neutral"; "neutral"; "neutral"]
  /\ (NewsTool.count "positive" (NewsTool.sentiments_of Scenario.themed_articles) = 0%nat ->
      NewsTool._calculate_fear_greed_index Scenario.themed_articles = 0)
  /\ (NewsTool.count "positive" (NewsTool.sentiments_of Scenario.themed_articles)
      = length (NewsTool.sentiments_of Scenario.themed_articles) ->
      NewsTool._calculate_fear_greed_index Scenario.themed_articles = 100).
Proof.
  split; [reflexivity|].
  apply (fear_greed_extremes Scenario.themed_articles).
  vm_compute. discriminate.
Defined.

(* ===================================================================== *)
(** * Further properties: the agent tools *)
(* ===================================================================== *)

Lemma labelled_sentiments (arts : list NewsTool.NewsArticle) :
  Forall Stated.labelled arts ->
  length (NewsTool.sentiments_of arts) = length arts
  /\ length (List.filter (fun a => bool_decide (NewsTool.sentiment a = Some "negative")) arts)
     = NewsTool.count "negative" (NewsTool.sentiments_of arts).
Proof.
  unfold NewsTool.count.
  induction 1 as [|a arts [s [Hs Hin]] _ [IH1 IH2]]; [split; reflexivity|].
  cbn [NewsTool.sentiments_of List.filter]. rewrite Hs.
  assert (Hne : negb (String.eqb s "") = true).
  { simpl in Hin. destruct Hin as [<-|[<-|[<-|[]]]]; reflexivity. }
  rewrite Hne.
  split; [simpl; f_equal; exact IH1|].
  cbn [List.filter].
  destruct (String.eqb_spec "negative" s) as [<-|Hs'].
  - rewrite bool_decide_eq_true_2 by reflexivity. simpl. f_equal. exact IH2.
  - rewrite bool_decide_eq_false_2 by congruence. exact IH2.
Qed.

(** X13. In the answer of [get_news_sentiment] over the news tool as it is
    wired, the headlines and the article sentiments are parallel lists of
    the same length, there is one risk factor for each "negative" sentiment,
    and a non-negative [max_results] bounds the number of headlines. *)
Theorem news_sentiment_lists_are_parallel
    (set_order : list string -> list string) (days_ago_iso : nat -> string) (now : Z)
    (news_api_key : option string) (http_get : string -> Z -> exc pyval)
    (symbol : string) (max_results : Z) :
  let answer :=
    AgentTool.get_news_sentiment
      (AgentTool.wired_news_call now set_order days_ago_iso news_api_key http_get)
      symbol max_results in
  exists headlines sentiments risks,
    dict_lookup "top_headlines" answer = PList headlines
    /\ dict_lookup "article_sentiments" answer = PList (map PStr sentiments)
    /\ dict_lookup "risk_factors" answer = PList risks
    /\ length headlines = length sentiments
    /\ length risks = NewsTool.count "negative" sentiments
    /\ (0 <= max_results -> Z.of_nat (length headlines) <= max_results)
    /\ dict_lookup "error" answer = PNone.
Proof.
  intros answer. subst answer.
  unfold AgentTool.get_news_sentiment, AgentTool._get_news_sentiment_impl,
    AgentTool.wired_news_call.
  cbn [mbind exc_bind try_except].
  set (r := NewsTool.get_financial_news _ _ _ _ _ _ _ _).
  destruct (mock_or_real_sound set_order days_ago_iso now news_api_key http_get
              symbol None max_results) as [_ [Hl [Hn _]]].
  fold r in Hl, Hn.
  destruct (labelled_sentiments _ Hl) as [H1 H2].
  eexists _, (NewsTool.sentiments_of (NewsTool.articles r)), _.
  unfold AgentTool.news_response.
  split; [reflexivity|]. split; [reflexivity|]. split; [reflexivity|].
  split; [rewrite length_map; symmetry; exact H1|].
  split; [rewrite length_map; exact H2|].
  split; [rewrite length_map; exact Hn | reflexivity].
Qed.

Lemma insights_try_well_typed (py_str : pyval -> string) (price_data news_data : pydict) :
  Stated.well_typed price_data news_data = true ->
  snd (AgentTool.insights_try py_str price_data news_data []) = Ok tt
  /\ AgentTool._generate_combined_insights py_str price_data news_data
     = Stated.insights_guarded py_str price_data news_data.
Proof.
  unfold Stated.well_typed. intros Hwt.
  apply andb_true_iff in Hwt as [Hwt Hh]. apply andb_true_iff in Hwt as [Hcp Hfg].
  unfold AgentTool._generate_combined_insights, AgentTool.insights_try,
    Stated.insights_guarded, Stated.trend_rule, Stated.volume_rule,
    Stated.fear_greed_rule, Stated.headlines_rule.
  rewrite (gt_num_typed _ 0 Hcp), (gt_num_typed _ 70 Hfg), (lt_num_typed _ 30 Hfg).
  set (cp := Stated.num_gt (dict_get "current_price" price_data (PNum 0)) 0).
  set (greedy := Stated.num_gt (dict_get "fear_greed_index" news_data (PNum 50)) 70).
  set (fearful := Stated.num_lt (dict_get "fear_greed_index" news_data (PNum 50)) 30).
  set (bull := eq_str (dict_get "trend_direction" price_data (PStr "unknown")) "bullish").
  set (bear := eq_str (dict_get "trend_direction" price_data (PStr "unknown")) "bearish").
  set (vol := eq_str (dict_lookup "volume_trend" price_data) "increasing").
  set (pos := eq_str (dict_get "overall_sentiment" news_data (PStr "neutral")) "positive").
  set (neg := eq_str (dict_get "overall_sentiment" news_data (PStr "neutral")) "negative").
  destruct (truthy (dict_get "top_headlines" news_data (PList []))) eqn:Ht.
  - cbn [negb] in Hh. rewrite orb_false_r in Hh. rewrite (py_len_typed _ Hh).
    destruct cp, bull, bear, vol, pos, neg, greedy, fearful; split; reflexivity.
  - destruct cp, bull, bear, vol, pos, neg, greedy, fearful; split; reflexivity.
Qed.

Ltac not_limited :=
  repeat match goal with |- context [if ?b then _ else _] => destruct b end;
  repeat constructor; intros E; vm_compute in E; discriminate E.

Lemma guarded_not_limited (py_str : pyval -> string) (price_data news_data : pydict) :
  ~ In AgentTool.limited_insight (Stated.insights_guarded py_str price_data news_data).
Proof.
  assert (H : Forall (fun s => s <> AgentTool.limited_insight)
                (Stated.insights_guarded py_str price_data news_data)).
  { unfold Stated.insights_guarded, Stated.or_generic.
    match goal with |- context [match ?l with [] => _ | _ :: _ => _ end] =>
      assert (Hl : Forall (fun s => s <> AgentTool.limited_insight) l); [|destruct l]
    end.
    + repeat (apply Forall_app; split);
        unfold Stated.trend_rule, Stated.volume_rule, Stated.fear_greed_rule,
          Stated.headlines_rule; not_limited.
    + repeat constructor. discriminate.
    + apply Forall_take, Hl. }
  intros Hin. rewrite List.Forall_forall in H. exact (H _ Hin eq_refl).
Qed.

Lemma tool_outputs_well_typed
    (price_call : string -> string -> exc (option PriceTool.PriceAnalysisResult))
    (news_call : string -> Z -> exc NewsTool.NewsAnalysisResult)
    (symbol period : string) (max_results : Z) :
  Stated.well_typed (AgentTool.get_price_analysis price_call symbol period)
                    (AgentTool.get_news_sentiment news_call symbol max_results) = true.
Proof.
  unfold AgentTool.get_price_analysis, AgentTool._get_price_analysis_impl,
    AgentTool.get_news_sentiment, AgentTool._get_news_sentiment_impl.
  destruct (price_call symbol period) as [[r|]|e];
    destruct (news_call symbol max_results) as [n|e']; reflexivity.
Qed.

(** X14. Fed with the answers of the two tools, whatever the fetchers did,
    the insight generator never raises: the insights are the guarded rules,
    and the "limited insights" phrase is not among them. *)
Theorem tool_answers_never_limit_insights
    (price_call : string -> string -> exc (option PriceTool.PriceAnalysisResult))
    (news_call : string -> Z -> exc NewsTool.NewsAnalysisResult)
    (py_str : pyval -> string) (symbol period : string) (max_results : Z) :
  let price_data := AgentTool.get_price_analysis price_call symbol period in
  let news_data := AgentTool.get_news_sentiment news_call symbol max_results in
  snd (AgentTool.insights_try py_str price_data news_data []) = Ok tt
  /\ AgentTool._generate_combined_insights py_str price_data news_data
     = Stated.insights_guarded py_str price_data news_data
  /\ ~ In AgentTool.limited_insight
         (AgentTool._generate_combined_insights py_str price_data news_data)
  /\ dict_lookup "key_insights"
       (AgentTool.get_comprehensive_analysis price_call news_call py_str symbol period)
     = PList (map PStr (Stated.insights_guarded py_str
                          price_data (AgentTool.get_news_sentiment news_call symbol 5))).
Proof.
  intros price_data news_data.
  destruct (insights_try_well_typed py_str price_data news_data
              (tool_outputs_well_typed price_call news_call symbol period max_results))
    as [Hok Heq].
  split; [exact Hok|]. split; [exact Heq|].
  split; [rewrite Heq; apply guarded_not_limited|].
  unfold AgentTool.get_comprehensive_analysis. cbn [try_except].
  unfold AgentTool.comprehensive_response.
  change (dict_lookup "key_insights" _) with
    (PList (map PStr (AgentTool._generate_combined_insights py_str
       (AgentTool._get_price_analysis_impl price_call symbol period)
       (AgentTool._get_news_sentiment_impl news_call symbol 5)))).
  f_equal. f_equal.
  exact (proj2 (insights_try_well_typed py_str _ _
           (tool_outputs_well_typed price_call news_call symbol period 5))).
Qed.

(* ===================================================================== *)
(** * Further properties: the service *)
(* ===================================================================== *)

Section Requests.
Variable py_str : pyval -> string.
Variable dict_repr : pydict -> string.
Variable agents : AgentService.AgentType -> option AgentService.Agent.
Variable enum_str : AgentService.AgentType -> string.

(** The request, step by step, once the conversation is resolved. *)
Lemma process_message_try_steps
    (env : AgentService.Env) (message : string) (agent_type : AgentService.AgentType)
    (conversation_id : option string) (context : option pydict)
    (s : gmap string ConversationRepository.ConversationHistory) :
  let id := Stated.resolved_id env conversation_id in
  let s1 := Stated.resolved_store env conversation_id s in
  AgentService.process_message_try py_str dict_repr agents enum_str env message agent_type
    conversation_id context s
  = match agents agent_type with
    | None =>
        (s1, Raise (AgentService.mkAgentException
                      ("Agent type " +:+ enum_str agent_type +:+ " not available")))
    | Some agent =>
        match s1 !! id with
        | None => (s1, Raise (Exn ValueError ("Conversation " +:+ id +:+ " not found")))
        | Some conv =>
            match AgentService._run_agent_with_tools agent
                    (AgentService._enhance_message_with_context py_str dict_repr message
                       (ConversationRepository.messages conv) (default [] context) id) with
            | Raise e => (s1, Raise e)
            | Ok result =>
                let response_text := AgentService._extract_response_text result in
                let s2 := <[id := Stated.appended conv env message response_text]> s1 in
                match AgentService.validate_response response_text with
                | Raise e => (s2, Raise e)
                | Ok response_str =>
                    (s2, Ok {| AgentService.response := response_str;
                               AgentService.chat_conversation_id := id;
                               AgentService.agent_type := agent_type;
                               AgentService.chat_timestamp := AgentService.t_response env;
                               AgentService.meta_processing_time :=
                                 AgentService.get_processing_time result;
                               AgentService.meta_tool_used :=
                                 AgentService._check_if_tools_used result |})
                end
            end
        end
    end.
Proof.
  intros id s1.
  assert (Hafter : forall (id : string) (s1 : gmap string ConversationRepository.ConversationHistory),
    (agent ← lift (AgentService._get_agent agents enum_str agent_type);
     history ← (fun s => (s, ConversationRepository.get_conversation_messages id s));
     let enhanced_message :=
       AgentService._enhance_message_with_context py_str dict_repr message history
         (default [] context) id in
     result ← lift (AgentService._run_agent_with_tools agent enhanced_message);
     let response_text := AgentService._extract_response_text result in
     _ ← ConversationRepository.add_message id "user" (PStr message)
           (AgentService.t_user env) (AgentService.t_user_updated env);
     _ ← ConversationRepository.add_message id "assistant" response_text
           (AgentService.t_assistant env) (AgentService.t_assistant_updated env);
     response_str ← lift (AgentService.validate_response response_text);
     mret {| AgentService.response := response_str;
             AgentService.chat_conversation_id := id;
             AgentService.agent_type := agent_type;
             AgentService.chat_timestamp := AgentService.t_response env;
             AgentService.meta_processing_time := AgentService.get_processing_time result;
             AgentService.meta_tool_used := AgentService._check_if_tools_used result |}) s1
    = match agents agent_type with
      | None =>
          (s1, Raise (AgentService.mkAgentException
                        ("Agent type " +:+ enum_str agent_type +:+ " not available")))
      | Some agent =>
          match s1 !! id with
          | None => (s1, Raise (Exn ValueError ("Conversation " +:+ id +:+ " not found")))
          | Some conv =>
              match AgentService._run_agent_with_tools agent
                      (AgentService._enhance_message_with_context py_str dict_repr message
                         (ConversationRepository.messages conv) (default [] context) id) with
              | Raise e => (s1, Raise e)
              | Ok result =>
                  let response_text := AgentService._extract_response_text result in
                  let s2 := <[id := Stated.appended conv env message response_text]> s1 in
                  match AgentService.validate_response response_text with
                  | Raise e => (s2, Raise e)
                  | Ok response_str =>
                      (s2, Ok {| AgentService.response := response_str;
                                 AgentService.chat_conversation_id := id;
                                 AgentService.agent_type := agent_type;
                                 AgentService.chat_timestamp := AgentService.t_response env;
                                 AgentService.meta_processing_time :=
                                   AgentService.get_processing_time result;
                                 AgentService.meta_tool_used :=
                                   AgentService._check_if_tools_used result |})
                  end
              end
          end
      end).
  { clear id s1. intros id s1. se_step. unfold AgentService._get_agent, Stated.appended.
    destruct (agents agent_type) as [agent|]; [|reflexivity].
    unfold ConversationRepository.get_conversation_messages,
      ConversationRepository.get_conversation.
    destruct (s1 !! id) as [conv|] eqn:Hconv; [|reflexivity].
    exc_step.
    destruct (AgentService._run_agent_with_tools agent _) as [result|e]; [|reflexivity].
    rewrite (add_message_found _ _ _ _ _ _ _ Hconv).
    rewrite (add_message_found _ _ _ _ _ _ _ (lookup_insert_eq s1 id _)).
    cbn [ConversationRepository.conversation_id ConversationRepository.user_id
         ConversationRepository.messages ConversationRepository.created_at].
    rewrite insert_insert_eq, <- app_assoc.
    cbv zeta.
    destruct (AgentService.validate_response _); reflexivity. }
  subst id s1. unfold Stated.resolved_id, Stated.resolved_store.
  rewrite <- Hafter.
  unfold AgentService.process_message_try. se_step.
  destruct (NewsTool.truthy_str conversation_id); reflexivity.
Qed.

End Requests.

(** X15. When no agent is registered for the requested type, the request
    fails before the store is read: the error is an agent error that wraps
    the agent error of [_get_agent], status prefix included, and the store
    is the resolved store.  So a request without a conversation identifier
    still leaves the newly created, empty conversation behind. *)
Theorem missing_agent_leaves_conversation
    (py_str : pyval -> string) (dict_repr : pydict -> string)
    (agents : AgentService.AgentType -> option AgentService.Agent)
    (enum_str : AgentService.AgentType -> string)
    (env : AgentService.Env) (message : string) (agent_type : AgentService.AgentType)
    (conversation_id : option string) (context : option pydict)
    (s : gmap string ConversationRepository.ConversationHistory) :
  agents agent_type = None ->
  AgentService.process_message py_str dict_repr agents enum_str env message agent_type
    conversation_id context s
  = (Stated.resolved_store env conversation_id s,
     Raise (Exn AgentException
              ("500: Agent error: Message processing failed: 500: Agent error: Agent type "
               +:+ enum_str agent_type +:+ " not available")))
  /\ (NewsTool.truthy_str conversation_id = false ->
      Stated.resolved_store env conversation_id s !! AgentService.uuid env
      = Some (ConversationRepository.mkConversationHistory (AgentService.uuid env)
                "anonymous" [] (AgentService.t_create env) (AgentService.t_create env))).
Proof.
  intros Hagent. split.
  - unfold AgentService.process_message.
    rewrite process_message_try_steps, Hagent. reflexivity.
  - intros Hcid. unfold Stated.resolved_store. rewrite Hcid.
    apply lookup_insert_eq.
Qed.

Lemma missing_agent_leaves_conversation_witness :
  let outcome :=
    AgentService.process_message str_plain dict_repr_plain (fun _ => None)
      (fun _ => "AgentType.FINANCIAL_MANAGER") Scenario.request_env "How is AAPL doing?"
      AgentService.FINANCIAL_MANAGER None None Scenario.one_conversation in
  snd outcome
  = Raise (Exn AgentException
             ("500: Agent error: Message processing failed: 500: Agent error: "
              +:+ "Agent type AgentType.FINANCIAL_MANAGER not available"))
  /\ fst outcome !! "c2"
     = Some (ConversationRepository.mkConversationHistory "c2" "anonymous" [] 21 21).
Proof.
  destruct (missing_agent_leaves_conversation str_plain dict_repr_plain (fun _ => None)
              (fun _ => "AgentType.FINANCIAL_MANAGER") Scenario.request_env
              "How is AAPL doing?" AgentService.FINANCIAL_MANAGER None None
              Scenario.one_conversation eq_refl) as [H1 H2].
  cbv zeta. rewrite H1. split; [reflexivity | exact (H2 eq_refl)].
Defined.

(** X16. A request for a conversation identifier that is not in the store
    fails with an agent error naming the identifier, whatever the agent
    would answer, and leaves the store as it was. *)
Theorem unknown_conversation_is_rejected
    (py_str : pyval -> string) (dict_repr : pydict -> string)
    (agents : AgentService.AgentType -> option AgentService.Agent)
    (enum_str : AgentService.AgentType -> string)
    (env : AgentService.Env) (message : string) (agent_type : AgentService.AgentType)
    (id : string) (context : option pydict) (agent : AgentService.Agent)
    (s : gmap string ConversationRepository.ConversationHistory) :
  id <> "" ->
  s !! id = None ->
  agents agent_type = Some agent ->
  AgentService.process_message py_str dict_repr agents enum_str env message agent_type
    (Some id) context s
  = (s, Raise (Exn AgentException
                 ("500: Agent error: Message processing failed: Conversation "
                  +:+ id +:+ " not found"))).
Proof.
  intros Hid Hs Hagent.
  assert (Hres : Stated.resolved_id env (Some id) = id
                 /\ Stated.resolved_store env (Some id) s = s).
  { unfold Stated.resolved_id, Stated.resolved_store. cbn [NewsTool.truthy_str].
    apply String.eqb_neq in Hid. rewrite Hid. split; reflexivity. }
  destruct Hres as [Hrid Hrs].
  unfold AgentService.process_message.
  rewrite process_message_try_steps, Hagent. cbv zeta. rewrite Hrid, Hrs, Hs.
  reflexivity.
Qed.

Lemma unknown_conversation_is_rejected_witness :
  AgentService.process_message str_plain dict_repr_plain
    (fun _ => Some Scenario.fixed_agent) (fun _ => "financial_manager")
    Scenario.request_env "How is AAPL doing?" AgentService.FINANCIAL_MANAGER
    (Some "c9") None Scenario.one_conversation
  = (Scenario.one_conversation,
     Raise (Exn AgentException
              "500: Agent error: Message processing failed: Conversation c9 not found")).
Proof.
  apply (unknown_conversation_is_rejected str_plain dict_repr_plain
           (fun _ => Some Scenario.fixed_agent) (fun _ => "financial_manager")
           Scenario.request_env "How is AAPL doing?" AgentService.FINANCIAL_MANAGER
           "c9" None Scenario.fixed_agent Scenario.one_conversation).
  - discriminate.
  - reflexivity.
  - reflexivity.
Defined.

(** X17. The extracted response text is a string, except when it is the
    [text] attribute of a result that has neither parts nor data.  A part
    whose content is not a string makes the join fail, and the text is then
    [str(result)]. *)
Theorem response_text_is_a_string (result : AgentService.AgentResult) :
  ((exists s, AgentService._extract_response_text result = PStr s)
   \/ (exists o t,
         result = AgentService.RObj o
         /\ (AgentService.parts o = None \/ AgentService.parts o = Some [])
         /\ AgentService.data o = None
         /\ AgentService.text o = Some t
         /\ AgentService._extract_response_text result = t))
  /\ (forall o p ps e,
        result = AgentService.RObj o ->
        AgentService.parts o = Some (p :: ps) ->
        AgentService.strings_of (AgentService.text_parts_of (p :: ps)) = Raise e ->
        AgentService._extract_response_text result = PStr (AgentService.as_string o)).
Proof.
  split.
  - unfold AgentService._extract_response_text.
    destruct result as [s|o]; [left; eexists; reflexivity|].
    destruct (AgentService.parts o) as [[|p ps]|] eqn:Hparts.
    + destruct (AgentService.data o) eqn:Hdata; [left; eexists; reflexivity|].
      destruct (AgentService.text o) as [t|] eqn:Htext; [|left; eexists; reflexivity].
      right. exists o, t. repeat split; auto.
    + left. destruct (AgentService.strings_of _); eexists; reflexivity.
    + destruct (AgentService.data o) eqn:Hdata; [left; eexists; reflexivity|].
      destruct (AgentService.text o) as [t|] eqn:Htext; [|left; eexists; reflexivity].
      right. exists o, t. repeat split; auto.
  - intros o p ps e -> Hparts Hjoin.
    unfold AgentService._extract_response_text. rewrite Hparts, Hjoin. reflexivity.
Qed.

Lemma slice_suffix_app {A} (older recent : list A) (k : Z) :
  k < 0 -> - k <= Z.of_nat (length recent) ->
  slice (older ++ recent) (Some k) None = slice recent (Some k) None.
Proof.
  intros Hk Hlen. unfold slice, clamp_bound.
  destruct (Z.ltb_spec k 0); [|lia].
  rewrite length_app, Nat2Z.inj_add.
  rewrite !Z.max_r by lia.
  replace (Z.to_nat (Z.of_nat (length older) + Z.of_nat (length recent) + k))
    with (length older + Z.to_nat (Z.of_nat (length recent) + k))%nat by lia.
  rewrite <- (drop_drop (older ++ recent)), drop_app_length.
  f_equal. lia.
Qed.

(** X18. Of the history, only the last six turns reach the prompt: turns
    before them change nothing. *)
Theorem prompt_uses_last_six_turns
    (py_str : pyval -> string) (dict_repr : pydict -> string)
    (message : string) (older recent : list ConversationRepository.Turn)
    (user_context : pydict) (conversation_id : string) :
  (6 <= length recent)%nat ->
  AgentService._enhance_message_with_context py_str dict_repr message (older ++ recent)
    user_context conversation_id
  = AgentService._enhance_message_with_context py_str dict_repr message recent
      user_context conversation_id.
Proof.
  intros Hlen.
  unfold AgentService._enhance_message_with_context, AgentService.context_lines.
  rewrite (slice_suffix_app older recent (-6)) by lia.
  destruct recent as [|t recent]; [simpl in Hlen; lia|].
  destruct older; reflexivity.
Qed.

Lemma prompt_uses_last_six_turns_witness :
  Scenario.eight_turns = firstn 2 Scenario.eight_turns ++ Scenario.last_six_turns
  /\ AgentService._enhance_message_with_context str_plain dict_repr_plain "And now?"
       (firstn 2 Scenario.eight_turns ++ Scenario.last_six_turns) [] "c1"
     = AgentService._enhance_message_with_context str_plain dict_repr_plain "And now?"
         Scenario.last_six_turns [] "c1".
Proof.
  split; [reflexivity|].
  apply (prompt_uses_last_six_turns str_plain dict_repr_plain "And now?"
           (firstn 2 Scenario.eight_turns) Scenario.last_six_turns [] "c1").
  simpl. lia.
Defined.

Lemma string_length_app (a b : string) :
  String.length (a +:+ b) = (String.length a + String.length b)%nat.
Proof.
  induction a as [|x a IH]; [reflexivity|].
  change (S (String.length (a +:+ b)) = S (String.length a + String.length b)).
  now f_equal.
Qed.

(** X19. The prompt is never shorter than the message plus its eighteen
    character label: the message is never cut.  So a message of more than
    3982 characters always exceeds the budget of 4000, the fallback is
    taken even in a conversation without history or context, and the
    fallback is itself longer than the budget. *)
Theorem prompt_never_shorter_than_message
    (py_str : pyval -> string) (dict_repr : pydict -> string)
    (message : string) (history : list ConversationRepository.Turn)
    (user_context : pydict) (conversation_id : string) :
  let assembled := join AgentService.nl
                     (AgentService.context_lines py_str message history user_context) in
  let result := AgentService._enhance_message_with_context py_str dict_repr
                  message history user_context conversation_id in
  (18 + String.length message <= String.length assembled)%nat
  /\ (18 + String.length message <= String.length result)%nat
  /\ ((3982 < String.length message)%nat ->
      result = AgentService.simplified_message dict_repr message user_context conversation_id
      /\ (4000 < String.length result)%nat).
Proof.
  intros assembled result.
  assert (Hasm : (18 + String.length message <= String.length assembled)%nat).
  { subst assembled. unfold AgentService.context_lines. rewrite app_assoc.
    destruct (join_last AgentService.nl
                ((match history with
                  | [] => []
                  | _ => ["Previous conversation:"]
                         ++ map (AgentService.history_line py_str)
                              (slice history (Some (-6)) None) ++ [""]
                  end)
                 ++ (match user_context with
                     | [] => []
                     | _ => ["User context:"]
                            ++ map (fun '(key, value) =>
                                      "- " +:+ key +:+ ": " +:+ py_str value) user_context
                            ++ [""]
                     end))
                ("Current question: " +:+ message)) as [prefix ->].
    rewrite !string_length_app. simpl String.length. lia. }
  assert (Hsimple : (29 + String.length message
                     <= String.length (AgentService.simplified_message dict_repr message
                                         user_context conversation_id))%nat).
  { unfold AgentService.simplified_message.
    rewrite !string_length_app. simpl String.length. lia. }
  split; [exact Hasm|].
  subst result. unfold AgentService._enhance_message_with_context. fold assembled.
  destruct (Nat.ltb_spec 4000 (String.length assembled)) as [Hlong|Hshort].
  - split; [lia|]. intros Hm. split; [reflexivity | lia].
  - split; [exact Hasm|]. intros Hm. lia.
Qed.

(* ===================================================================== *)
(** * Further properties: the store, start-up and the endpoints *)
(* ===================================================================== *)

Lemma exec_snoc (ops : list Stated.op) (o : Stated.op)
    (s : gmap string ConversationRepository.ConversationHistory) :
  Stated.exec (ops ++ [o]) s = Stated.apply_op o (Stated.exec ops s).
Proof. unfold Stated.exec. rewrite fold_left_app. reflexivity. Qed.

Lemma turns_for_app (id : string) (ops ops' : list Stated.op) :
  Stated.turns_for id (ops ++ ops') = Stated.turns_for id ops ++ Stated.turns_for id ops'.
Proof.
  induction ops as [|[fresh now user|id' role content ts now] ops IH]; simpl.
  - reflexivity.
  - exact IH.
  - destruct (String.eqb id id'); [simpl; f_equal|]; exact IH.
Qed.

(** X20. Whatever sequence of creations and appends built the store, with
    or without fresh identifiers, the record found under an identifier
    carries that identifier, and each of its messages is the turn of an
    append addressed to it. *)
Theorem stored_conversations_are_consistent
    (ops : list Stated.op) (id : string) (conv : ConversationRepository.ConversationHistory) :
  Stated.exec ops ∅ !! id = Some conv ->
  ConversationRepository.conversation_id conv = id
  /\ incl (ConversationRepository.messages conv) (Stated.turns_for id ops).
Proof.
  revert id conv. induction ops as [|o ops IH] using rev_ind; intros id conv.
  - intros H. simpl in H. rewrite lookup_empty in H. discriminate.
  - rewrite exec_snoc, turns_for_app.
    destruct o as [fresh now user|id' role content ts now]; simpl Stated.apply_op.
    + (* a creation *)
      simpl fst. destruct (decide (fresh = id)) as [->|Hne].
      * rewrite lookup_insert_eq. intros H. injection H as <-.
        split; [reflexivity | intros t []].
      * rewrite lookup_insert_ne by exact Hne. intros H.
        destruct (IH _ _ H) as [H1 H2]. split; [exact H1|].
        apply incl_appl, H2.
    + (* an append *)
      destruct (Stated.exec ops ∅ !! id') as [conv'|] eqn:E.
      * rewrite (add_message_found _ _ _ _ _ _ _ E). simpl fst.
        destruct (decide (id' = id)) as [->|Hne].
        -- rewrite lookup_insert_eq. intros H. injection H as <-.
           destruct (IH _ _ E) as [H1 H2]. split; [exact H1|].
           simpl. rewrite String.eqb_refl.
           apply incl_app; [apply incl_appl, H2 | apply incl_appr, incl_refl].
        -- rewrite lookup_insert_ne by exact Hne. intros H.
           destruct (IH _ _ H) as [H1 H2]. split; [exact H1 | apply incl_appl, H2].
      * rewrite (add_message_missing _ _ _ _ _ _ E). simpl fst. intros H.
        destruct (IH _ _ H) as [H1 H2]. split; [exact H1 | apply incl_appl, H2].
Qed.

Lemma stored_conversations_are_consistent_witness :
  exists conv,
    Stated.exec Scenario.rebuilding_ops ∅ !! "c1" = Some conv
    /\ ConversationRepository.messages conv
       = [ConversationRepository.mkTurn "user" (PStr "again") 5]
    /\ ConversationRepository.conversation_id conv = "c1"
    /\ incl (ConversationRepository.messages conv)
            (Stated.turns_for "c1" Scenario.rebuilding_ops).
Proof.
  eexists. split; [vm_compute; reflexivity|]. split; [reflexivity|].
  apply (stored_conversations_are_consistent Scenario.rebuilding_ops "c1").
  vm_compute. reflexivity.
Defined.

(** X21. Start-up either registers the constructed agent, after which
    [_get_agent] serves it for every agent type, or fails with an agent
    error that carries the cause and leaves the registry as it was; without
    an API key the cause names the missing variable. *)
Theorem startup_registers_or_reports
    (api_key : option string) (construct : exc AgentService.Agent)
    (enum_str : AgentService.AgentType -> string)
    (r : gmap AgentService.AgentType (option AgentService.Agent)) :
  match AgentRegistry.initialize_agents api_key construct r with
  | (r', Ok _) =>
      exists agent,
        NewsTool.truthy_str api_key = true
        /\ construct = Ok agent
        /\ r' = <[AgentService.FINANCIAL_MANAGER := Some agent]> r
        /\ forall agent_type,
             AgentService._get_agent (AgentRegistry.registered r') enum_str agent_type
             = Ok agent
  | (r', Raise e) =>
      r' = r
      /\ exn_class e = AgentException
      /\ (if NewsTool.truthy_str api_key
          then exists cause,
                 construct = Raise cause
                 /\ exn_msg e = "500: Agent error: Agent initialization failed: "
                                +:+ exn_msg cause
          else exn_msg e = "500: Agent error: Agent initialization failed: OPENAI_API_KEY environment variable is not set")
  end.
Proof.
  unfold AgentRegistry.initialize_agents, AgentFactory.create_financial_manager,
    FinancialManagerAgent.initialize.
  destruct (NewsTool.truthy_str api_key); cbn [negb snd].
  - destruct construct as [agent|cause]; cbn [snd].
    + exists agent. repeat split. intros [].
      unfold AgentService._get_agent, AgentRegistry.registered.
      rewrite lookup_insert_eq. reflexivity.
    + repeat split. exists cause. split; reflexivity.
  - repeat split.
Qed.

Lemma forallb_imap {A B} (p : B -> bool) (f : nat -> A -> B) (l : list A) :
  (forall i x, In x l -> p (f i x) = true) -> forallb p (imap f l) = true.
Proof.
  revert f. induction l as [|x l IH]; intros f H; [reflexivity|].
  cbn [imap forallb]. rewrite (H 0%nat x (or_introl eq_refl)).
  apply IH. intros i y Hy. apply H. right. exact Hy.
Qed.

Lemma startups_register_agents (attempts : list (option string * exc AgentService.Agent)) :
  map_Forall (fun _ instance => instance <> None) (Stated.after_startups attempts).
Proof.
  unfold Stated.after_startups.
  induction attempts as [|[api_key construct] attempts IH] using rev_ind.
  - apply map_Forall_empty.
  - rewrite fold_left_app. cbn [fold_left].
    unfold AgentRegistry.initialize_agents at 1.
    destruct (AgentFactory.create_financial_manager api_key construct); cbn [fst].
    + apply map_Forall_insert_2; [discriminate | exact IH].
    + exact IH.
Qed.

(** X22. The agents health check never reports "degraded": after any series
    of start-up attempts every listed agent is available and the status is
    "healthy".  This includes the registry in which no start-up succeeded,
    where the status is "healthy", no agent is listed, and [_get_agent]
    fails for every agent type. *)
Theorem health_is_never_degraded
    (attempts : list (option string * exc AgentService.Agent)) (clock : nat -> Z)
    (enum_str : AgentService.AgentType -> string) :
  let r := Stated.after_startups attempts in
  dict_lookup "status" (Health.agents_health_check clock r) = PStr "healthy"
  /\ Forall (fun status => AgentRegistry.is_available status = true)
            (AgentRegistry.get_agent_status clock r)
  /\ (r = ∅ ->
      Health.agents_health_check clock r
      = [("status", PStr "healthy"); ("agents", PDict [])]
      /\ forall agent_type,
           AgentService._get_agent (AgentRegistry.registered r) enum_str agent_type
           = Raise (AgentService.mkAgentException
                      ("Agent type " +:+ enum_str agent_type +:+ " not available"))).
Proof.
  intros r.
  assert (Hall : forallb AgentRegistry.is_available (AgentRegistry.get_agent_status clock r)
                 = true).
  { unfold AgentRegistry.get_agent_status. apply forallb_imap.
    intros i [agent_type instance] Hin. cbn.
    apply list_elem_of_In, elem_of_map_to_list in Hin.
    pose proof (startups_register_agents attempts _ _ Hin) as Hsome.
    destruct instance; [reflexivity | congruence]. }
  split; [|split].
  - unfold Health.agents_health_check. cbv zeta. rewrite Hall. reflexivity.
  - apply List.Forall_forall. intros status Hin.
    exact (proj1 (forallb_forall _ _) Hall status Hin).
  - intros ->. split.
    + unfold Health.agents_health_check, AgentRegistry.get_agent_status.
      rewrite map_to_list_empty. reflexivity.
    + intros agent_type. unfold AgentService._get_agent, AgentRegistry.registered.
      rewrite lookup_empty. reflexivity.
Qed.

Lemma process_message_raises_agent_errors
    (py_str : pyval -> string) (dict_repr : pydict -> string)
    (agents : AgentService.AgentType -> option AgentService.Agent)
    (enum_str : AgentService.AgentType -> string)
    (env : AgentService.Env) (message : string) (agent_type : AgentService.AgentType)
    (conversation_id : option string) (context : option pydict)
    (s s' : gmap string ConversationRepository.ConversationHistory) (e : exn) :
  AgentService.process_message py_str dict_repr agents enum_str env message agent_type
    conversation_id context s = (s', Raise e) ->
  exn_class e = AgentException.
Proof.
  unfold AgentService.process_message.
  destruct (AgentService.process_message_try _ _ _ _ _ _ _ _ _ _) as [s'' [r|e']];
    intros H; inversion H. reflexivity.
Qed.

Lemma process_message_ok_inv
    (py_str : pyval -> string) (dict_repr : pydict -> string)
    (agents : AgentService.AgentType -> option AgentService.Agent)
    (enum_str : AgentService.AgentType -> string)
    (env : AgentService.Env) (message : string) (agent_type : AgentService.AgentType)
    (conversation_id : option string) (context : option pydict)
    (s s' : gmap string ConversationRepository.ConversationHistory)
    (r : AgentService.ChatResponse) :
  AgentService.process_message py_str dict_repr agents enum_str env message agent_type
    conversation_id context s = (s', Ok r) ->
  exists conv,
    Stated.resolved_store env conversation_id s !! Stated.resolved_id env conversation_id
    = Some conv
    /\ AgentService.chat_conversation_id r = Stated.resolved_id env conversation_id
    /\ s' = <[Stated.resolved_id env conversation_id :=
                Stated.appended conv env message (PStr (AgentService.response r))]>
              (Stated.resolved_store env conversation_id s).
Proof.
  unfold AgentService.process_message.
  rewrite process_message_try_steps. cbv zeta.
  destruct (agents agent_type) as [agent|]; [|discriminate].
  destruct (Stated.resolved_store env conversation_id s
              !! Stated.resolved_id env conversation_id) as [conv|]; [|discriminate].
  destruct (AgentService._run_agent_with_tools agent _) as [result|e]; [|discriminate].
  destruct (AgentService._extract_response_text result) as [| | |text| |];
    cbn [AgentService.validate_response]; try discriminate.
  intros H. injection H as <- <-. exists conv. repeat split.
Qed.

(** X23. The chat endpoint passes the agent errors of the service on
    unchanged and never answers with the generic "Internal server error":
    every failure of [process_message] is an agent error.  An absent and an
    empty request context are the same request. *)
Theorem chat_failures_are_agent_errors
    (py_str : pyval -> string) (dict_repr : pydict -> string)
    (agents : AgentService.AgentType -> option AgentService.Agent)
    (enum_str : AgentService.AgentType -> string)
    (env : AgentService.Env) (request : Controller.ChatRequest)
    (s : gmap string ConversationRepository.ConversationHistory) :
  Controller.chat_with_agent py_str dict_repr agents enum_str env request s
  = match AgentService.process_message py_str dict_repr agents enum_str env
            (Controller.message request) (Controller.request_agent_type request)
            (Controller.request_conversation_id request)
            (Controller.context request) s with
    | (s', Ok response) => (s', inl response)
    | (s', Raise e) => (s', inr (Controller.Reraised e))
    end
  /\ (forall status_code detail,
        snd (Controller.chat_with_agent py_str dict_repr agents enum_str env request s)
        <> inr (Controller.HTTPException status_code detail))
  /\ (forall e,
        snd (Controller.chat_with_agent py_str dict_repr agents enum_str env request s)
        = inr (Controller.Reraised e) ->
        exn_class e = AgentException
        /\ exists cause,
             exn_msg e = "500: Agent error: Message processing failed: " +:+ cause).
Proof.
  assert (Hctx : AgentService.process_message py_str dict_repr agents enum_str env
            (Controller.message request) (Controller.request_agent_type request)
            (Controller.request_conversation_id request)
            (Some (Controller.context_or_empty (Controller.context request))) s
          = AgentService.process_message py_str dict_repr agents enum_str env
              (Controller.message request) (Controller.request_agent_type request)
              (Controller.request_conversation_id request)
              (Controller.context request) s).
  { unfold AgentService.process_message. rewrite !process_message_try_steps.
    destruct (Controller.context request) as [[|item items]|]; reflexivity. }
  unfold Controller.chat_with_agent. rewrite Hctx.
  unfold AgentService.process_message.
  destruct (AgentService.process_message_try _ _ _ _ _ _ _ _ _ _) as [s' [r|e']].
  - split; [reflexivity|]. split; [discriminate|]. discriminate.
  - cbn [Controller.is_AgentException AgentService.mkAgentException exn_class snd].
    split; [reflexivity|]. split; [discriminate|].
    intros e H. injection H as <-. split; [reflexivity | exists (exn_msg e'); reflexivity].
Qed.

(** X24. After a chat request that returned, the history endpoint returns,
    under the identifier of the reply, the conversation whose messages are
    the earlier ones followed by the user turn with the message and the
    assistant turn with the reply; for an identifier that is not in the
    store it raises an agent error naming the identifier. *)
Theorem chat_then_history
    (py_str : pyval -> string) (dict_repr : pydict -> string)
    (agents : AgentService.AgentType -> option AgentService.Agent)
    (enum_str : AgentService.AgentType -> string)
    (env : AgentService.Env) (request : Controller.ChatRequest)
    (s s' : gmap string ConversationRepository.ConversationHistory)
    (reply : AgentService.ChatResponse) :
  Controller.chat_with_agent py_str dict_repr agents enum_str env request s
  = (s', inl reply) ->
  (exists before after,
      Stated.resolved_store env (Controller.request_conversation_id request) s
        !! AgentService.chat_conversation_id reply = Some before
      /\ Controller.get_conversation_history (AgentService.chat_conversation_id reply) s'
         = Ok after
      /\ ConversationRepository.messages after
         = ConversationRepository.messages before
           ++ [ConversationRepository.mkTurn "user" (PStr (Controller.message request))
                 (AgentService.t_user env);
               ConversationRepository.mkTurn "assistant" (PStr (AgentService.response reply))
                 (AgentService.t_assistant env)]
      /\ ConversationRepository.conversation_id after
         = ConversationRepository.conversation_id before
      /\ ConversationRepository.created_at after = ConversationRepository.created_at before
      /\ ConversationRepository.updated_at after = AgentService.t_assistant_updated env)
  /\ (forall id,
        s' !! id = None ->
        Controller.get_conversation_history id s'
        = Raise (Exn AgentException
                   ("500: Agent error: Conversation not found: Conversation "
                    +:+ id +:+ " not found"))).
Proof.
  intros H. split.
  - unfold Controller.chat_with_agent in H.
    destruct (AgentService.process_message _ _ _ _ _ _ _ _ _ _) as [s'' [r|e]] eqn:E.
    2:{ destruct (Controller.is_AgentException e); discriminate. }
    injection H as -> ->.
    apply process_message_ok_inv in E as [conv [Hconv [Hid Hs']]].
    exists conv, (Stated.appended conv env (Controller.message request)
                    (PStr (AgentService.response reply))).
    rewrite Hid. split; [exact Hconv|].
    split.
    + unfold Controller.get_conversation_history, AgentRegistry.get_conversation_history,
        ConversationRepository.get_conversation.
      rewrite Hs', lookup_insert_eq. reflexivity.
    + repeat split.
  - intros id Hid.
    unfold Controller.get_conversation_history, AgentRegistry.get_conversation_history,
      ConversationRepository.get_conversation.
    rewrite Hid. reflexivity.
Qed.

Lemma chat_then_history_witness :
  let request := Controller.mkChatRequest "How is AAPL doing?"
                   AgentService.FINANCIAL_MANAGER (Some "c1") None in
  let outcome :=
    Controller.chat_with_agent str_plain dict_repr_plain
      (fun _ => Some Scenario.fixed_agent) (fun _ => "financial_manager")
      Scenario.request_env request Scenario.one_conversation in
  exists reply after,
    snd outcome = inl reply
    /\ AgentService.response reply = "AAPL is up 4%."
    /\ Controller.get_conversation_history "c1" (fst outcome) = Ok after
    /\ ConversationRepository.messages after
       = [ConversationRepository.mkTurn "user" (PStr "hello") 10;
          ConversationRepository.mkTurn "user" (PStr "How is AAPL doing?") 22;
          ConversationRepository.mkTurn "assistant" (PStr "AAPL is up 4%.") 24].
Proof.
  intros request outcome.
  destruct (chat_then_history str_plain dict_repr_plain
              (fun _ => Some Scenario.fixed_agent) (fun _ => "financial_manager")
              Scenario.request_env request Scenario.one_conversation
              (fst outcome) (Scenario.envelope_of outcome) eq_refl)
    as [[before [after [Hb [Ha [Hm _]]]]] _].
  exists (Scenario.envelope_of outcome), after.
  split; [reflexivity|]. split; [reflexivity|]. split; [exact Ha|].
  rewrite Hm. vm_compute in Hb. injection Hb as <-. reflexivity.
Defined.

(* ===================================================================== *)
(** * Further properties: end to end *)
(* ===================================================================== *)

(** X25. When the agent call fails with anything but a keyword-argument
    [TypeError], no other calling convention is tried, the request fails
    with that error's message, and nothing is stored: the user's message is
    not in the conversation. *)
Theorem agent_failure_stores_nothing
    (py_str : pyval -> string) (dict_repr : pydict -> string)
    (agents : AgentService.AgentType -> option AgentService.Agent)
    (enum_str : AgentService.AgentType -> string)
    (env : AgentService.Env) (message : string) (agent_type : AgentService.AgentType)
    (conversation_id : option string) (context : option pydict)
    (s : gmap string ConversationRepository.ConversationHistory)
    (agent : AgentService.Agent) (conv : ConversationRepository.ConversationHistory)
    (e : exn) :
  let id := Stated.resolved_id env conversation_id in
  let s1 := Stated.resolved_store env conversation_id s in
  agents agent_type = Some agent ->
  s1 !! id = Some conv ->
  AgentService.run agent
    (AgentService._enhance_message_with_context py_str dict_repr message
       (ConversationRepository.messages conv) (default [] context) id) = Raise e ->
  AgentService.is_TypeError e
  && contains "unexpected keyword argument" (exn_msg e) = false ->
  AgentService.process_message py_str dict_repr agents enum_str env message agent_type
    conversation_id context s
  = (s1, Raise (Exn AgentException
                  ("500: Agent error: Message processing failed: " +:+ exn_msg e))).
Proof.
  intros id s1 Hagent Hconv Hrun Hkind.
  unfold AgentService.process_message.
  rewrite process_message_try_steps. cbv zeta. fold id s1. rewrite Hagent, Hconv.
  unfold AgentService._run_agent_with_tools. rewrite Hrun.
  destruct (AgentService.is_TypeError e); [|reflexivity].
  cbn [andb] in Hkind. rewrite Hkind. reflexivity.
Qed.

Lemma agent_failure_stores_nothing_witness :
  Scenario.request Scenario.failing_agent
  = (Scenario.one_conversation,
     Raise (Exn AgentException
              "500: Agent error: Message processing failed: model overloaded")).
Proof.
  apply (agent_failure_stores_nothing str_plain dict_repr_plain
           (fun _ => Some Scenario.failing_agent) (fun _ => "financial_manager")
           Scenario.request_env "How is AAPL doing?" AgentService.FINANCIAL_MANAGER
           (Some "c1") None Scenario.one_conversation Scenario.failing_agent
           Scenario.one_turn (Exn HTTPError "model overloaded")).
  - reflexivity.
  - reflexivity.
  - reflexivity.
  - reflexivity.
Defined.

(** X26. Offline, that is when the price fetch fails and no news
    credential is configured, the comprehensive analysis of every symbol
    and period reports the same three insights: positive sentiment, high
    greed, and three key developments; the price placeholder contributes
    none, and the sentiment analysis is "positive" with index 76. *)
Theorem offline_analysis_insights
    (fetch : string -> string -> string -> exc PriceTool.Quotes) (now : Z)
    (set_order : list string -> list string) (days_ago_iso : nat -> string)
    (news_api_key : option string) (http_get : string -> Z -> exc pyval)
    (py_str : pyval -> string) (symbol period : string) (e : exn) :
  fetch (PriceTool.format_symbol symbol)
        (PriceTool.assoc_get period PriceTool.period_map "1mo") "1d" = Raise e ->
  NewsTool.truthy_str news_api_key = false ->
  let analysis :=
    AgentTool.get_comprehensive_analysis
      (AgentTool.wired_price_call fetch now)
      (AgentTool.wired_news_call now set_order days_ago_iso news_api_key http_get)
      py_str symbol period in
  dict_lookup "key_insights" analysis
  = PList [PStr AgentTool.positive_phrase; PStr AgentTool.greed_phrase;
           PStr (AgentTool.headlines_phrase 3)]
  /\ exists price_data news_data,
       dict_lookup "price_analysis" analysis = PDict price_data
       /\ dict_lookup "current_price" price_data = PNum 0
       /\ dict_lookup "sentiment_analysis" analysis = PDict news_data
       /\ dict_lookup "overall_sentiment" news_data = PStr "positive"
       /\ dict_lookup "fear_greed_index" news_data = PNum 76.
Proof.
  intros Hfetch Hkey analysis. subst analysis.
  unfold AgentTool.get_comprehensive_analysis. cbn [try_except].
  assert (Hprice : AgentTool._get_price_analysis_impl
                     (AgentTool.wired_price_call fetch now) symbol period
                   = AgentTool.price_placeholder symbol period
                       (Exn AttributeError "'NoneType' object has no attribute 'symbol'")).
  { unfold AgentTool._get_price_analysis_impl, AgentTool.wired_price_call.
    pose proof (failed_fetch_gives_none fetch now symbol period "1d") as H.
    rewrite Hfetch in H. destruct H as [_ ->]. reflexivity. }
  assert (Hnews : AgentTool._get_news_sentiment_impl
                    (AgentTool.wired_news_call now set_order days_ago_iso news_api_key
                       http_get) symbol 5
                  = AgentTool.news_response
                      (NewsTool._get_mock_news set_order days_ago_iso now symbol None 5)).
  { unfold AgentTool._get_news_sentiment_impl, AgentTool.wired_news_call,
      NewsTool.get_financial_news. rewrite Hkey. reflexivity. }
  rewrite Hprice, Hnews.
  unfold NewsTool._get_mock_news.
  destruct (mock_table_cases (upper symbol)) as [t1 [s1 [t2 [s2 [t3 [s3 ->]]]]]].
  split.
  - reflexivity.
  - eexists _, _. repeat split.
Qed.

Lemma offline_analysis_insights_witness :
  dict_lookup "key_insights"
    (AgentTool.get_comprehensive_analysis
       (AgentTool.wired_price_call Scenario.no_reply 0)
       (AgentTool.wired_news_call 0 Scenario.themes_in_order Scenario.days_ago None
          Scenario.no_news_reply)
       str_plain "NVDA" "1year")
  = PList [PStr "Positive market sentiment aligns with recent news flow";
           PStr "High greed index suggests optimistic market sentiment";
           PStr "Recent news includes 3 key developments"].
Proof.
  exact (proj1 (offline_analysis_insights Scenario.no_reply 0 Scenario.themes_in_order
                  Scenario.days_ago None Scenario.no_news_reply str_plain "NVDA" "1year"
                  (Exn HTTPError "All connection attempts failed") eq_refl eq_refl)).
Defined.
